(** * Trading-App: strategy evaluation and auto-trading loop

    A shallow embedding of the strategy routes of the server
    (server/sockets/marketData.js, whose indicator and evaluation
    functions are those of its earlier copy), of the live trading
    engine (src/components/LiveTradingEngine.tsx) and of the candle
    aggregation helper (src/utils/candleUtils.ts).

    JavaScript numbers are IEEE 754 binary64 values: they are embedded
    as Rocq's primitive floats, so every arithmetic step and every
    comparison below rounds and treats NaN exactly as the source does.
    Array lengths, loop counters and the period parameters are integer
    valued in the source and are embedded as [Z]. *)

From Stdlib Require Import ZArith Lia Bool.
From Stdlib Require Import Floats.
From stdpp Require Import base list gmap strings.

Set Warnings "-inexact-float".
Local Open Scope Z_scope.

(** ** JavaScript numbers, arrays and Math *)

Module JS.

Definition number := float.
Bind Scope float_scope with number.

(** An integer valued number (exact for magnitudes below 2^53). *)
Definition of_Z (z : Z) : number :=
  match z with
  | Z0 => 0%float
  | Zpos _ => PrimFloat.of_uint63 (Uint63.of_Z z)
  | Zneg p => PrimFloat.opp (PrimFloat.of_uint63 (Uint63.of_Z (Zpos p)))
  end.

(** Relational operators: [a < b], [a <= b], [a > b], [a >= b],
    [a === b] on numbers.  Each is false as soon as one side is NaN. *)
Definition lt (a b : number) : bool := PrimFloat.ltb a b.
Definition le (a b : number) : bool := PrimFloat.leb a b.
Definition gt (a b : number) : bool := PrimFloat.ltb b a.
Definition ge (a b : number) : bool := PrimFloat.leb b a.
Definition eq (a b : number) : bool := PrimFloat.eqb a b.

(** [x || d] on numbers: the falsy numbers are 0, -0 and NaN. *)
Definition or_else (x d : number) : number :=
  if PrimFloat.is_nan x || PrimFloat.is_zero x then d else x.

Definition Math_abs (x : number) : number := PrimFloat.abs x.
Definition Math_sqrt (x : number) : number := PrimFloat.sqrt x.

Definition Math_max (a b : number) : number :=
  if PrimFloat.is_nan a || PrimFloat.is_nan b then PrimFloat.nan
  else if PrimFloat.ltb a b then b
  else if PrimFloat.ltb b a then a
  else if PrimFloat.get_sign a then b else a.

Definition Math_min (a b : number) : number :=
  if PrimFloat.is_nan a || PrimFloat.is_nan b then PrimFloat.nan
  else if PrimFloat.ltb a b then a
  else if PrimFloat.ltb b a then b
  else if PrimFloat.get_sign a then a else b.

(** [Math.floor]: below 2^52 in magnitude, adding and removing 2^52
    rounds to the nearest integer, which is then corrected downwards;
    larger numbers, infinities and NaN are their own floor. *)
Definition two52 : number := 4503599627370496%float.

Definition Math_floor (x : number) : number :=
  if PrimFloat.is_nan x || PrimFloat.is_zero x then x
  else if PrimFloat.leb two52 (PrimFloat.abs x) then x
  else
    let t := if PrimFloat.ltb x 0
             then PrimFloat.add (PrimFloat.sub x two52) two52
             else PrimFloat.sub (PrimFloat.add x two52) two52 in
    if PrimFloat.ltb x t then PrimFloat.sub t 1 else t.

(** [Math.pow(x, 2)], taken as the product [x * x]. *)
Definition Math_pow2 (x : number) : number := PrimFloat.mul x x.

(** Reading [a[i]] where the result is used as a number: an index out
    of range yields [undefined], whose numeric value is NaN. *)
Definition get (a : list number) (i : Z) : number :=
  if i <? 0 then PrimFloat.nan else nth (Z.to_nat i) a PrimFloat.nan.

(** Reading [a[i]] where the result is used as an object. *)
Definition at_index {A} (a : list A) (i : Z) : option A :=
  if i <? 0 then None else a !! Z.to_nat i.

Definition len {A} (a : list A) : Z := Z.of_nat (length a).

(** [Array.prototype.slice(start, end)] with its relative indices. *)
Definition rel_index (n k : Z) : Z :=
  if k <? 0 then Z.max (n + k) 0 else Z.min k n.

Definition slice {A} (a : list A) (start stop : Z) : list A :=
  let k := rel_index (len a) start in
  let fin := rel_index (len a) stop in
  take (Z.to_nat (fin - k)) (drop (Z.to_nat k) a).

(** [a.slice(start)] *)
Definition slice_from {A} (a : list A) (start : Z) : list A :=
  slice a start (len a).

(** The last [n] elements of an array. *)
Definition last_n {A} (n : nat) (a : list A) : list A :=
  drop (length a - n) a.

(** [a.reduce((x, y) => x + y, 0)] *)
Definition sum (a : list number) : number :=
  fold_left PrimFloat.add a 0%float.

(** The exceptions the embedded code can raise or receive. *)
Inductive error : Type :=
| TypeError (msg : string)
| ExternalError (msg : string).

Definition message (e : error) : string :=
  match e with TypeError m => m | ExternalError m => m end.

(** Result of a computation that may throw. *)
Inductive completion (A : Type) : Type :=
| Normal (a : A)
| Throw (e : error).
Arguments Normal {A} a.
Arguments Throw {A} e.

End JS.

Import JS.

(** ** Signals and strategy configuration *)

Inductive Action : Type := BUY | SELL | HOLD.

#[global] Instance Action_eq_dec : EqDecision Action.
Proof. solve_decision. Defined.

Definition Action_to_string (a : Action) : string :=
  match a with BUY => "BUY" | SELL => "SELL" | HOLD => "HOLD" end.

(** The object literal [{ action, confidence }] the evaluators return. *)
Record Signal : Type := mkSignal {
  action : Action;
  confidence : number
}.

Definition hold0 : Signal := {| action := HOLD; confidence := 0%float |}.

Inductive StrategyType : Type :=
| ema_crossover
| rsi_oversold
| sma_trend
| bollinger_bands
| other_type (name : string).

(** [strategy.parameters].  Every evaluator reads the fields of its own
    strategy type; the periods are integer counts. *)
Record Parameters : Type := mkParameters {
  fastPeriod : Z;
  slowPeriod : Z;
  rsiPeriod : Z;
  oversoldLevel : number;
  overboughtLevel : number;
  shortPeriod : Z;
  longPeriod : Z;
  trendStrength : number;
  period : Z;
  stdDev : number;
  meanReversion : bool;
  quantity : number;
  stopLoss : number;
  takeProfit : number;
  trailingStop : bool
}.

(** ** Technical analysis functions of the server *)

Module Indicators.

Local Open Scope float_scope.

Fixpoint ema_loop (multiplier ema : number) (rest : list number)
  : list number :=
  match rest with
  | [] => []
  | p :: rest' =>
      let ema' := (p - ema) * multiplier + ema in
      ema' :: ema_loop multiplier ema' rest'
  end.

Definition calculateEMA (prices : list number) (period : Z) : list number :=
  let multiplier := 2 / (of_Z period + 1) in
  let ema := get prices 0 in
  ema :: ema_loop multiplier ema (tail prices).

Definition calculateSMA (prices : list number) (period : Z) : list number :=
  map (fun i : Z =>
         let sum := JS.sum (slice prices (i - period + 1) (i + 1)) in
         sum / of_Z period)
      (seqZ (period - 1) (len prices - (period - 1))).

(** The successive differences [prices[i] - prices[i - 1]]. *)
Fixpoint changes (prices : list number) : list number :=
  match prices with
  | a :: (b :: _) as rest => (b - a) :: changes rest
  | _ => []
  end.

Definition calculateRSI (prices : list number) (period : Z) : number :=
  let gains := map (fun change => if gt change 0 then change else 0)
                   (changes prices) in
  let losses := map (fun change => if lt change 0 then Math_abs change else 0)
                    (changes prices) in
  let avgGain := JS.sum (slice gains 0 period) / of_Z period in
  let avgLoss := JS.sum (slice losses 0 period) / of_Z period in
  let rs := avgGain / avgLoss in
  100 - (100 / (1 + rs)).

Record Band : Type := mkBand {
  upper : number;
  middle : number;
  lower : number
}.

Definition calculateBollingerBands
    (prices : list number) (period : Z) (stdDev : number) : list Band :=
  let sma := calculateSMA prices period in
  imap (fun (i : nat) (mean : number) =>
          let window := slice prices (Z.of_nat i) (Z.of_nat i + period) in
          let variance :=
            fold_left (fun sum price => sum + Math_pow2 (price - mean))
                      window 0 / of_Z period in
          let standardDeviation := Math_sqrt variance in
          {| upper := mean + (stdDev * standardDeviation);
             middle := mean;
             lower := mean - (stdDev * standardDeviation) |})
       sma.

End Indicators.

(** ** Strategy evaluation functions of the server *)

Module Evaluators.

Import Indicators.
Local Open Scope float_scope.

Definition evaluateEMACrossover (prices : list number) (parameters : Parameters)
  : Signal :=
  if (len prices <? slowPeriod parameters)%Z then hold0
  else
    let fastEMA := calculateEMA prices (fastPeriod parameters) in
    let slowEMA := calculateEMA prices (slowPeriod parameters) in
    let currentFast := get fastEMA (len fastEMA - 1) in
    let currentSlow := get slowEMA (len slowEMA - 1) in
    let prevFast := get fastEMA (len fastEMA - 2) in
    let prevSlow := get slowEMA (len slowEMA - 2) in
    if le prevFast prevSlow && gt currentFast currentSlow
    then {| action := BUY; confidence := 85 |}
    else if ge prevFast prevSlow && lt currentFast currentSlow
    then {| action := SELL; confidence := 85 |}
    else hold0.

Definition evaluateRSIOversold (prices : list number) (parameters : Parameters)
  : Signal :=
  if (len prices <? rsiPeriod parameters + 1)%Z then hold0
  else
    let rsi := calculateRSI prices (rsiPeriod parameters) in
    if le rsi (oversoldLevel parameters)
    then {| action := BUY; confidence := Math_max 60 (100 - rsi) |}
    else if ge rsi (overboughtLevel parameters)
    then {| action := SELL; confidence := Math_max 60 (rsi - 50) |}
    else hold0.

Definition evaluateSMATrend (prices : list number) (parameters : Parameters)
  : Signal :=
  if (len prices <? longPeriod parameters)%Z then hold0
  else
    let shortSMA := calculateSMA prices (shortPeriod parameters) in
    let longSMA := calculateSMA prices (longPeriod parameters) in
    let currentShort := get shortSMA (len shortSMA - 1) in
    let currentLong := get longSMA (len longSMA - 1) in
    let currentPrice := get prices (len prices - 1) in
    let strength := Math_abs (currentShort - currentLong) / currentPrice in
    if gt currentShort currentLong
       && gt strength (trendStrength parameters / 100)
    then {| action := BUY;
            confidence := Math_min 90 (60 + (strength * 1000)) |}
    else if lt currentShort currentLong
            && gt strength (trendStrength parameters / 100)
    then {| action := SELL;
            confidence := Math_min 90 (60 + (strength * 1000)) |}
    else hold0.

(** The two EMA readings the crossover test compares:
    [ema[ema.length - 1]] and [ema[ema.length - 2]]. *)
Definition currentEMA (prices : list number) (period : Z) : number :=
  let ema := calculateEMA prices period in get ema (len ema - 1).
Definition prevEMA (prices : list number) (period : Z) : number :=
  let ema := calculateEMA prices period in get ema (len ema - 2).

(** [currentBand.lower] throws a TypeError when [bands] is empty. *)
Definition evaluateBollingerBands (prices : list number) (parameters : Parameters)
  : completion Signal :=
  if (len prices <? period parameters)%Z then Normal hold0
  else
    let bands := calculateBollingerBands prices (period parameters)
                                         (stdDev parameters) in
    match at_index bands (len bands - 1) with
    | None => Throw (TypeError "Cannot read properties of undefined")
    | Some currentBand =>
        let currentPrice := get prices (len prices - 1) in
        if meanReversion parameters then
          if le currentPrice (lower currentBand)
          then Normal {| action := BUY; confidence := 80 |}
          else if ge currentPrice (upper currentBand)
          then Normal {| action := SELL; confidence := 80 |}
          else Normal hold0
        else
          if gt currentPrice (upper currentBand)
          then Normal {| action := BUY; confidence := 75 |}
          else if lt currentPrice (lower currentBand)
          then Normal {| action := SELL; confidence := 75 |}
          else Normal hold0
    end.

End Evaluators.

(** ** Strategy registry entries and the price history of the server *)

Module Registry.

Record Performance : Type := mkPerformance {
  totalTrades : Z;
  winRate : number;
  totalPnL : number;
  maxDrawdown : number;
  sharpeRatio : number
}.

(** What [evaluateStrategy] returns for an actionable signal:
    [{ ...signal, timestamp: Date.now(), price: history[last] }]. *)
Record StrategySignal : Type := mkStrategySignal {
  signal : Signal;
  timestamp : number;
  price : number
}.

Record Strategy : Type := mkStrategy {
  id : string;
  name : string;
  type : StrategyType;
  symbol : string;
  enabled : bool;
  parameters : Parameters;
  performance : Performance;
  lastSignal : option StrategySignal
}.

Definition noPerformance : Performance :=
  {| totalTrades := 0; winRate := 0; totalPnL := 0;
     maxDrawdown := 0; sharpeRatio := 0 |}.

(** The parameter objects of [initializeStrategies].  An evaluator
    reads only the fields of its own strategy type; the fields an
    object literal does not carry are filled with zeros here.  In the
    source such a field reads [undefined]: an entry whose [type] has
    been changed by an update while its parameters were kept is
    evaluated there with the defaults of the indicator functions, and
    is not represented by these records. *)
Definition ema_parameters (fast slow : Z) (qty sl tp : number) (trailing : bool)
  : Parameters :=
  {| fastPeriod := fast; slowPeriod := slow;
     rsiPeriod := 0; oversoldLevel := 0; overboughtLevel := 0;
     shortPeriod := 0; longPeriod := 0; trendStrength := 0;
     period := 0; stdDev := 0; meanReversion := false;
     quantity := qty; stopLoss := sl; takeProfit := tp;
     trailingStop := trailing |}.

Definition rsi_parameters (n : Z) (oversold overbought qty sl tp : number)
  : Parameters :=
  {| fastPeriod := 0; slowPeriod := 0;
     rsiPeriod := n; oversoldLevel := oversold; overboughtLevel := overbought;
     shortPeriod := 0; longPeriod := 0; trendStrength := 0;
     period := 0; stdDev := 0; meanReversion := false;
     quantity := qty; stopLoss := sl; takeProfit := tp;
     trailingStop := false |}.

Definition sma_parameters (short long : Z) (strength qty sl tp : number)
  : Parameters :=
  {| fastPeriod := 0; slowPeriod := 0;
     rsiPeriod := 0; oversoldLevel := 0; overboughtLevel := 0;
     shortPeriod := short; longPeriod := long; trendStrength := strength;
     period := 0; stdDev := 0; meanReversion := false;
     quantity := qty; stopLoss := sl; takeProfit := tp;
     trailingStop := false |}.

Definition bollinger_parameters (n : Z) (dev qty sl tp : number) (reversion : bool)
  : Parameters :=
  {| fastPeriod := 0; slowPeriod := 0;
     rsiPeriod := 0; oversoldLevel := 0; overboughtLevel := 0;
     shortPeriod := 0; longPeriod := 0; trendStrength := 0;
     period := n; stdDev := dev; meanReversion := reversion;
     quantity := qty; stopLoss := sl; takeProfit := tp;
     trailingStop := false |}.

Definition defaultStrategies : list Strategy :=
  [ {| id := "ema_crossover_1"; name := "EMA Crossover NIFTY";
       type := ema_crossover; symbol := "NIFTY.NS"; enabled := false;
       parameters := ema_parameters 9 21 25 2 4 true;
       performance := noPerformance; lastSignal := None |};
    {| id := "rsi_oversold_1"; name := "RSI Oversold BANKNIFTY";
       type := rsi_oversold; symbol := "BANKNIFTY.NS"; enabled := false;
       parameters := rsi_parameters 14 30 70 15 1.5 3;
       performance := noPerformance; lastSignal := None |};
    {| id := "sma_trend_1"; name := "SMA Trend RELIANCE";
       type := sma_trend; symbol := "RELIANCE.NS"; enabled := false;
       parameters := sma_parameters 20 50 1.2 10 2.5 5;
       performance := noPerformance; lastSignal := None |};
    {| id := "bollinger_bands_1"; name := "Bollinger Bands TCS";
       type := bollinger_bands; symbol := "TCS.NS"; enabled := false;
       parameters := bollinger_parameters 20 2 5 1.8 3.5 true;
       performance := noPerformance; lastSignal := None |} ]%float.

(** [priceHistory]: a Map from symbol to the array of its prices. *)
Abbreviation PriceHistory := (gmap string (list number)).

(** [history.push(price); if (history.length > 200) history.shift()] *)
Definition push_capped (history : list number) (price : number) : list number :=
  let history' := history ++ [price] in
  if 200 <? len history' then tail history' else history'.

Definition addToHistory (priceHistory : PriceHistory) (symbol : string)
    (price : number) : PriceHistory :=
  let priceHistory' :=
    match priceHistory !! symbol with
    | Some _ => priceHistory
    | None => <[symbol := []]> priceHistory
    end in
  let history := default [] (priceHistory' !! symbol) in
  <[symbol := push_capped history price]> priceHistory'.

Import Evaluators.

Definition evaluateStrategy (priceHistory : PriceHistory) (now : number)
    (strategy : Strategy) : completion (option StrategySignal) :=
  match priceHistory !! symbol strategy with
  | None => Normal None
  | Some history =>
      if len history <? 20 then Normal None
      else
        let evaluated : completion (option Signal) :=
          match type strategy with
          | ema_crossover =>
              Normal (Some (evaluateEMACrossover history (parameters strategy)))
          | rsi_oversold =>
              Normal (Some (evaluateRSIOversold history (parameters strategy)))
          | sma_trend =>
              Normal (Some (evaluateSMATrend history (parameters strategy)))
          | bollinger_bands =>
              match evaluateBollingerBands history (parameters strategy) with
              | Normal s => Normal (Some s)
              | Throw e => Throw e
              end
          | other_type _ => Normal None
          end in
        match evaluated with
        | Throw e => Throw e
        | Normal None => Normal None
        | Normal (Some s) =>
            if decide (action s = HOLD) then Normal None
            else Normal (Some {| signal := s;
                                 timestamp := now;
                                 price := get history (len history - 1) |})
        end
  end.

End Registry.

(** ** Indicators of the live trading engine *)

Module LiveIndicators.

Local Open Scope float_scope.

Record TechnicalIndicators : Type := mkTechnicalIndicators {
  rsi : number;
  sma20 : number;
  sma50 : number;
  ema9 : number;
  ema21 : number;
  macd : number;
  macdSignal : number;
  bollingerUpper : number;
  bollingerLower : number;
  stochasticK : number;
  stochasticD : number;
  atr : number;
  volumeRatio : number
}.

(** The loop of [calculateRSI]: accumulated gains and losses. *)
Fixpoint rsi_loop (gains losses : number) (prices : list number)
  : number * number :=
  match prices with
  | a :: (b :: _) as rest =>
      let change := b - a in
      if gt change 0 then rsi_loop (gains + change) losses rest
      else rsi_loop gains (losses + Math_abs change) rest
  | _ => (gains, losses)
  end.

Definition calculateRSI (prices : list number) : number :=
  if (len prices <? 2)%Z then 50
  else
    let '(gains, losses) := rsi_loop 0 0 prices in
    let avgGain := gains / of_Z (len prices - 1) in
    let avgLoss := losses / of_Z (len prices - 1) in
    let rs := avgGain / or_else avgLoss 1 in
    100 - (100 / (1 + rs)).

Definition calculateEMA (prices : list number) (period : Z) : number :=
  match prices with
  | [] => 0
  | [p] => p
  | p :: rest =>
      let multiplier := 2 / (of_Z period + 1) in
      fold_left (fun ema price => (price - ema) * multiplier + ema) rest p
  end.

Definition calculateStandardDeviation (prices : list number) : number :=
  let mean := JS.sum prices / of_Z (len prices) in
  let variance :=
    fold_left (fun a b => a + Math_pow2 (b - mean)) prices 0
    / of_Z (len prices) in
  Math_sqrt variance.

Fixpoint atr_loop (totalTrueRange : number) (prices : list number) : number :=
  match prices with
  | a :: (b :: _) as rest => atr_loop (totalTrueRange + Math_abs (b - a)) rest
  | _ => totalTrueRange
  end.

Definition calculateATR (prices : list number) : number :=
  if (len prices <? 2)%Z then 0
  else atr_loop 0 prices / of_Z (len prices - 1).

(** [Math.max(...a)] and [Math.min(...a)] *)
Definition Math_max_of (a : list number) : number :=
  fold_left Math_max a neg_infinity.
Definition Math_min_of (a : list number) : number :=
  fold_left Math_min a infinity.

Definition calculateIndicators (prices volumes : list number)
  : TechnicalIndicators :=
  let length := len prices in
  if (length <? 50)%Z then
    let current := or_else (get prices (length - 1)) 0 in
    {| rsi := 50;
       sma20 := current; sma50 := current;
       ema9 := current; ema21 := current;
       macd := 0; macdSignal := 0;
       bollingerUpper := current; bollingerLower := current;
       stochasticK := 50; stochasticD := 50;
       atr := 0; volumeRatio := 1 |}
  else
    let rsi := calculateRSI (slice_from prices (-14)) in
    let sma20 := JS.sum (slice_from prices (-20)) / 20 in
    let sma50 := JS.sum (slice_from prices (-50)) / 50 in
    let ema9 := calculateEMA (slice_from prices (-9)) 9 in
    let ema21 := calculateEMA (slice_from prices (-21)) 21 in
    let ema12 := calculateEMA (slice_from prices (-12)) 12 in
    let ema26 := calculateEMA (slice_from prices (-26)) 26 in
    let macd := ema12 - ema26 in
    let macdSignal := calculateEMA [macd] 9 in
    let stdDev := calculateStandardDeviation (slice_from prices (-20)) in
    let bollingerUpper := sma20 + (2 * stdDev) in
    let bollingerLower := sma20 - (2 * stdDev) in
    let high14 := Math_max_of (slice_from prices (-14)) in
    let low14 := Math_min_of (slice_from prices (-14)) in
    let currentPrice := get prices (length - 1) in
    let stochasticK := ((currentPrice - low14) / (high14 - low14)) * 100 in
    let stochasticD := stochasticK in
    let atr := calculateATR (slice_from prices (-14)) in
    let avgVolume := JS.sum (slice_from volumes (-20)) / 20 in
    let currentVolume := or_else (get volumes (len volumes - 1)) 1 in
    let volumeRatio := currentVolume / or_else avgVolume 1 in
    {| rsi := rsi; sma20 := sma20; sma50 := sma50;
       ema9 := ema9; ema21 := ema21;
       macd := macd; macdSignal := macdSignal;
       bollingerUpper := bollingerUpper; bollingerLower := bollingerLower;
       stochasticK := stochasticK; stochasticD := stochasticD;
       atr := atr; volumeRatio := volumeRatio |}.

End LiveIndicators.

(** ** Candle aggregation (src/utils/candleUtils.ts) *)

Module CandleUtils.

Local Open Scope float_scope.

Record Candle : Type := mkCandle {
  time : number;
  open : number;
  high : number;
  low : number;
  close : number
}.

(** [Math.floor(timestamp / intervalSec) * intervalSec] *)
Definition candleTime (timestamp intervalSec : number) : number :=
  Math_floor (timestamp / intervalSec) * intervalSec.

Definition newCandle (price timestamp intervalSec : number) : Candle :=
  {| time := candleTime timestamp intervalSec;
     open := price; high := price; low := price; close := price |}.

(** The test [!last || last.time !== candleTime]. *)
Definition startsNewCandle (candles : list Candle) (timestamp intervalSec : number)
  : bool :=
  match at_index candles (len candles - 1) with
  | None => true
  | Some last => negb (JS.eq (time last) (candleTime timestamp intervalSec))
  end.

Definition addOrUpdateCandle
    (candles : list Candle) (price timestamp intervalSec : number) : list Candle :=
  match at_index candles (len candles - 1) with
  | Some last =>
      if negb (JS.eq (time last) (candleTime timestamp intervalSec))
      then slice_from (candles ++ [newCandle price timestamp intervalSec]) (-60)
      else slice candles 0 (-1)
             ++ [ {| time := time last;
                     open := open last;
                     high := Math_max (high last) price;
                     low := Math_min (low last) price;
                     close := price |} ]
  | None =>
      slice_from (candles ++ [newCandle price timestamp intervalSec]) (-60)
  end.

(** A tick: the price and the timestamp handed to [addOrUpdateCandle]. *)
Definition Tick : Type := (number * number)%type.

Definition feed (intervalSec : number) (candles : list Candle) (ticks : list Tick)
  : list Candle :=
  fold_left (fun cs tick => addOrUpdateCandle cs tick.1 tick.2 intervalSec)
            ticks candles.


End CandleUtils.

(** ** What the host environment provides *)

(** Number formatting of the JavaScript runtime ([toFixed] and the
    conversion of a number inside a template literal), left abstract. *)
Record Formatting : Type := mkFormatting {
  toFixed : number -> Z -> string;
  toString : number -> string
}.

(** The order object handed to the broker.  Fields an object literal
    does not carry are [None]. *)
Record OrderData : Type := mkOrderData {
  trading_symbol : string;
  instrument_token : string;
  order_quantity : number;
  order_price : number;
  order_type : string;
  transaction_type : Action;
  product : string;
  validity : string;
  disclosed_quantity : option number;
  trigger_price : option number;
  is_amo : option bool;
  slice_flag : option bool;
  tag : string
}.

(** Outcome of one order placement call: the broker acknowledges (with
    the order id, when its answer carries one), refuses with an error
    message, or the call itself throws. *)
Inductive BrokerReply : Type :=
| Acknowledged (order_id : option string)
| Refused (error : string)
| Failed (e : JS.error).

(** [`${x}`] for a value that may be [undefined]. *)
Definition show_optional (x : option string) : string :=
  match x with Some s => s | None => "undefined" end.

(** ** Insertion-ordered maps with string keys

    A JavaScript [Map] or plain object iterates in insertion order, and
    setting an existing key keeps its place. *)

Module Assoc.

Fixpoint get {A} (m : list (string * A)) (key : string) : option A :=
  match m with
  | [] => None
  | (k, v) :: rest => if decide (k = key) then Some v else get rest key
  end.

Fixpoint set {A} (m : list (string * A)) (key : string) (value : A)
  : list (string * A) :=
  match m with
  | [] => [(key, value)]
  | (k, v) :: rest =>
      if decide (k = key) then (k, value) :: rest
      else (k, v) :: set rest key value
  end.

Definition has {A} (m : list (string * A)) (key : string) : bool :=
  match get m key with Some _ => true | None => false end.

Definition keys {A} (m : list (string * A)) : list string := map fst m.
Definition values {A} (m : list (string * A)) : list A := map snd m.

End Assoc.

(** ** The live trading engine (src/components/LiveTradingEngine.tsx) *)

Module LiveEngine.

Import LiveIndicators.
Local Open Scope float_scope.

Record Conditions : Type := mkConditions {
  rsiOverbought : number;
  rsiOversold : number;
  emaSignal : bool;
  volumeThreshold : number;
  priceAction : bool
}.

Record TradingStrategy : Type := mkTradingStrategy {
  symbol : string;
  enabled : bool;
  quantity : number;
  stopLoss : number;
  takeProfit : number;
  maxPositions : number;
  conditions : Conditions
}.

Record TradingSignal : Type := mkTradingSignal {
  signal_symbol : string;
  action : Action;
  strength : number;
  price : number;
  timestamp : number;
  indicators : TechnicalIndicators;
  signal_conditions : list string
}.

(** The vote counters of [generateSignal] with the trigger descriptions. *)
Record Votes : Type := mkVotes {
  buySignals : Z;
  sellSignals : Z;
  described : list string
}.

Definition voteBuy (v : Votes) (why : string) : Votes :=
  {| buySignals := buySignals v + 1; sellSignals := sellSignals v;
     described := described v ++ [why] |}.

Definition voteSell (v : Votes) (why : string) : Votes :=
  {| buySignals := buySignals v; sellSignals := sellSignals v + 1;
     described := described v ++ [why] |}.

(** The five voting blocks of [generateSignal], in source order. *)

Definition rsiVote (fmt : Formatting) (c : Conditions)
    (ind : TechnicalIndicators) (v : Votes) : Votes :=
  if lt (rsi ind) (rsiOversold c)
  then voteBuy v ("RSI oversold (" +:+ toFixed fmt (rsi ind) 1 +:+ ")")
  else if gt (rsi ind) (rsiOverbought c)
  then voteSell v ("RSI overbought (" +:+ toFixed fmt (rsi ind) 1 +:+ ")")
  else v.

Definition emaVote (c : Conditions) (ind : TechnicalIndicators) (v : Votes)
  : Votes :=
  if emaSignal c then
    if gt (ema9 ind) (ema21 ind) then voteBuy v "EMA bullish crossover"
    else if lt (ema9 ind) (ema21 ind) then voteSell v "EMA bearish crossover"
    else v
  else v.

Definition volumeVote (fmt : Formatting) (c : Conditions)
    (ind : TechnicalIndicators) (v : Votes) : Votes :=
  if gt (volumeRatio ind) (volumeThreshold c) then
    let why := "High volume (" +:+ toFixed fmt (volumeRatio ind) 1 +:+ "x)" in
    if (sellSignals v <? buySignals v)%Z then voteBuy v why
    else if (buySignals v <? sellSignals v)%Z then voteSell v why
    else {| buySignals := buySignals v; sellSignals := sellSignals v;
            described := described v ++ [why] |}
  else v.

Definition priceVote (c : Conditions) (currentPrice : number)
    (ind : TechnicalIndicators) (v : Votes) : Votes :=
  if priceAction c then
    if lt currentPrice (bollingerLower ind)
    then voteBuy v "Price below lower Bollinger band"
    else if gt currentPrice (bollingerUpper ind)
    then voteSell v "Price above upper Bollinger band"
    else v
  else v.

Definition macdVote (ind : TechnicalIndicators) (v : Votes) : Votes :=
  if gt (macd ind) (macdSignal ind) then voteBuy v "MACD bullish"
  else if lt (macd ind) (macdSignal ind) then voteSell v "MACD bearish"
  else v.

Definition countVotes (fmt : Formatting) (strategy : TradingStrategy)
    (currentPrice : number) (ind : TechnicalIndicators) : Votes :=
  let c := conditions strategy in
  let v := {| buySignals := 0; sellSignals := 0; described := [] |} in
  let v := rsiVote fmt c ind v in
  let v := emaVote c ind v in
  let v := volumeVote fmt c ind v in
  let v := priceVote c currentPrice ind v in
  macdVote ind v.

Definition generateSignal (fmt : Formatting)
    (strategies : list (string * TradingStrategy)) (now : number)
    (symbol : string) (currentPrice : number) (ind : TechnicalIndicators)
  : TradingSignal :=
  let idle :=
    {| signal_symbol := symbol; action := HOLD; strength := 0;
       price := currentPrice; timestamp := now; indicators := ind;
       signal_conditions := [] |} in
  match Assoc.get strategies symbol with
  | None => idle
  | Some strategy =>
      if negb (enabled strategy) then idle
      else
        let v := countVotes fmt strategy currentPrice ind in
        let '(action, strength) :=
          if (sellSignals v <? buySignals v)%Z && (3 <=? buySignals v)%Z
          then (BUY, Math_min (of_Z (buySignals v) / 5) 1)
          else if (buySignals v <? sellSignals v)%Z && (3 <=? sellSignals v)%Z
          then (SELL, Math_min (of_Z (sellSignals v) / 5) 1)
          else (HOLD, 0) in
        {| signal_symbol := symbol; action := action; strength := strength;
           price := currentPrice; timestamp := now; indicators := ind;
           signal_conditions := described v |}
  end.

(** The first test of [executeTrade]:
    [signal.action === 'HOLD' || signal.strength < 0.6]. *)
Definition rejectedByGate (signal : TradingSignal) : bool :=
  bool_decide (action signal = HOLD) || lt (strength signal) 0.6.

(** *** State of the component

    Asynchronous callbacks are run to completion in the order they are
    called. *)

Record LivePosition : Type := mkLivePosition {
  pos_id : string;
  pos_symbol : string;
  side : Action;
  pos_quantity : number;
  entryPrice : number;
  currentPrice : number;
  pnl : number;
  pos_timestamp : number;
  orderId : option string
}.

Record Performance : Type := mkPerformance {
  totalPnL : number;
  totalTrades : number;
  winRate : number;
  maxDrawdown : number
}.

(** What a callback closes over: the state values of the render that
    created it. *)
Record View : Type := mkView {
  isRunning : bool;
  strategies : list (string * TradingStrategy);
  view_positions : list LivePosition
}.

(** The live state: the values behind the state setters, the refs, and
    the orders handed to [tradingService.placeOrder], in order. *)
Record State : Type := mkState {
  positions : list LivePosition;
  signals : list TradingSignal;
  indicatorsOf : list (string * TechnicalIndicators);
  logs : list string;
  performance : Performance;
  priceHistory : gmap string (list number);
  volumeHistory : gmap string (list number);
  lastTradeTime : gmap string number;
  placed : list OrderData
}.

(** The surroundings of one tick: formatting, the clock, the random
    suffix of a position id, the mock feed, and the broker's answer to
    the [n]-th order. *)
Record Environment : Type := mkEnvironment {
  fmt : Formatting;
  stamp : string;
  now : number;
  fresh : string;
  feedPrice : string -> number;
  feedVolume : string -> number;
  broker : nat -> OrderData -> BrokerReply
}.

Definition with_positions (f : list LivePosition -> list LivePosition)
    (st : State) : State :=
  mkState (f (positions st)) (signals st) (indicatorsOf st) (logs st)
          (performance st) (priceHistory st) (volumeHistory st)
          (lastTradeTime st) (placed st).
Definition with_signals (f : list TradingSignal -> list TradingSignal)
    (st : State) : State :=
  mkState (positions st) (f (signals st)) (indicatorsOf st) (logs st)
          (performance st) (priceHistory st) (volumeHistory st)
          (lastTradeTime st) (placed st).
Definition with_indicatorsOf
    (f : list (string * TechnicalIndicators) -> list (string * TechnicalIndicators))
    (st : State) : State :=
  mkState (positions st) (signals st) (f (indicatorsOf st)) (logs st)
          (performance st) (priceHistory st) (volumeHistory st)
          (lastTradeTime st) (placed st).
Definition with_logs (f : list string -> list string) (st : State) : State :=
  mkState (positions st) (signals st) (indicatorsOf st) (f (logs st))
          (performance st) (priceHistory st) (volumeHistory st)
          (lastTradeTime st) (placed st).
Definition with_performance (f : Performance -> Performance) (st : State)
  : State :=
  mkState (positions st) (signals st) (indicatorsOf st) (logs st)
          (f (performance st)) (priceHistory st) (volumeHistory st)
          (lastTradeTime st) (placed st).
Definition with_histories
    (f g : gmap string (list number) -> gmap string (list number))
    (st : State) : State :=
  mkState (positions st) (signals st) (indicatorsOf st) (logs st)
          (performance st) (f (priceHistory st)) (g (volumeHistory st))
          (lastTradeTime st) (placed st).
Definition with_lastTradeTime (f : gmap string number -> gmap string number)
    (st : State) : State :=
  mkState (positions st) (signals st) (indicatorsOf st) (logs st)
          (performance st) (priceHistory st) (volumeHistory st)
          (f (lastTradeTime st)) (placed st).
Definition with_placed (f : list OrderData -> list OrderData) (st : State)
  : State :=
  mkState (positions st) (signals st) (indicatorsOf st) (logs st)
          (performance st) (priceHistory st) (volumeHistory st)
          (lastTradeTime st) (f (placed st)).

Inductive LogType : Type := info | success | warning | error.

Definition emoji (t : LogType) : string :=
  match t with
  | info => "📊" | success => "✅" | warning => "⚠️" | error => "❌"
  end.

(** [setLogs(prev => [...prev.slice(-199), entry])] *)
Definition addLog (env : Environment) (message : string) (t : LogType)
    (st : State) : State :=
  with_logs (fun prev =>
    (slice_from prev (-199)
     ++ ["[" +:+ stamp env +:+ "] " +:+ emoji t +:+ " " +:+ message])%list) st.

(** [tradingService.placeOrder(orderData)], answered by the broker. *)
Definition placeOrder (env : Environment) (orderData : OrderData) (st : State)
  : BrokerReply * State :=
  (broker env (length (placed st)) orderData,
   with_placed (fun l => (l ++ [orderData])%list) st).

(** *** Entering a trade *)

Definition entryOrder (env : Environment) (strategy : TradingStrategy)
    (signal : TradingSignal) : OrderData :=
  {| trading_symbol := signal_symbol signal;
     instrument_token := "NSE_EQ|" +:+ signal_symbol signal;
     order_quantity := quantity strategy;
     order_price := price signal;
     order_type := "MARKET";
     transaction_type := action signal;
     product := "MIS";
     validity := "DAY";
     disclosed_quantity := None;
     trigger_price := None;
     is_amo := None;
     slice_flag := None;
     tag := "live_trading_" +:+ toString (fmt env) (now env) |}.

Definition executeTrade (view : View) (env : Environment)
    (signal : TradingSignal) (st : State) : State :=
  if rejectedByGate signal then st
  else
    match Assoc.get (strategies view) (signal_symbol signal) with
    | None => st
    | Some strategy =>
        let currentPositions :=
          filter (fun p => pos_symbol p = signal_symbol signal)
                 (view_positions view) in
        if ge (of_Z (len currentPositions)) (maxPositions strategy)
        then addLog env ("Max positions reached for " +:+ signal_symbol signal)
                    warning st
        else
          let last :=
            or_else (default nan (lastTradeTime st !! signal_symbol signal)) 0 in
          let timeSinceLastTrade := now env - last in
          if lt timeSinceLastTrade 30000
          then addLog env ("Too soon since last trade for "
                           +:+ signal_symbol signal) warning st
          else
            let st :=
              addLog env ("Executing " +:+ Action_to_string (action signal)
                          +:+ " order for " +:+ signal_symbol signal +:+ " at ₹"
                          +:+ toFixed (fmt env) (price signal) 2) info st in
            let '(response, st) :=
              placeOrder env (entryOrder env strategy signal) st in
            match response with
            | Acknowledged order_id =>
                let newPosition :=
                  {| pos_id := "pos_" +:+ toString (fmt env) (now env) +:+ "_"
                               +:+ fresh env;
                     pos_symbol := signal_symbol signal;
                     side := action signal;
                     pos_quantity := quantity strategy;
                     entryPrice := price signal;
                     currentPrice := price signal;
                     pnl := 0;
                     pos_timestamp := now env;
                     orderId := order_id |} in
                let st := with_positions (fun prev => (prev ++ [newPosition])%list) st in
                let st := with_lastTradeTime
                            (fun m => <[signal_symbol signal := now env]> m) st in
                let st := addLog env ("✅ " +:+ Action_to_string (action signal)
                                      +:+ " order placed successfully for "
                                      +:+ signal_symbol signal) success st in
                let st := addLog env ("Order ID: " +:+ show_optional order_id)
                                 info st in
                with_performance (fun prev =>
                  {| totalPnL := totalPnL prev;
                     totalTrades := totalTrades prev + 1;
                     winRate := winRate prev;
                     maxDrawdown := maxDrawdown prev |}) st
            | Refused err =>
                addLog env ("❌ Failed to place "
                            +:+ Action_to_string (action signal) +:+ " order for "
                            +:+ signal_symbol signal +:+ ": " +:+ err) error st
            | Failed e =>
                addLog env ("❌ Trade execution error for "
                            +:+ signal_symbol signal +:+ ": " +:+ message e)
                       error st
            end
    end.

(** *** Leaving a trade *)

Definition exitOrder (position : LivePosition) (exitPrice : number) : OrderData :=
  {| trading_symbol := pos_symbol position;
     instrument_token := "NSE_EQ|" +:+ pos_symbol position;
     order_quantity := pos_quantity position;
     order_price := exitPrice;
     order_type := "MARKET";
     transaction_type := if decide (side position = BUY) then SELL else BUY;
     product := "MIS";
     validity := "DAY";
     disclosed_quantity := None;
     trigger_price := None;
     is_amo := None;
     slice_flag := None;
     tag := "exit_" +:+ pos_id position |}.

Definition pnlAt (position : LivePosition) (price : number) : number :=
  if decide (side position = BUY)
  then (price - entryPrice position) * pos_quantity position
  else (entryPrice position - price) * pos_quantity position.

Definition exitPosition (env : Environment) (position : LivePosition)
    (exitPrice : number) (reason : string) (st : State) : State :=
  let st := addLog env ("Exiting " +:+ Action_to_string (side position)
                        +:+ " position for " +:+ pos_symbol position +:+ " - "
                        +:+ reason) info st in
  let '(response, st) := placeOrder env (exitOrder position exitPrice) st in
  match response with
  | Acknowledged _ =>
      let finalPnL := pnlAt position exitPrice in
      let st := with_positions
                  (filter (fun p => pos_id p <> pos_id position)) st in
      let st := with_performance (fun prev =>
        {| totalPnL := totalPnL prev + finalPnL;
           totalTrades := totalTrades prev;
           winRate :=
             if gt finalPnL 0
             then ((winRate prev * totalTrades prev) + 1)
                  / (totalTrades prev + 1) * 100
             else (winRate prev * totalTrades prev)
                  / (totalTrades prev + 1) * 100;
           maxDrawdown := maxDrawdown prev |}) st in
      addLog env ("✅ Position closed: "
                  +:+ (if gt finalPnL 0 then "+" else "") +:+ "₹"
                  +:+ toFixed (fmt env) finalPnL 2)
             (if gt finalPnL 0 then success else error) st
  | Refused _ =>
      addLog env ("❌ Failed to exit position for " +:+ pos_symbol position)
             error st
  | Failed e =>
      addLog env ("❌ Exit error for " +:+ pos_symbol position +:+ ": "
                  +:+ message e) error st
  end.

Definition checkExitConditions (view : View) (env : Environment)
    (position : LivePosition) (price : number) (st : State) : State :=
  match Assoc.get (strategies view) (pos_symbol position) with
  | None => st
  | Some strategy =>
      let pnl := pnlAt position price in
      let st := with_positions
                  (map (fun p =>
                     if decide (pos_id p = pos_id position)
                     then {| pos_id := pos_id p; pos_symbol := pos_symbol p;
                             side := side p; pos_quantity := pos_quantity p;
                             entryPrice := entryPrice p;
                             currentPrice := price; pnl := pnl;
                             pos_timestamp := pos_timestamp p;
                             orderId := orderId p |}
                     else p)) st in
      if le pnl (- stopLoss strategy)
      then exitPosition env position price "Stop Loss" st
      else if ge pnl (takeProfit strategy)
      then exitPosition env position price "Take Profit" st
      else st
  end.

(** *** The trading loop *)

(** The body of [Object.keys(strategies).forEach(symbol => ...)]. *)
Definition tick (view : View) (env : Environment) (symbol : string)
    (st : State) : State :=
  match Assoc.get (strategies view) symbol with
  | None => st
  | Some strategy =>
      if negb (enabled strategy) then st
      else
        let price := feedPrice env symbol in
        let volume := feedVolume env symbol in
        let st := with_histories
                    (fun h => <[symbol := (default [] (h !! symbol) ++ [price])%list]> h)
                    (fun h => <[symbol := (default [] (h !! symbol) ++ [volume])%list]> h)
                    st in
        let st := addLog env (symbol +:+ ": ₹" +:+ toFixed (fmt env) price 2
                              +:+ " | Vol: "
                              +:+ toFixed (fmt env) (volume / 1000) 0 +:+ "K")
                         info st in
        let st :=
          if (100 <? len (default [] (priceHistory st !! symbol)))%Z
          then with_histories
                 (fun h => <[symbol := slice_from (default [] (h !! symbol)) (-100)]> h)
                 (fun h => <[symbol := slice_from (default [] (h !! symbol)) (-100)]> h)
                 st
          else st in
        let calculated :=
          calculateIndicators (default [] (priceHistory st !! symbol))
                              (default [] (volumeHistory st !! symbol)) in
        let st := with_indicatorsOf
                    (fun prev => Assoc.set prev symbol calculated) st in
        let signal :=
          generateSignal (fmt env) (strategies view) (now env) symbol price
                         calculated in
        let st :=
          if decide (action signal = HOLD) then st
          else
            let st := with_signals
                        (fun prev => signal :: slice prev 0 19) st in
            let st := addLog env ("🎯 " +:+ Action_to_string (action signal)
                                  +:+ " signal for " +:+ symbol +:+ ": "
                                  +:+ String.concat ", " (signal_conditions signal))
                             warning st in
            if ge (strength signal) 0.6
            then executeTrade view env signal st
            else st in
        fold_left (fun st position => checkExitConditions view env position price st)
                  (filter (fun p => pos_symbol p = symbol) (view_positions view))
                  st
  end.

Definition runTradingLoop (view : View) (env : Environment) (st : State)
  : State :=
  if negb (isRunning view) then st
  else
    let st := addLog env "📊 Analyzing market data and generating signals..."
                     info st in
    fold_left (fun st symbol => tick view env symbol st)
              (Assoc.keys (strategies view)) st.

(** The strategies the component starts with. *)
Definition initialStrategies : list (string * TradingStrategy) :=
  [ ("BANKNIFTY",
     {| symbol := "BANKNIFTY"; enabled := true; quantity := 15;
        stopLoss := 50; takeProfit := 100; maxPositions := 2;
        conditions := {| rsiOverbought := 70; rsiOversold := 30;
                         emaSignal := true; volumeThreshold := 1.5;
                         priceAction := true |} |});
    ("NIFTY",
     {| symbol := "NIFTY"; enabled := true; quantity := 25;
        stopLoss := 30; takeProfit := 60; maxPositions := 2;
        conditions := {| rsiOverbought := 75; rsiOversold := 25;
                         emaSignal := true; volumeThreshold := 1.2;
                         priceAction := true |} |}) ].

End LiveEngine.

(** ** Server state and effects (server/sockets/marketData.js)

    The module state ([strategies], [systemStatus], [marketDataCache],
    [priceHistory]) and what the code sends out (console lines, socket
    events, quote requests, posted orders, timers) make up one world.
    A handler or a cycle runs as one uninterrupted step: what other
    handlers could do while it awaits is not represented. *)

Module Server.

Import Registry.

(** The object [fetchMarketData] builds from a quote. *)
Record MarketData : Type := mkMarketData {
  md_price : number;
  md_open : number;
  md_high : number;
  md_low : number;
  md_volume : number;
  md_change : number;
  md_changePercent : number;
  md_timestamp : number
}.

Record SystemStatus : Type := mkSystemStatus {
  status : string;
  autoTradingEnabled : bool;
  logs : list string
}.

(** Payloads of [io.emit]. *)
Inductive Emitted : Type :=
| real_trade_executed (strategy symbol : string) (action : Action)
    (quantity price : number) (orderId : option string) (timestamp : number)
| trading_signal (strategy symbol : string) (action : Action)
    (price confidence timestamp : number).

(** A pending [setTimeout].  The callback closes over the strategy
    object, the signal and the parent order id; the strategy object is
    the one the registry holds under [strategyKey], which the registry
    never removes or replaces, so the closure reads, when it fires,
    whatever that entry then holds. *)
Record Timer : Type := mkTimer {
  delay : Z;
  strategyKey : string;
  entrySignal : StrategySignal;
  parentOrderId : option string
}.

Record World : Type := mkWorld {
  strategies : list (string * Strategy);
  systemStatus : SystemStatus;
  marketDataCache : gmap string MarketData;
  priceHistory : PriceHistory;
  console : list string;
  emitted : list Emitted;
  requested : list string;
  placed : list OrderData;
  timers : list Timer
}.

(** The surroundings of one run: formatting, the clock (read once per
    run), the access token, and the answers of the three external
    services.  The [n]-th quote request, the [n]-th posted order and the
    [n]-th emit are each answered by the environment. *)
Record Environment : Type := mkEnvironment {
  fmt : Formatting;
  clock : string;
  now : number;
  accessToken : string;
  quote : nat -> string -> option MarketData;
  broker : nat -> OrderData -> BrokerReply;
  emitThrows : nat -> option JS.error
}.

(** Field updates of the world. *)
Definition with_strategies (f : list (string * Strategy) -> list (string * Strategy))
    (w : World) : World :=
  mkWorld (f (strategies w)) (systemStatus w) (marketDataCache w)
          (priceHistory w) (console w) (emitted w) (requested w) (placed w)
          (timers w).
Definition with_systemStatus (f : SystemStatus -> SystemStatus) (w : World)
  : World :=
  mkWorld (strategies w) (f (systemStatus w)) (marketDataCache w)
          (priceHistory w) (console w) (emitted w) (requested w) (placed w)
          (timers w).
Definition with_marketDataCache
    (f : gmap string MarketData -> gmap string MarketData) (w : World) : World :=
  mkWorld (strategies w) (systemStatus w) (f (marketDataCache w))
          (priceHistory w) (console w) (emitted w) (requested w) (placed w)
          (timers w).
Definition with_priceHistory (f : PriceHistory -> PriceHistory) (w : World)
  : World :=
  mkWorld (strategies w) (systemStatus w) (marketDataCache w)
          (f (priceHistory w)) (console w) (emitted w) (requested w) (placed w)
          (timers w).
Definition with_console (f : list string -> list string) (w : World) : World :=
  mkWorld (strategies w) (systemStatus w) (marketDataCache w)
          (priceHistory w) (f (console w)) (emitted w) (requested w) (placed w)
          (timers w).
Definition with_emitted (f : list Emitted -> list Emitted) (w : World) : World :=
  mkWorld (strategies w) (systemStatus w) (marketDataCache w)
          (priceHistory w) (console w) (f (emitted w)) (requested w) (placed w)
          (timers w).
Definition with_requested (f : list string -> list string) (w : World) : World :=
  mkWorld (strategies w) (systemStatus w) (marketDataCache w)
          (priceHistory w) (console w) (emitted w) (f (requested w)) (placed w)
          (timers w).
Definition with_placed (f : list OrderData -> list OrderData) (w : World) : World :=
  mkWorld (strategies w) (systemStatus w) (marketDataCache w)
          (priceHistory w) (console w) (emitted w) (requested w) (f (placed w))
          (timers w).
Definition with_timers (f : list Timer -> list Timer) (w : World) : World :=
  mkWorld (strategies w) (systemStatus w) (marketDataCache w)
          (priceHistory w) (console w) (emitted w) (requested w) (placed w)
          (f (timers w)).

(** *** Computations over the world that may throw *)

Definition M (A : Type) : Type := World -> completion A * World.

Definition ret {A} (a : A) : M A := fun w => (Normal a, w).

Definition bind {A B} (m : M A) (k : A -> M B) : M B :=
  fun w =>
    match m w with
    | (Normal a, w') => k a w'
    | (Throw e, w') => (Throw e, w')
    end.

Definition throw {A} (e : JS.error) : M A := fun w => (Throw e, w).

(** [try { body } catch (e) { handler }] *)
Definition try_catch {A} (body : M A) (handler : JS.error -> M A) : M A :=
  fun w =>
    match body w with
    | (Normal a, w') => (Normal a, w')
    | (Throw e, w') => handler e w'
    end.

Definition gets {A} (f : World -> A) : M A := fun w => (Normal (f w), w).
Definition modify (f : World -> World) : M unit := fun w => (Normal tt, f w).

(** [for (const x of xs) body] *)
Fixpoint for_of {A} (xs : list A) (body : A -> M unit) : M unit :=
  match xs with
  | [] => ret tt
  | x :: rest => bind (body x) (fun _ => for_of rest body)
  end.

Notation "'let*' x ':=' m 'in' k" := (bind m (fun x => k))
  (at level 10, x name, m at level 100, k at level 200).
Notation "m ';;;' k" := (bind m (fun _ => k))
  (at level 100, k at level 200, right associativity).

(** The world a computation leaves, and how it completes. *)
Definition exec {A} (m : M A) (w : World) : World := (m w).2.
Definition outcome {A} (m : M A) (w : World) : completion A := (m w).1.

(** [console.log] / [console.error] *)
Definition console_log (line : string) : M unit :=
  modify (with_console (fun c => c ++ [line])).

(** [systemStatus.logs.push(line)] *)
Definition logs_push (line : string) : M unit :=
  modify (with_systemStatus (fun s =>
    {| status := status s; autoTradingEnabled := autoTradingEnabled s;
       logs := logs s ++ [line] |})).

(** [if (systemStatus.logs.length > 100) systemStatus.logs.shift()] *)
Definition logs_trim : M unit :=
  modify (with_systemStatus (fun s =>
    {| status := status s; autoTradingEnabled := autoTradingEnabled s;
       logs := if 100 <? len (logs s) then tail (logs s) else logs s |})).

(** [io.emit(...)], which the environment may make throw; [emitted]
    lists the calls, in order. *)
Definition io_emit (env : Environment) (e : Emitted) : M unit :=
  fun w =>
    match emitThrows env (length (emitted w)) with
    | Some err => (Throw err, with_emitted (fun l => l ++ [e]) w)
    | None => (Normal tt, with_emitted (fun l => l ++ [e]) w)
    end.

(** *** Symbol tables *)

(** [s.replace(pattern, replacement)]: the first occurrence only. *)
Fixpoint replace_first (pattern replacement s : string) : string :=
  if String.prefix pattern s
  then replacement
       +:+ String.substring (String.length pattern)
                            (String.length s - String.length pattern) s
  else match s with
       | EmptyString => EmptyString
       | String c rest => String c (replace_first pattern replacement rest)
       end.

Definition getInstrumentToken (yahooSymbol : string) : string :=
  let symbolMap :=
    [ ("^NSEI", "NSE_INDEX|Nifty 50");
      ("^NSEBANK", "NSE_INDEX|Nifty Bank");
      ("RELIANCE.NS", "NSE_EQ|INE002A01018");
      ("TCS.NS", "NSE_EQ|INE467B01029");
      ("INFY.NS", "NSE_EQ|INE009A01021");
      ("HDFCBANK.NS", "NSE_EQ|INE040A01034");
      ("ICICIBANK.NS", "NSE_EQ|INE090A01013") ] in
  match Assoc.get symbolMap yahooSymbol with
  | Some token => token
  | None => "NSE_EQ|" +:+ replace_first ".NS" "" yahooSymbol
  end.

Definition getTradingSymbol (yahooSymbol : string) : string :=
  let symbolMap :=
    [ ("^NSEI", "NIFTY");
      ("^NSEBANK", "BANKNIFTY");
      ("RELIANCE.NS", "RELIANCE");
      ("TCS.NS", "TCS");
      ("INFY.NS", "INFY");
      ("HDFCBANK.NS", "HDFCBANK");
      ("ICICIBANK.NS", "ICICIBANK") ] in
  match Assoc.get symbolMap yahooSymbol with
  | Some name => name
  | None => replace_first ".NS" "" yahooSymbol
  end.

Definition type_name (t : StrategyType) : string :=
  match t with
  | ema_crossover => "ema_crossover"
  | rsi_oversold => "rsi_oversold"
  | sma_trend => "sma_trend"
  | bollinger_bands => "bollinger_bands"
  | other_type name => name
  end.

(** *** Market data and order placement *)

(** [fetchMarketData]: a failed quote is logged to the console and
    becomes [null]. *)
Definition fetchMarketData (env : Environment) (symbol : string)
  : M (option MarketData) :=
  fun w =>
    let w' := with_requested (fun l => l ++ [symbol]) w in
    match quote env (length (requested w)) symbol with
    | Some q =>
        (Normal (Some {| md_price := md_price q; md_open := md_open q;
                         md_high := md_high q; md_low := md_low q;
                         md_volume := md_volume q; md_change := md_change q;
                         md_changePercent := md_changePercent q;
                         md_timestamp := now env |}), w')
    | None =>
        (Normal None,
         with_console (fun c => c ++ ["Failed to fetch data for " +:+ symbol +:+ ":"]) w')
    end.

(** What [placeOrderDirect] returns: [{ success: true, order }] or
    [{ success: false, error }]. *)
Inductive PlaceResult : Type :=
| Placed (order_id : option string)
| NotPlaced (error : string).

(** [process.env.SYSTEM_ACCESS_TOKEN || '...'] *)
Definition getSystemAccessToken (env : Environment) : string :=
  accessToken env.

(** The token travels in the request headers; the requests are recorded
    by their order object. *)
Definition placeOrderDirect (env : Environment) (orderData : OrderData)
    (accessToken : string) : M PlaceResult :=
  fun w =>
    let w' := with_placed (fun l => l ++ [orderData]) w in
    match broker env (length (placed w)) orderData with
    | Acknowledged order_id => (Normal (Placed order_id), w')
    | Refused error =>
        (Normal (NotPlaced error),
         with_console (fun c => c ++ ["Direct order placement failed: " +:+ error]) w')
    | Failed e =>
        (Normal (NotPlaced (message e)),
         with_console
           (fun c => c ++ ["Direct order placement failed: " +:+ message e]) w')
    end.

(** What [executeRealTrade] returns. *)
Inductive TradeResult : Type :=
| TradeDone (orderId : option string)
| TradeFailed (error : string).

(** The order object [executeRealTrade] prepares. *)
Definition entryOrder (env : Environment) (strategy : Strategy)
    (signal : StrategySignal) : OrderData :=
  {| trading_symbol := getTradingSymbol (symbol strategy);
     instrument_token := getInstrumentToken (symbol strategy);
     order_quantity := quantity (parameters strategy);
     order_price := price signal;
     order_type := "LIMIT";
     transaction_type := action (Registry.signal signal);
     product := "MIS";
     validity := "DAY";
     disclosed_quantity := Some 0%float;
     trigger_price := Some 0%float;
     is_amo := Some false;
     slice_flag := Some true;
     tag := "algo_" +:+ type_name (type strategy) +:+ "_"
            +:+ toString (fmt env) (now env) |}.

Definition executeRealTrade (env : Environment) (key : string)
    (strategy : Strategy) (signal : StrategySignal) : M TradeResult :=
  try_catch
    (console_log ("ðŸš€ Executing REAL TRADE for " +:+ name strategy +:+ ":") ;;;
     console_log ("   Symbol: " +:+ symbol strategy) ;;;
     console_log ("   Action: "
                  +:+ Action_to_string (action (Registry.signal signal))) ;;;
     console_log ("   Quantity: "
                  +:+ toString (fmt env) (quantity (parameters strategy))) ;;;
     console_log ("   Price: â‚¹" +:+ toFixed (fmt env) (price signal) 2) ;;;
     console_log ("   Confidence: "
                  +:+ toString (fmt env) (confidence (Registry.signal signal))
                  +:+ "%") ;;;
     let orderData := entryOrder env strategy signal in
     console_log "ðŸ“¤ Placing order with data:" ;;;
     let* response :=
       placeOrderDirect env orderData (getSystemAccessToken env) in
     match response with
     | Placed order_id =>
         console_log ("âœ… Trade executed successfully! Order ID: "
                      +:+ show_optional order_id) ;;;
         modify (with_timers (fun l =>
           l ++ [ {| delay := 5000; strategyKey := key;
                     entrySignal := signal; parentOrderId := order_id |} ])) ;;;
         ret (TradeDone order_id)
     | NotPlaced error =>
         ret (TradeFailed (if decide (error = "") then "Unknown error" else error))
     end)
    (fun error =>
       console_log "âŒ Real trade execution failed:" ;;;
       ret (TradeFailed (message error))).

(** The two orders [scheduleStopLossAndTakeProfit] derives. *)
Definition stopLossPrice (strategy : Strategy) (signal : StrategySignal)
  : number :=
  let currentPrice := price signal in
  if decide (action (Registry.signal signal) = BUY)
  then (currentPrice * (1 - stopLoss (parameters strategy) / 100))%float
  else (currentPrice * (1 + stopLoss (parameters strategy) / 100))%float.

Definition takeProfitPrice (strategy : Strategy) (signal : StrategySignal)
  : number :=
  let currentPrice := price signal in
  if decide (action (Registry.signal signal) = BUY)
  then (currentPrice * (1 + takeProfit (parameters strategy) / 100))%float
  else (currentPrice * (1 - takeProfit (parameters strategy) / 100))%float.

Definition stopLossOrder (strategy : Strategy) (signal : StrategySignal)
    (parentOrderId : option string) : OrderData :=
  {| trading_symbol := getTradingSymbol (symbol strategy);
     instrument_token := getInstrumentToken (symbol strategy);
     order_quantity := quantity (parameters strategy);
     order_price := stopLossPrice strategy signal;
     order_type := "SL";
     transaction_type :=
       if decide (action (Registry.signal signal) = BUY) then SELL else BUY;
     product := "MIS";
     validity := "DAY";
     disclosed_quantity := None;
     trigger_price := Some (stopLossPrice strategy signal);
     is_amo := None;
     slice_flag := None;
     tag := "sl_" +:+ show_optional parentOrderId |}.

Definition takeProfitOrder (strategy : Strategy) (signal : StrategySignal)
    (parentOrderId : option string) : OrderData :=
  {| trading_symbol := getTradingSymbol (symbol strategy);
     instrument_token := getInstrumentToken (symbol strategy);
     order_quantity := quantity (parameters strategy);
     order_price := takeProfitPrice strategy signal;
     order_type := "LIMIT";
     transaction_type :=
       if decide (action (Registry.signal signal) = BUY) then SELL else BUY;
     product := "MIS";
     validity := "DAY";
     disclosed_quantity := None;
     trigger_price := None;
     is_amo := None;
     slice_flag := None;
     tag := "tp_" +:+ show_optional parentOrderId |}.

Definition show_success (r : PlaceResult) : string :=
  match r with Placed _ => "Success" | NotPlaced _ => "Failed" end.

Definition scheduleStopLossAndTakeProfit (env : Environment)
    (strategy : Strategy) (signal : StrategySignal)
    (parentOrderId : option string) : M unit :=
  try_catch
    (let accessToken := getSystemAccessToken env in
     let* slResult :=
       placeOrderDirect env (stopLossOrder strategy signal parentOrderId)
                        accessToken in
     let* tpResult :=
       placeOrderDirect env (takeProfitOrder strategy signal parentOrderId)
                        accessToken in
     console_log ("ðŸ“‹ Stop Loss Order: " +:+ show_success slResult) ;;;
     console_log ("ðŸ“‹ Take Profit Order: " +:+ show_success tpResult) ;;;
     logs_push ("[" +:+ clock env +:+ "] ðŸ›¡ï¸ Risk management orders placed for "
                +:+ name strategy +:+ " - SL: â‚¹"
                +:+ toFixed (fmt env) (stopLossPrice strategy signal) 2
                +:+ ", TP: â‚¹"
                +:+ toFixed (fmt env) (takeProfitPrice strategy signal) 2))
    (fun error =>
       console_log "Failed to place stop loss/take profit orders:" ;;;
       logs_push ("[" +:+ clock env
                  +:+ "] âŒ Failed to place risk management orders for "
                  +:+ name strategy)).

(** A timer fires: its callback runs on the strategy object as the
    registry then holds it. *)
Definition fire (env : Environment) (t : Timer) : M unit :=
  let* current := gets (fun w => Assoc.get (strategies w) (strategyKey t)) in
  match current with
  | Some strategy =>
      scheduleStopLossAndTakeProfit env strategy (entrySignal t) (parentOrderId t)
  | None => ret tt
  end.

(** *** The auto-trading cycle *)

(** In-place mutation of the strategy object held under [key]. *)
Definition mutate_strategy (key : string) (f : Strategy -> Strategy) : M unit :=
  modify (with_strategies (fun m =>
    match Assoc.get m key with
    | Some s => Assoc.set m key (f s)
    | None => m
    end)).

Definition set_lastSignal (signal : StrategySignal) (s : Strategy) : Strategy :=
  {| id := id s; name := name s; type := type s; symbol := symbol s;
     enabled := enabled s; parameters := parameters s;
     performance := performance s; lastSignal := Some signal |}.

(** [strategy.performance.totalTrades++] *)
Definition count_trade (s : Strategy) : Strategy :=
  {| id := id s; name := name s; type := type s; symbol := symbol s;
     enabled := enabled s; parameters := parameters s;
     performance :=
       {| totalTrades := totalTrades (performance s) + 1;
          winRate := winRate (performance s);
          totalPnL := totalPnL (performance s);
          maxDrawdown := maxDrawdown (performance s);
          sharpeRatio := sharpeRatio (performance s) |};
     lastSignal := lastSignal s |}.

(** [evaluateStrategy(strategy)] on the current price history. *)
Definition evaluate (env : Environment) (strategy : Strategy)
  : M (option StrategySignal) :=
  fun w =>
    match evaluateStrategy (priceHistory w) (now env) strategy with
    | Normal s => (Normal s, w)
    | Throw e => (Throw e, w)
    end.

(** The test [signal && signal.confidence >= 70]. *)
Definition actionable (s : option StrategySignal) : option StrategySignal :=
  match s with
  | Some signal =>
      if ge (confidence (Registry.signal signal)) 70 then Some signal else None
  | None => None
  end.

(** The statements inside [try { ... }] for one strategy; [continue]
    ends them early. *)
Definition processStrategy (env : Environment) (key : string)
    (strategy : Strategy) : M unit :=
  let* marketData := fetchMarketData env (symbol strategy) in
  match marketData with
  | None => ret tt
  | Some marketData =>
      modify (with_priceHistory (fun h =>
        addToHistory h (symbol strategy) (md_price marketData))) ;;;
      modify (with_marketDataCache (fun c =>
        <[symbol strategy := marketData]> c)) ;;;
      let* evaluated := evaluate env strategy in
      match actionable evaluated with
      | None => ret tt
      | Some signal =>
          let sig := Registry.signal signal in
          mutate_strategy key (set_lastSignal signal) ;;;
          logs_push ("[" +:+ clock env +:+ "] " +:+ name strategy +:+ ": "
                     +:+ Action_to_string (action sig) +:+ " signal at â‚¹"
                     +:+ toFixed (fmt env) (price signal) 2 +:+ " ("
                     +:+ toString (fmt env) (confidence sig)
                     +:+ "% confidence)") ;;;
          logs_trim ;;;
          try_catch
            (let* tradeResult := executeRealTrade env key strategy signal in
             match tradeResult with
             | TradeDone orderId =>
                 let tradeLogMessage :=
                   "[" +:+ clock env +:+ "] âœ… REAL TRADE EXECUTED: "
                   +:+ Action_to_string (action sig) +:+ " "
                   +:+ toString (fmt env) (quantity (parameters strategy))
                   +:+ " " +:+ symbol strategy +:+ " at â‚¹"
                   +:+ toFixed (fmt env) (price signal) 2
                   +:+ " - Order ID: " +:+ show_optional orderId in
                 logs_push tradeLogMessage ;;;
                 console_log ("ðŸŽ¯ " +:+ tradeLogMessage) ;;;
                 mutate_strategy key count_trade ;;;
                 io_emit env
                   (real_trade_executed (name strategy) (symbol strategy)
                      (action sig) (quantity (parameters strategy))
                      (price signal) orderId (timestamp signal))
             | TradeFailed error =>
                 let errorLogMessage :=
                   "[" +:+ clock env +:+ "] âŒ TRADE FAILED: "
                   +:+ name strategy +:+ " - " +:+ error in
                 logs_push errorLogMessage ;;;
                 console_log ("âŒ " +:+ errorLogMessage)
             end)
            (fun tradeError =>
               let errorLogMessage :=
                 "[" +:+ clock env +:+ "] âŒ TRADE ERROR: "
                 +:+ name strategy +:+ " - " +:+ message tradeError in
               logs_push errorLogMessage ;;;
               console_log ("âŒ " +:+ errorLogMessage)) ;;;
          io_emit env
            (trading_signal (name strategy) (symbol strategy) (action sig)
               (price signal) (confidence sig) (timestamp signal))
      end
  end.

(** One turn of the loop: [try { ... } catch (error) { ... }]. *)
Definition guardedStrategy (env : Environment) (entry : string * Strategy)
  : M unit :=
  try_catch
    (processStrategy env entry.1 entry.2)
    (fun error =>
       console_log ("Error processing strategy " +:+ name entry.2 +:+ ":") ;;;
       logs_push ("[" +:+ clock env +:+ "] Error in " +:+ name entry.2
                  +:+ ": " +:+ message error)).

(** [Array.from(strategies.values()).filter(s => s.enabled)], with the
    key under which the registry holds each object. *)
Definition activeStrategies (w : World) : list (string * Strategy) :=
  filter (fun entry => enabled entry.2 = true) (strategies w).

(** The turns of the loop, one after the other, each from the world the
    previous one left. *)
Definition turns (env : Environment) (entries : list (string * Strategy))
    (w : World) : World :=
  fold_left (fun w entry => exec (guardedStrategy env entry) w) entries w.

Definition executeAutoTrading (env : Environment) : M unit :=
  let* on := gets (fun w => autoTradingEnabled (systemStatus w)) in
  if negb on then ret tt
  else
    let* active := gets activeStrategies in
    for_of active (guardedStrategy env).

(** *** Routes *)

(** The body of a partial update: [Partial<Strategy>]. *)
Record StrategyUpdate : Type := mkStrategyUpdate {
  new_id : option string;
  new_name : option string;
  new_type : option StrategyType;
  new_symbol : option string;
  new_enabled : option bool;
  new_parameters : option Parameters;
  new_performance : option Performance;
  new_lastSignal : option StrategySignal
}.

(** [Object.assign(strategy, updates)] *)
Definition assign (strategy : Strategy) (updates : StrategyUpdate) : Strategy :=
  {| id := default (id strategy) (new_id updates);
     name := default (name strategy) (new_name updates);
     type := default (type strategy) (new_type updates);
     symbol := default (symbol strategy) (new_symbol updates);
     enabled := default (enabled strategy) (new_enabled updates);
     parameters := default (parameters strategy) (new_parameters updates);
     performance := default (performance strategy) (new_performance updates);
     lastSignal := match new_lastSignal updates with
                   | Some s => Some s
                   | None => lastSignal strategy
                   end |}.

Inductive Response : Type :=
| Ok_strategy (strategy : Strategy)
| Ok_autoTrading (enabled : bool)
| NotFound (error : string).

(** [router.put('/:strategyId', ...)] *)
Definition putStrategy (env : Environment) (strategyId : string)
    (updates : StrategyUpdate) : M Response :=
  let* found := gets (fun w => Assoc.get (strategies w) strategyId) in
  match found with
  | Some strategy =>
      let strategy := assign strategy updates in
      modify (with_strategies (fun m => Assoc.set m strategyId strategy)) ;;;
      logs_push ("[" +:+ clock env +:+ "] Strategy " +:+ name strategy
                 +:+ " updated") ;;;
      ret (Ok_strategy strategy)
  | None => ret (NotFound "Strategy not found")
  end.

(** [router.post('/system/auto-trading', ...)] *)
Definition postAutoTrading (env : Environment) (enabled : bool) : M Response :=
  modify (with_systemStatus (fun s =>
    {| status := if enabled then "running" else "stopped";
       autoTradingEnabled := enabled;
       logs := logs s |})) ;;;
  let logMessage := "[" +:+ clock env +:+ "] Auto trading "
                    +:+ (if enabled then "started" else "stopped") in
  logs_push logMessage ;;;
  console_log ("ðŸ¤– " +:+ logMessage) ;;;
  ret (Ok_autoTrading enabled).

(** *** The scheduled jobs *)

(** The market-hours test of the 30-second job, on [getHours()] and
    [getMinutes()]. *)
Definition inMarketHours (hour minute : Z) : bool :=
  (hour =? 9) && (15 <=? minute)
  || (10 <=? hour) && (hour <? 15)
  || (hour =? 15) && (minute <=? 30).

(** [cron.schedule('* * * * *', ...)] *)
Definition everyMinute (env : Environment) : M unit :=
  let* on := gets (fun w => autoTradingEnabled (systemStatus w)) in
  if on then
    console_log ("ðŸ¤– [" +:+ clock env +:+ "] Running auto trading cycle...") ;;;
    executeAutoTrading env
  else ret tt.

(** [cron.schedule('*/30 * * * * *', ...)] *)
Definition everyThirtySeconds (env : Environment) (hour minute : Z) : M unit :=
  let* on := gets (fun w => autoTradingEnabled (systemStatus w)) in
  if on then
    if inMarketHours hour minute then
      console_log ("âš¡ [" +:+ clock env +:+ "] High-frequency trading check...") ;;;
      executeAutoTrading env
    else ret tt
  else ret tt.

(** *** Read-only routes *)

(** The body of the answer of [router.get('/system/status', ...)]. *)
Record StatusReport : Type := mkStatusReport {
  report_status : string;
  report_autoTradingEnabled : bool;
  report_logs : list string;
  report_activeStrategies : Z;
  report_totalStrategies : Z
}.

Definition getSystemStatus : M StatusReport :=
  gets (fun w =>
    {| report_status := status (systemStatus w);
       report_autoTradingEnabled := autoTradingEnabled (systemStatus w);
       report_logs := logs (systemStatus w);
       report_activeStrategies :=
         len (filter (fun s => enabled s = true) (Assoc.values (strategies w)));
       report_totalStrategies := len (strategies w) |}).

(** The loop of [router.post('/market-data', ...)]: a cache entry
    younger than 60000 ms is served as it is, anything else is fetched,
    and a fetched quote is cached and served.  The answer is an object
    keyed by symbol. *)
Fixpoint marketDataLoop (env : Environment) (symbols : list string)
    (marketData : list (string * MarketData)) : M (list (string * MarketData)) :=
  match symbols with
  | [] => ret marketData
  | symbol :: rest =>
      let* cached := gets (fun w => marketDataCache w !! symbol) in
      let fresh_enough :=
        match cached with
        | Some c => lt (now env - md_timestamp c)%float 60000
        | None => false
        end in
      match cached, fresh_enough with
      | Some c, true => marketDataLoop env rest (Assoc.set marketData symbol c)
      | _, _ =>
          let* fresh := fetchMarketData env symbol in
          match fresh with
          | Some f =>
              modify (with_marketDataCache (fun c => <[symbol := f]> c)) ;;;
              marketDataLoop env rest (Assoc.set marketData symbol f)
          | None => marketDataLoop env rest marketData
          end
      end
  end.

Definition postMarketData (env : Environment) (symbols : list string)
  : M (list (string * MarketData)) :=
  marketDataLoop env symbols [].

(** The state at start-up: [initializeStrategies()] on empty maps. *)
Definition initialWorld : World :=
  {| strategies := map (fun s => (id s, s)) defaultStrategies;
     systemStatus := {| status := "stopped"; autoTradingEnabled := false;
                        logs := [] |};
     marketDataCache := ∅;
     priceHistory := ∅;
     console := [];
     emitted := [];
     requested := [];
     placed := [];
     timers := [] |}.

End Server.

(** ** Two runs of the auto-trading cycle *)

Module Scenario.

Import Registry Server.
Local Open Scope float_scope.

Definition plainFormatting : Formatting :=
  {| toFixed := fun _ _ => "#"; toString := fun _ => "#" |}.

Definition quoteAt (p : number) : MarketData :=
  {| md_price := p; md_open := p; md_high := p; md_low := p;
     md_volume := 0; md_change := 0; md_changePercent := 0;
     md_timestamp := 0 |}.

(** The index ticks from 10 to 12 and the bank index from 101 to 100. *)
Definition latest (symbol : string) : MarketData :=
  if decide (symbol = "NIFTY.NS") then quoteAt 12 else quoteAt 100.

(** Twenty falling prices, 120 down to 101. *)
Definition falling : list number :=
  map (fun k : Z => of_Z (120 - k)) (seqZ 0 20).

Definition enable : StrategyUpdate :=
  mkStrategyUpdate None None None None (Some true) None None None.

Definition quiet : Environment :=
  {| fmt := plainFormatting; clock := "09:30:00"; now := 0;
     accessToken := "token";
     quote := fun _ symbol => Some (latest symbol);
     broker := fun n _ => Acknowledged (Some (if decide (n = 0%nat) then "ORD-1"
                                             else "ORD-2"));
     emitThrows := fun _ => None |}.

(** Both default index strategies switched on through the routes, with
    twenty samples of history each. *)
Definition ready : World :=
  with_priceHistory
    (fun _ => {[ "NIFTY.NS" := replicate 20 10; "BANKNIFTY.NS" := falling ]})
    (exec (postAutoTrading quiet true)
       (exec (putStrategy quiet "rsi_oversold_1" enable)
          (exec (putStrategy quiet "ema_crossover_1" enable) initialWorld))).

(** The first quote request of the run fails. *)
Definition firstFetchFails : Environment :=
  {| fmt := plainFormatting; clock := "09:30:00"; now := 0;
     accessToken := "token";
     quote := fun n symbol => if decide (n = 0%nat) then None
                              else Some (latest symbol);
     broker := fun n _ => Acknowledged (Some (if decide (n = 0%nat) then "ORD-1"
                                             else "ORD-2"));
     emitThrows := fun _ => None |}.

(** Every [io.emit] throws. *)
Definition emitsThrow : Environment :=
  {| fmt := plainFormatting; clock := "09:30:00"; now := 0;
     accessToken := "token";
     quote := fun _ symbol => Some (latest symbol);
     broker := fun n _ => Acknowledged (Some (if decide (n = 0%nat) then "ORD-1"
                                             else "ORD-2"));
     emitThrows := fun _ => Some (ExternalError "socket closed") |}.

(** What a test would read off an order. *)
Definition summary (o : OrderData) : string * Action * number :=
  (trading_symbol o, transaction_type o, order_quantity o).

End Scenario.

(** ** One tick of the live engine *)

Module LiveScenario.

Import LiveIndicators LiveEngine.
Local Open Scope float_scope.

(** Forty-one samples at 100, eight at 110; the feed then drops to 85,
    which reads as oversold, below the lower band, with the short EMA
    still above the long one. *)
Definition history : list number := (replicate 41 100 ++ replicate 8 110)%list.
Definition volumes : list number := replicate 49 1000.

Definition env : Environment :=
  {| fmt := {| toFixed := fun _ _ => "#"; toString := fun _ => "#" |};
     stamp := "09:30:00.000"; now := 60000; fresh := "abc";
     feedPrice := fun _ => 85; feedVolume := fun _ => 1000;
     broker := fun _ _ => Acknowledged (Some "ORD-1") |}.

Definition view : View :=
  {| isRunning := true; strategies := initialStrategies;
     view_positions := [] |}.

Definition state : State :=
  {| positions := []; signals := []; indicatorsOf := []; logs := [];
     performance := mkPerformance 0 0 0 0;
     priceHistory := {[ "BANKNIFTY" := history ]};
     volumeHistory := {[ "BANKNIFTY" := volumes ]};
     lastTradeTime := ∅; placed := [] |}.

Definition snapshot : TechnicalIndicators :=
  calculateIndicators (history ++ [85])%list (volumes ++ [1000])%list.

End LiveScenario.

(** * Properties *)

(** ** Facts about number comparison *)

Section NumberFacts.

Lemma eq_le (a b : number) : JS.eq a b = true -> JS.le a b = true.
Proof.
  unfold JS.eq, JS.le. rewrite FloatAxioms.eqb_spec, FloatAxioms.leb_spec.
  unfold SFeqb, SFleb.
  destruct (SFcompare (Prim2SF a) (Prim2SF b)) as [[]|]; congruence.
Qed.

Lemma SFcompare_Eq_sym (x y : spec_float) :
  SFcompare x y = Some Eq -> SFcompare y x = Some Eq.
Proof.
  destruct x as [sx|sx| |sx mx ex], y as [sy|sy| |sy my ey]; simpl;
    try congruence;
    try (destruct sx; congruence); try (destruct sy; congruence).
  - destruct sx, sy; congruence.
  - pose proof (Z.compare_antisym ex ey) as HZ.
    pose proof (Pos.compare_cont_antisym mx my Eq) as HP. simpl in HP.
    destruct sx, sy; try congruence; rewrite HZ, <- HP;
      destruct (ex ?= ey)%Z; simpl; try congruence;
      destruct (Pos.compare_cont Eq mx my); simpl; congruence.
Qed.

Lemma eq_ge (a b : number) : JS.eq a b = true -> JS.ge a b = true.
Proof.
  unfold JS.eq, JS.ge. rewrite FloatAxioms.eqb_spec, FloatAxioms.leb_spec.
  unfold SFeqb, SFleb. intros H.
  destruct (SFcompare (Prim2SF a) (Prim2SF b)) as [[]|] eqn:E; try congruence.
  now rewrite (SFcompare_Eq_sym _ _ E).
Qed.

Lemma ltb_of_lt (a b : Z) : a < b -> (a <? b) = true.
Proof. intros H. now apply Z.ltb_lt. Qed.

End NumberFacts.

(** ** The EMA crossover at an exact tie *)

Module CrossoverProps.

Import Indicators Evaluators Registry.
Local Open Scope float_scope.

(** Twenty samples at 10 followed by one at 12, evaluated with the
    parameters of the default strategy [ema_crossover_1]. *)
Definition flat_then_up : list number := replicate 20 10 ++ [12].
Definition nifty_parameters : Parameters := ema_parameters 9 21 25 2 4 true.

(** C1, as stated, fails: on [flat_then_up] both EMA series read 10
    at the previous index, the fast one is above the slow one at the
    last index, and the evaluator answers BUY, not HOLD. *)
Lemma crossover_tie_is_not_hold :
  prevEMA flat_then_up 9 = prevEMA flat_then_up 21 /\
  gt (currentEMA flat_then_up 9) (currentEMA flat_then_up 21) = true /\
  evaluateEMACrossover flat_then_up nifty_parameters
    = {| action := BUY; confidence := 85 |} /\
  action (evaluateEMACrossover flat_then_up nifty_parameters) <> HOLD.
Proof.
  assert (E : evaluateEMACrossover flat_then_up nifty_parameters
              = {| action := BUY; confidence := 85 |})
    by (vm_compute; reflexivity).
  repeat split; try (vm_compute; reflexivity); try exact E.
  rewrite E. discriminate.
Qed.

(** C1, amended: with enough history and the two EMA series equal at
    the previous index, the outcome is decided by the last index
    alone: BUY (85) when the fast EMA is strictly above the slow one,
    SELL (85) when strictly below, HOLD (0) otherwise.  The "before"
    side of the crossing is tested with [<=] and [>=]. *)
Theorem crossover_tie_follows_last_index
    (prices : list number) (parameters : Parameters) :
  (len prices <? slowPeriod parameters)%Z = false ->
  JS.eq (prevEMA prices (fastPeriod parameters))
        (prevEMA prices (slowPeriod parameters)) = true ->
  evaluateEMACrossover prices parameters =
    if gt (currentEMA prices (fastPeriod parameters))
          (currentEMA prices (slowPeriod parameters))
    then {| action := BUY; confidence := 85 |}
    else if lt (currentEMA prices (fastPeriod parameters))
               (currentEMA prices (slowPeriod parameters))
    then {| action := SELL; confidence := 85 |}
    else hold0.
Proof.
  intros Hlen Htie.
  unfold evaluateEMACrossover. rewrite Hlen.
  unfold prevEMA in Htie. unfold currentEMA.
  cbv zeta in *.
  rewrite (eq_le _ _ Htie), (eq_ge _ _ Htie).
  reflexivity.
Qed.

Lemma crossover_tie_follows_last_index_witness :
  evaluateEMACrossover flat_then_up nifty_parameters =
    if gt (currentEMA flat_then_up 9) (currentEMA flat_then_up 21)
    then {| action := BUY; confidence := 85 |}
    else if lt (currentEMA flat_then_up 9) (currentEMA flat_then_up 21)
    then {| action := SELL; confidence := 85 |}
    else hold0.
Proof.
  apply (crossover_tie_follows_last_index flat_then_up nifty_parameters);
    vm_compute; reflexivity.
Defined.

End CrossoverProps.

(** ** Insufficient history *)

Module WarmupProps.

Import Indicators Evaluators Registry.

(** C4: every evaluator answers HOLD with confidence 0, without
    throwing, when the price list is shorter than its lookback, and
    the dispatcher returns no signal below 20 samples. *)
Theorem insufficient_history_is_hold :
  (forall prices parameters,
      len prices < slowPeriod parameters ->
      evaluateEMACrossover prices parameters = hold0) /\
  (forall prices parameters,
      len prices < rsiPeriod parameters + 1 ->
      evaluateRSIOversold prices parameters = hold0) /\
  (forall prices parameters,
      len prices < longPeriod parameters ->
      evaluateSMATrend prices parameters = hold0) /\
  (forall prices parameters,
      len prices < period parameters ->
      evaluateBollingerBands prices parameters = Normal hold0) /\
  (forall (priceHistory : PriceHistory) now strategy,
      (forall history, priceHistory !! symbol strategy = Some history ->
                       len history < 20) ->
      evaluateStrategy priceHistory now strategy = Normal None) /\
  action hold0 = HOLD /\ confidence hold0 = 0%float.
Proof.
  repeat split.
  - intros prices parameters H. unfold evaluateEMACrossover.
    now rewrite (ltb_of_lt _ _ H).
  - intros prices parameters H. unfold evaluateRSIOversold.
    now rewrite (ltb_of_lt _ _ H).
  - intros prices parameters H. unfold evaluateSMATrend.
    now rewrite (ltb_of_lt _ _ H).
  - intros prices parameters H. unfold evaluateBollingerBands.
    now rewrite (ltb_of_lt _ _ H).
  - intros priceHistory now strategy H. unfold evaluateStrategy.
    destruct (priceHistory !! symbol strategy) as [history|]; [|reflexivity].
    now rewrite (ltb_of_lt _ _ (H history eq_refl)).
Qed.

Lemma insufficient_history_is_hold_witness :
  evaluateEMACrossover [1; 2]%float (ema_parameters 9 21 25 2 4 true) = hold0 /\
  evaluateBollingerBands
    [1; 2]%float (bollinger_parameters 20 2 5 1.8 3.5 true) = Normal hold0.
Proof.
  destruct insufficient_history_is_hold as (Hema & _ & _ & Hbb & _).
  split; [apply Hema | apply Hbb]; vm_compute; reflexivity.
Defined.

End WarmupProps.

(** ** Short input to the indicator functions *)

Module ShortInputProps.

Import LiveIndicators.
Local Open Scope float_scope.

(** C5, as stated, fails for the server's [calculateRSI]: two prices
    against a period of 14 give 100, and a single price gives NaN. *)
Lemma server_rsi_short_input_not_neutral :
  (len [10; 11] < 14)%Z /\
  Indicators.calculateRSI [10; 11] 14 = 100 /\
  Indicators.calculateRSI [10; 11] 14 <> 50 /\
  (len [10] < 14)%Z /\
  PrimFloat.is_nan (Indicators.calculateRSI [10] 14) = true.
Proof.
  assert (E : Indicators.calculateRSI [10; 11] 14 = 100)
    by (vm_compute; reflexivity).
  repeat split; try (vm_compute; reflexivity); try exact E.
  rewrite E. intros H.
  assert (F : PrimFloat.eqb 100 50 = true) by (rewrite H; reflexivity).
  vm_compute in F. discriminate.
Qed.

(** The value [prices[length - 1] || 0] of the warm-up branch. *)
Definition currentOrZero (prices : list number) : number :=
  or_else (get prices (len prices - 1)) 0.

(** C5, amended: the neutral defaults are those of the live engine.
    Its [calculateRSI] returns 50 below 2 prices, and below 50 prices
    [calculateIndicators] returns rsi 50, stochastics 50, macd 0,
    atr 0, volume ratio 1, and the current price (or 0) for both
    Bollinger bands and all four averages.  The server's
    [calculateRSI] has no default of its own: below 2 prices, at its
    default period 14, it returns NaN. *)
Theorem live_engine_short_input_defaults :
  (forall prices, (len prices < 2)%Z -> calculateRSI prices = 50) /\
  (forall prices volumes, (len prices < 50)%Z ->
      calculateIndicators prices volumes =
        {| rsi := 50;
           sma20 := currentOrZero prices; sma50 := currentOrZero prices;
           ema9 := currentOrZero prices; ema21 := currentOrZero prices;
           macd := 0; macdSignal := 0;
           bollingerUpper := currentOrZero prices;
           bollingerLower := currentOrZero prices;
           stochasticK := 50; stochasticD := 50;
           atr := 0; volumeRatio := 1 |}) /\
  (forall prices, (len prices < 2)%Z ->
      PrimFloat.is_nan (Indicators.calculateRSI prices 14) = true).
Proof.
  repeat split.
  - intros prices H. unfold calculateRSI.
    now rewrite (ltb_of_lt _ _ H).
  - intros prices volumes H. unfold calculateIndicators.
    now rewrite (ltb_of_lt _ _ H).
  - intros [|a [|b rest]] H; try reflexivity.
    unfold len in H. simpl in H. lia.
Qed.

Lemma live_engine_short_input_defaults_witness :
  calculateRSI [10] = 50 /\
  bollingerUpper (calculateIndicators [10; 11] [100; 100]) = 11 /\
  bollingerLower (calculateIndicators [10; 11] [100; 100]) = 11.
Proof.
  destruct live_engine_short_input_defaults as (Hrsi & Hind & _).
  split; [apply Hrsi; vm_compute; reflexivity|].
  rewrite Hind by (vm_compute; reflexivity).
  split; vm_compute; reflexivity.
Defined.

End ShortInputProps.

(** ** Eviction from the bounded buffers *)

Module EvictionProps.

Import Registry CandleUtils.

Lemma last_n_length {A} (n : nat) (a : list A) :
  length (last_n n a) = Nat.min n (length a).
Proof. unfold last_n. rewrite length_drop. lia. Qed.


Lemma slice_from_negative {A} (a : list A) (n : nat) :
  (0 < n)%nat -> slice_from a (- Z.of_nat n) = last_n n a.
Proof.
  intros Hn. unfold slice_from, slice, rel_index, last_n, len.
  destruct (Z.ltb_spec (- Z.of_nat n) 0) as [_|]; [|lia].
  destruct (Z.ltb_spec (Z.of_nat (length a)) 0) as [|_]; [lia|].
  rewrite Z.min_id.
  replace (Z.to_nat (Z.max (Z.of_nat (length a) + - Z.of_nat n) 0))
    with (length a - n)%nat by lia.
  apply take_ge. rewrite length_drop. lia.
Qed.










End EvictionProps.

(** ** Vote counting in the live engine *)

Module VoteProps.

Import LiveIndicators LiveEngine.
Local Open Scope float_scope.

(** [v'] has at most one vote more than [v], and none fewer. *)
Definition oneMoreAtMost (v v' : Votes) : Prop :=
  (buySignals v <= buySignals v')%Z /\
  (sellSignals v <= sellSignals v')%Z /\
  (buySignals v' + sellSignals v' <= buySignals v + sellSignals v + 1)%Z.

Ltac vote_cases :=
  unfold oneMoreAtMost, voteBuy, voteSell;
  repeat match goal with
         | |- context [if ?b then _ else _] => destruct b
         end;
  simpl; lia.

Lemma rsiVote_one fmt c ind v : oneMoreAtMost v (rsiVote fmt c ind v).
Proof. unfold rsiVote. vote_cases. Qed.

Lemma emaVote_one c ind v : oneMoreAtMost v (emaVote c ind v).
Proof. unfold emaVote. vote_cases. Qed.

Lemma volumeVote_one fmt c ind v : oneMoreAtMost v (volumeVote fmt c ind v).
Proof. unfold volumeVote. cbv zeta. vote_cases. Qed.

Lemma priceVote_one c p ind v : oneMoreAtMost v (priceVote c p ind v).
Proof. unfold priceVote. vote_cases. Qed.

Lemma macdVote_one ind v : oneMoreAtMost v (macdVote ind v).
Proof. unfold macdVote. vote_cases. Qed.

(** Five blocks, at most one vote each. *)
Lemma countVotes_bounds (fmt : Formatting) (strategy : TradingStrategy)
    (currentPrice : number) (ind : TechnicalIndicators) :
  let v := countVotes fmt strategy currentPrice ind in
  (0 <= buySignals v)%Z /\ (0 <= sellSignals v)%Z /\
  (buySignals v + sellSignals v <= 5)%Z.
Proof.
  unfold countVotes. cbv zeta.
  set (c := conditions strategy).
  set (v0 := {| buySignals := 0; sellSignals := 0; described := [] |}).
  pose proof (rsiVote_one fmt c ind v0) as H1.
  set (v1 := rsiVote fmt c ind v0) in *.
  pose proof (emaVote_one c ind v1) as H2.
  set (v2 := emaVote c ind v1) in *.
  pose proof (volumeVote_one fmt c ind v2) as H3.
  set (v3 := volumeVote fmt c ind v2) in *.
  pose proof (priceVote_one c currentPrice ind v3) as H4.
  set (v4 := priceVote c currentPrice ind v3) in *.
  pose proof (macdVote_one ind v4) as H5.
  unfold oneMoreAtMost in *. simpl in H1. lia.
Qed.

Lemma strength_of_votes (votes : Z) :
  (3 <= votes <= 5)%Z ->
  Math_min (of_Z votes / 5) 1 = of_Z votes / 5 /\
  (of_Z votes / 5 = 0.6 \/ of_Z votes / 5 = 0.8 \/ of_Z votes / 5 = 1) /\
  ge (of_Z votes / 5) 0.6 = true /\
  lt (of_Z votes / 5) 0.6 = false.
Proof.
  intros H.
  assert (E : votes = 3%Z \/ votes = 4%Z \/ votes = 5%Z) by lia.
  destruct E as [-> | [-> | ->]]; vm_compute; tauto.
Qed.

(** The winning side's counter of a non-HOLD signal. *)
Definition winningVotes (a : Action) (v : Votes) : Z :=
  match a with BUY => buySignals v | SELL => sellSignals v | HOLD => 0 end.

(** C10: a BUY or SELL signal of [generateSignal] was carried by 3, 4
    or 5 votes of the winning side, its strength is that count divided
    by 5, hence 0.6, 0.8 or 1, and the strength test of [executeTrade]
    never rejects it. *)
Theorem generated_signal_passes_gate (fmt : Formatting)
    (strategies : list (string * TradingStrategy)) (now : number)
    (symbol : string) (currentPrice : number) (ind : TechnicalIndicators) :
  let s := generateSignal fmt strategies now symbol currentPrice ind in
  action s <> HOLD ->
  (exists strategy,
      Assoc.get strategies symbol = Some strategy /\
      let votes := winningVotes (action s)
                     (countVotes fmt strategy currentPrice ind) in
      (3 <= votes <= 5)%Z /\ strength s = of_Z votes / 5) /\
  (strength s = 0.6 \/ strength s = 0.8 \/ strength s = 1) /\
  ge (strength s) 0.6 = true /\
  rejectedByGate s = false.
Proof.
  intros s Hact. subst s. revert Hact.
  unfold rejectedByGate, generateSignal.
  destruct (Assoc.get strategies symbol) as [strategy|]; [|simpl; congruence].
  destruct (enabled strategy); [|simpl; congruence].
  simpl negb. cbv iota zeta.
  pose proof (countVotes_bounds fmt strategy currentPrice ind) as (Hb & Hs & Hsum).
  set (v := countVotes fmt strategy currentPrice ind) in *.
  destruct ((sellSignals v <? buySignals v)%Z && (3 <=? buySignals v)%Z) eqn:Ebuy.
  - apply andb_prop in Ebuy as [_ E3]. apply Z.leb_le in E3.
    assert (Hv : (3 <= buySignals v <= 5)%Z) by lia.
    destruct (strength_of_votes _ Hv) as (Hmin & Hval & Hge & Hlt).
    simpl. intros _. rewrite !Hmin.
    split; [exists strategy; auto|]. split; [exact Hval|]. split; [exact Hge|].
    rewrite Hlt. reflexivity.
  - destruct ((buySignals v <? sellSignals v)%Z && (3 <=? sellSignals v)%Z) eqn:Esell.
    + apply andb_prop in Esell as [_ E3]. apply Z.leb_le in E3.
      assert (Hv : (3 <= sellSignals v <= 5)%Z) by lia.
      destruct (strength_of_votes _ Hv) as (Hmin & Hval & Hge & Hlt).
      simpl. intros _. rewrite !Hmin.
      split; [exists strategy; auto|]. split; [exact Hval|]. split; [exact Hge|].
      rewrite Hlt. reflexivity.
    + simpl. congruence.
Qed.

Lemma generated_signal_passes_gate_witness :
  strength (generateSignal (fmt LiveScenario.env) initialStrategies 60000
              "BANKNIFTY" 85 LiveScenario.snapshot) = 0.6 /\
  rejectedByGate (generateSignal (fmt LiveScenario.env) initialStrategies 60000
                    "BANKNIFTY" 85 LiveScenario.snapshot) = false.
Proof.
  assert (Hact : action (generateSignal (fmt LiveScenario.env) initialStrategies
                           60000 "BANKNIFTY" 85 LiveScenario.snapshot) <> HOLD)
    by (vm_compute; discriminate).
  destruct (generated_signal_passes_gate (fmt LiveScenario.env)
              initialStrategies 60000 "BANKNIFTY" 85 LiveScenario.snapshot Hact)
    as (_ & _ & _ & Hgate).
  split; [vm_compute; reflexivity|exact Hgate].
Defined.

End VoteProps.

(** ** The strategy registry and the log list *)

Module RegistryProps.

Import Registry Server.

Lemma get_set_eq {A} (m : list (string * A)) (key : string) (old value : A) :
  Assoc.get m key = Some old -> Assoc.get (Assoc.set m key value) key = Some value.
Proof.
  induction m as [|[k v] m IH]; simpl; [discriminate|].
  destruct (decide (k = key)) as [->|Hne]; simpl.
  - intros _. now rewrite decide_True.
  - intros H. rewrite decide_False by exact Hne. auto.
Qed.

Lemma get_set_ne {A} (m : list (string * A)) (key other : string) (value : A) :
  other <> key -> Assoc.get (Assoc.set m key value) other = Assoc.get m other.
Proof.
  intros Hne. induction m as [|[k v] m IH]; simpl.
  - now rewrite decide_False by congruence.
  - destruct (decide (k = key)) as [->|Hk]; simpl.
    + now rewrite !decide_False by congruence.
    + now rewrite IH.
Qed.

Lemma keys_set {A} (m : list (string * A)) (key : string) (old value : A) :
  Assoc.get m key = Some old -> Assoc.keys (Assoc.set m key value) = Assoc.keys m.
Proof.
  unfold Assoc.keys.
  induction m as [|[k v] m IH]; simpl; [discriminate|].
  destruct (decide (k = key)) as [->|Hne]; simpl; [reflexivity|].
  intros H. now rewrite IH.
Qed.

(** C9: a partial update merges.  The updated entry is the old one
    with the named fields replaced: every field the update does not
    name keeps its value, every other entry of the registry is
    untouched, and the entries keep their order. *)
Theorem update_merges_and_frames (env : Environment) (w : World)
    (strategyId : string) (updates : StrategyUpdate) (strategy : Strategy) :
  Assoc.get (strategies w) strategyId = Some strategy ->
  let w' := exec (putStrategy env strategyId updates) w in
  exists updated,
    Assoc.get (strategies w') strategyId = Some updated /\
    outcome (putStrategy env strategyId updates) w = Normal (Ok_strategy updated) /\
    (new_id updates = None -> id updated = id strategy) /\
    (new_name updates = None -> name updated = name strategy) /\
    (new_type updates = None -> type updated = type strategy) /\
    (new_symbol updates = None -> symbol updated = symbol strategy) /\
    (new_enabled updates = None -> enabled updated = enabled strategy) /\
    (new_parameters updates = None -> parameters updated = parameters strategy) /\
    (new_performance updates = None ->
       performance updated = performance strategy) /\
    (new_lastSignal updates = None -> lastSignal updated = lastSignal strategy) /\
    (forall other, other <> strategyId ->
       Assoc.get (strategies w') other = Assoc.get (strategies w) other) /\
    Assoc.keys (strategies w') = Assoc.keys (strategies w).
Proof.
  intros Hget w'. exists (assign strategy updates).
  subst w'. unfold exec, outcome, putStrategy, bind, gets, modify, logs_push, ret.
  simpl. rewrite Hget. simpl.
  split; [now apply get_set_eq with strategy|].
  split; [reflexivity|].
  unfold assign; simpl.
  repeat (split; [now intros ->|]).
  split.
  - intros other Hne. now apply get_set_ne.
  - now apply keys_set with strategy.
Qed.

Lemma update_merges_and_frames_witness :
  exists updated,
    Assoc.get (strategies (exec (putStrategy
        (mkEnvironment (mkFormatting (fun _ _ => "") (fun _ => "")) "09:15:00"
           0 "token" (fun _ _ => None) (fun _ _ => Refused "closed")
           (fun _ => None))
        "rsi_oversold_1"
        (mkStrategyUpdate None None None None (Some true) None None None))
      initialWorld)) "rsi_oversold_1" = Some updated /\
    enabled updated = true /\
    parameters updated = rsi_parameters 14 30 70 15 1.5 3.
Proof.
  destruct (update_merges_and_frames
              (mkEnvironment (mkFormatting (fun _ _ => "") (fun _ => "")) "09:15:00"
                 0 "token" (fun _ _ => None) (fun _ _ => Refused "closed")
                 (fun _ => None))
              initialWorld "rsi_oversold_1"
              (mkStrategyUpdate None None None None (Some true) None None None)
              _ eq_refl)
    as (updated & Hget & Hout & _ & _ & _ & _ & _ & Hpar & _).
  exists updated. split; [exact Hget|].
  split; [|now apply Hpar].
  vm_compute in Hout. now inversion Hout.
Defined.

(** A log list filled to the cap of 100. *)
Definition fullLogs : list string := replicate 100 "entry".

Definition worldWithFullLogs : World :=
  with_systemStatus (fun s =>
    {| status := status s; autoTradingEnabled := autoTradingEnabled s;
       logs := fullLogs |}) initialWorld.

(** C7 fails on the code: with 100 entries in the log list, the
    strategy-update route and the auto-trading switch each leave 101,
    since only the signal entry of the trading cycle is followed by the
    trimming step. *)
Theorem routes_push_logs_past_cap (env : Environment) :
  length (logs (systemStatus worldWithFullLogs)) = 100%nat /\
  length (logs (systemStatus
     (exec (putStrategy env "ema_crossover_1"
              (mkStrategyUpdate None None None None (Some true) None None None))
           worldWithFullLogs))) = 101%nat /\
  length (logs (systemStatus
     (exec (postAutoTrading env true) worldWithFullLogs))) = 101%nat.
Proof.
  split; [reflexivity|split].
  - unfold exec, putStrategy, bind, gets, modify, logs_push, ret. simpl.
    reflexivity.
  - unfold exec, postAutoTrading, bind, gets, modify, logs_push, console_log, ret.
    simpl. reflexivity.
Qed.

End RegistryProps.

(** ** The auto-trading cycle *)

Module CycleProps.

Import Registry Server.

(** A signal the dispatcher returns is never HOLD. *)
Lemma evaluateStrategy_not_hold (history : PriceHistory) (now : number)
    (strategy : Strategy) (signal : StrategySignal) :
  evaluateStrategy history now strategy = Normal (Some signal) ->
  action (Registry.signal signal) <> HOLD.
Proof.
  unfold evaluateStrategy.
  destruct (history !! symbol strategy) as [h|]; [|discriminate].
  destruct (len h <? 20); [discriminate|].
  destruct (type strategy);
    try destruct (Evaluators.evaluateBollingerBands h (parameters strategy));
    try discriminate;
    match goal with
    | |- context [decide (action ?s = HOLD)] =>
        destruct (decide (action s = HOLD)) as [|Hne]; [discriminate|];
        intros H; inversion H; subst; exact Hne
    end.
Qed.

(** The price history the evaluation of one strategy sees. *)
Definition historyAfter (w : World) (strategy : Strategy) (md : MarketData)
  : PriceHistory :=
  addToHistory (priceHistory w) (symbol strategy) (md_price md).

(** [executeRealTrade] never throws, posts exactly its entry order, and
    arms the 5000 ms timer exactly when the broker acknowledges. *)
Lemma executeRealTrade_spec (env : Environment) (key : string)
    (strategy : Strategy) (signal : StrategySignal) (w : World) :
  exists result w',
    executeRealTrade env key strategy signal w = (Normal result, w') /\
    placed w' = placed w ++ [entryOrder env strategy signal] /\
    requested w' = requested w /\
    emitted w' = emitted w /\
    systemStatus w' = systemStatus w /\
    strategies w' = strategies w /\
    priceHistory w' = priceHistory w /\
    match broker env (length (placed w)) (entryOrder env strategy signal) with
    | Acknowledged order_id =>
        result = TradeDone order_id /\
        timers w' = timers w ++ [ {| delay := 5000; strategyKey := key;
                                     entrySignal := signal;
                                     parentOrderId := order_id |} ]
    | Refused error =>
        result = TradeFailed (if decide (error = "") then "Unknown error" else error)
        /\ timers w' = timers w
    | Failed e =>
        result = TradeFailed (if decide (message e = "") then "Unknown error"
                              else message e)
        /\ timers w' = timers w
    end.
Proof.
  unfold executeRealTrade, try_catch, bind, console_log, modify, placeOrderDirect.
  cbn -[String.append entryOrder].
  destruct (broker env (length (placed w)) (entryOrder env strategy signal))
    as [oid|err|err];
    cbn -[String.append entryOrder];
    eexists; eexists; (split; [reflexivity|]);
    cbn -[String.append entryOrder]; auto 10.
Qed.


(** What one guarded turn of the loop does to the requests and the
    orders: it completes normally, asks exactly one quote, and posts
    either nothing or the entry order of a signal that passed the gate. *)
Lemma guardedStrategy_spec (env : Environment) (key : string)
    (strategy : Strategy) (w : World) :
  outcome (guardedStrategy env (key, strategy)) w = Normal tt /\
  requested (exec (guardedStrategy env (key, strategy)) w)
    = requested w ++ [symbol strategy] /\
  (placed (exec (guardedStrategy env (key, strategy)) w) = placed w \/
   exists md signal,
     quote env (length (requested w)) (symbol strategy) = Some md /\
     evaluateStrategy (historyAfter w strategy md) (now env) strategy
       = Normal (Some signal) /\
     ge (confidence (Registry.signal signal)) 70 = true /\
     placed (exec (guardedStrategy env (key, strategy)) w)
       = placed w ++ [entryOrder env strategy signal]).
Proof.
  unfold outcome, exec, guardedStrategy, processStrategy, try_catch, bind,
    fetchMarketData.
  cbn [fst snd].
  destruct (quote env (length (requested w)) (symbol strategy)) as [md|] eqn:Eq;
    [|cbn; auto].
  cbn -[addToHistory evaluateStrategy String.append executeRealTrade].
  unfold evaluate.
  cbn -[addToHistory evaluateStrategy String.append executeRealTrade].
  destruct (evaluateStrategy _ (now env) strategy) as [[signal|]|e] eqn:Eev;
    [| cbn -[String.append]; auto | cbn -[String.append]; auto].
  unfold actionable.
  destruct (ge (confidence (Registry.signal signal)) 70) eqn:Egate;
    [|cbn -[String.append]; auto].
  cbn -[String.append executeRealTrade].
  match goal with
  | |- context [executeRealTrade env key strategy signal ?w1] =>
      destruct (executeRealTrade_spec env key strategy signal w1)
        as (result & w' & -> & Hplaced & Hreq & _)
  end.
  cbn in Hplaced, Hreq.
  destruct result as [orderId|error];
    cbn -[String.append]; unfold io_emit; cbn -[String.append];
    repeat match goal with
           | |- context [emitThrows env ?n] =>
               destruct (emitThrows env n); cbn -[String.append]
           end;
    (split; [reflexivity|]; split; [exact Hreq|]; right;
     exists md, signal; auto).
Qed.


Lemma turns_cons (env : Environment) (entry : string * Strategy)
    (entries : list (string * Strategy)) (w : World) :
  turns env (entry :: entries) w
  = turns env entries (exec (guardedStrategy env entry) w).
Proof. reflexivity. Qed.

Lemma for_of_guarded (env : Environment) (entries : list (string * Strategy))
    (w : World) :
  for_of entries (guardedStrategy env) w = (Normal tt, turns env entries w).
Proof.
  revert w. induction entries as [|[key strategy] entries IH]; intros w.
  - reflexivity.
  - simpl. unfold bind.
    destruct (guardedStrategy_spec env key strategy w) as (Hout & _).
    unfold outcome, exec in *.
    destruct (guardedStrategy env (key, strategy) w) as [r w1].
    simpl in Hout. subst r. apply IH.
Qed.

Lemma executeAutoTrading_turns (env : Environment) (w : World) :
  executeAutoTrading env w
  = (Normal tt,
     if autoTradingEnabled (systemStatus w)
     then turns env (activeStrategies w) w else w).
Proof.
  unfold executeAutoTrading, bind, gets. simpl.
  destruct (autoTradingEnabled (systemStatus w)); simpl; [|reflexivity].
  apply for_of_guarded.
Qed.

Lemma turns_requested (env : Environment) (entries : list (string * Strategy))
    (w : World) :
  requested (turns env entries w)
  = requested w ++ map (fun entry => symbol entry.2) entries.
Proof.
  revert w. induction entries as [|[key strategy] entries IH]; intros w.
  - simpl. now rewrite app_nil_r.
  - rewrite turns_cons, IH.
    destruct (guardedStrategy_spec env key strategy w) as (_ & -> & _).
    simpl. now rewrite <- app_assoc.
Qed.

(** C8, amended: a cycle never aborts.  It completes normally and is
    exactly the succession of the turns of all enabled strategies, so
    every one of them has its quote requested, in order, whatever
    happened to the others.  A turn whose fetch fails is skipped with a
    [console.error] line only: it leaves the request and that line
    behind, and changes neither the system status with its log list
    nor the orders.  A turn that throws is caught and leaves a console
    line and an "Error in" entry in the log list. *)
Theorem cycle_isolates_failures (env : Environment) (w : World) :
  executeAutoTrading env w
    = (Normal tt,
       if autoTradingEnabled (systemStatus w)
       then turns env (activeStrategies w) w else w) /\
  (autoTradingEnabled (systemStatus w) = true ->
   requested (exec (executeAutoTrading env) w)
     = requested w ++ map (fun entry => symbol entry.2) (activeStrategies w)) /\
  (forall entry w0,
      quote env (length (requested w0)) (symbol entry.2) = None ->
      guardedStrategy env entry w0
        = (Normal tt,
           with_console
             (fun c => c ++ ["Failed to fetch data for " +:+ symbol entry.2 +:+ ":"])
             (with_requested (fun l => l ++ [symbol entry.2]) w0)) /\
      systemStatus (exec (guardedStrategy env entry) w0) = systemStatus w0 /\
      placed (exec (guardedStrategy env entry) w0) = placed w0) /\
  (forall entry w0 e w1,
      processStrategy env entry.1 entry.2 w0 = (Throw e, w1) ->
      outcome (guardedStrategy env entry) w0 = Normal tt /\
      console (exec (guardedStrategy env entry) w0)
        = console w1
          ++ ["Error processing strategy " +:+ name entry.2 +:+ ":"] /\
      logs (systemStatus (exec (guardedStrategy env entry) w0))
        = logs (systemStatus w1)
          ++ ["[" +:+ clock env +:+ "] Error in " +:+ name entry.2 +:+ ": "
              +:+ message e] /\
      placed (exec (guardedStrategy env entry) w0) = placed w1 /\
      requested (exec (guardedStrategy env entry) w0) = requested w1).
Proof.
  split; [apply executeAutoTrading_turns|].
  split.
  - intros Hon. unfold exec. rewrite executeAutoTrading_turns, Hon. simpl.
    apply turns_requested.
  - split.
    + intros [key strategy] w0 Hq. simpl in Hq.
      unfold exec, guardedStrategy, processStrategy, try_catch, bind,
        fetchMarketData.
      cbn [fst snd]. rewrite Hq. repeat split.
    + intros [key strategy] w0 e w1 Hthrow.
      unfold outcome, exec, guardedStrategy, try_catch.
      cbn [fst snd] in *. rewrite Hthrow. repeat split.
Qed.

(** Isolation on a concrete run: the first quote request fails, the
    second strategy is still asked, evaluated, and its order posted. *)
Lemma cycle_isolates_failures_witness :
  outcome (executeAutoTrading Scenario.firstFetchFails) Scenario.ready
    = Normal tt /\
  requested (exec (executeAutoTrading Scenario.firstFetchFails) Scenario.ready)
    = ["NIFTY.NS"; "BANKNIFTY.NS"] /\
  map Scenario.summary
      (placed (exec (executeAutoTrading Scenario.firstFetchFails) Scenario.ready))
    = [("BANKNIFTY", BUY, 15%float)].
Proof.
  destruct (cycle_isolates_failures Scenario.firstFetchFails Scenario.ready)
    as (Hrun & Hreq & _).
  split; [unfold outcome; now rewrite Hrun|].
  split; [rewrite Hreq; vm_compute; reflexivity|].
  unfold exec. rewrite Hrun. vm_compute. reflexivity.
Defined.

(** No quote request is answered. *)
Definition quotesFail : Environment :=
  {| fmt := Scenario.plainFormatting; clock := "09:30:00"; now := 0%float;
     accessToken := "token";
     quote := fun _ _ => None;
     broker := fun _ _ => Acknowledged (Some "ORD-1");
     emitThrows := fun _ => None |}.

(** C8, as stated, fails on the log entry: with both default index
    strategies enabled and every fetch failing, the cycle completes,
    asks both quotes and skips both strategies; each failure leaves its
    console line, and the log list of the system status is what it was
    before the cycle. *)
Lemma failed_fetch_leaves_no_log_entry :
  outcome (executeAutoTrading quotesFail) Scenario.ready = Normal tt /\
  requested (exec (executeAutoTrading quotesFail) Scenario.ready)
    = ["NIFTY.NS"; "BANKNIFTY.NS"] /\
  console (exec (executeAutoTrading quotesFail) Scenario.ready)
    = console Scenario.ready
      ++ ["Failed to fetch data for NIFTY.NS:";
          "Failed to fetch data for BANKNIFTY.NS:"] /\
  logs (systemStatus (exec (executeAutoTrading quotesFail) Scenario.ready))
    = logs (systemStatus Scenario.ready) /\
  placed (exec (executeAutoTrading quotesFail) Scenario.ready) = [].
Proof. repeat split; vm_compute; reflexivity. Qed.

(** Isolation when a turn throws: with every emit failing, both
    strategies still trade, and each failure is logged. *)
Example both_trade_when_emits_throw :
  outcome (executeAutoTrading Scenario.emitsThrow) Scenario.ready = Normal tt /\
  map Scenario.summary
      (placed (exec (executeAutoTrading Scenario.emitsThrow) Scenario.ready))
    = [("NIFTY", BUY, 25%float); ("BANKNIFTY", BUY, 15%float)] /\
  logs (systemStatus (exec (executeAutoTrading Scenario.emitsThrow)
                             Scenario.ready)) !! 6%nat
    = Some "[09:30:00] Error in EMA Crossover NIFTY: socket closed".
Proof.
  split; [vm_compute; reflexivity|].
  split; [vm_compute; reflexivity|].
  vm_compute. reflexivity.
Qed.

(** The two derived orders are posted, stop-loss first. *)
Lemma scheduleStopLossAndTakeProfit_placed (env : Environment)
    (strategy : Strategy) (signal : StrategySignal) (oid : option string)
    (w : World) :
  placed (exec (scheduleStopLossAndTakeProfit env strategy signal oid) w)
  = placed w ++ [stopLossOrder strategy signal oid;
                 takeProfitOrder strategy signal oid].
Proof.
  unfold exec, scheduleStopLossAndTakeProfit, try_catch, bind, placeOrderDirect.
  cbn -[String.append stopLossOrder takeProfitOrder].
  destruct (broker env (length (placed w)) (stopLossOrder strategy signal oid));
    cbn -[String.append stopLossOrder takeProfitOrder];
    match goal with
    | |- context [broker env ?n ?o] => destruct (broker env n o)
    end;
    cbn -[String.append stopLossOrder takeProfitOrder];
    now rewrite <- app_assoc.
Qed.

(** C3: the parent order is posted alone; an acknowledgement, and only
    that, arms a 5000 ms timer carrying the signal and the parent order
    id; when the timer fires, the stop-loss and take-profit orders are
    posted.  For a BUY entry at price P they sell at P*(1-stopLoss/100)
    (price and trigger) and P*(1+takeProfit/100); for a SELL entry the
    offsets are mirrored and both orders buy.  Their tags are
    [sl_] and [tp_] followed by the parent order id. *)
Theorem child_orders_follow_acknowledgement (env : Environment) (key : string)
    (strategy : Strategy) (signal : StrategySignal) (w : World) :
  let parent := entryOrder env strategy signal in
  let w1 := exec (executeRealTrade env key strategy signal) w in
  placed w1 = placed w ++ [parent] /\
  (forall order_id,
      broker env (length (placed w)) parent = Acknowledged order_id ->
      let t := {| delay := 5000; strategyKey := key; entrySignal := signal;
                  parentOrderId := order_id |} in
      timers w1 = timers w ++ [t] /\
      forall w2 current,
        Assoc.get (strategies w2) key = Some current ->
        placed (exec (fire env t) w2)
          = placed w2 ++ [stopLossOrder current signal order_id;
                          takeProfitOrder current signal order_id]) /\
  ((forall order_id,
       broker env (length (placed w)) parent <> Acknowledged order_id) ->
   timers w1 = timers w) /\
  (forall current order_id,
      let sl := stopLossOrder current signal (Some order_id) in
      let tp := takeProfitOrder current signal (Some order_id) in
      let P := price signal in
      tag sl = "sl_" +:+ order_id /\
      tag tp = "tp_" +:+ order_id /\
      trigger_price sl = Some (order_price sl) /\
      (action (Registry.signal signal) = BUY ->
       order_price sl = (P * (1 - stopLoss (parameters current) / 100))%float /\
       order_price tp = (P * (1 + takeProfit (parameters current) / 100))%float /\
       transaction_type sl = SELL /\ transaction_type tp = SELL) /\
      (action (Registry.signal signal) = SELL ->
       order_price sl = (P * (1 + stopLoss (parameters current) / 100))%float /\
       order_price tp = (P * (1 - takeProfit (parameters current) / 100))%float /\
       transaction_type sl = BUY /\ transaction_type tp = BUY)).
Proof.
  intros parent w1. subst parent w1. unfold exec.
  destruct (executeRealTrade_spec env key strategy signal w)
    as (result & w' & -> & Hplaced & _ & _ & _ & _ & _ & Hreply).
  cbn [fst snd].
  split; [exact Hplaced|].
  split; [|split].
  - intros order_id Hack. rewrite Hack in Hreply. destruct Hreply as [_ Ht].
    split; [exact Ht|].
    intros w2 current Hcur. unfold exec, fire, bind, gets.
    cbn [fst snd strategyKey entrySignal parentOrderId].
    rewrite Hcur.
    apply (scheduleStopLossAndTakeProfit_placed env current signal order_id w2).
  - intros Hnack.
    destruct (broker env (length (placed w)) (entryOrder env strategy signal))
      as [oid| |]; [now destruct (Hnack oid)| |]; now destruct Hreply.
  - intros current order_id. cbv zeta.
    unfold stopLossOrder, takeProfitOrder, stopLossPrice, takeProfitPrice.
    cbn [tag trigger_price order_price transaction_type show_optional].
    repeat split;
      match goal with
      | H : action _ = _ |- _ => rewrite H
      end; reflexivity.
Qed.

End CycleProps.

(** ** Orders of the live engine *)

Module LiveOrderProps.

Import LiveIndicators LiveEngine.
Local Open Scope float_scope.

Lemma executeTrade_placed (view : View) (env : Environment)
    (signal : TradingSignal) (st : State) :
  placed (executeTrade view env signal st) = placed st \/
  exists strategy,
    Assoc.get (strategies view) (signal_symbol signal) = Some strategy /\
    rejectedByGate signal = false /\
    placed (executeTrade view env signal st)
      = (placed st ++ [entryOrder env strategy signal])%list.
Proof.
  unfold executeTrade.
  destruct (rejectedByGate signal) eqn:Egate; [now left|].
  destruct (Assoc.get (strategies view) (signal_symbol signal))
    as [strategy|] eqn:Eget; [|now left].
  destruct (ge _ (maxPositions strategy)); [now left|].
  cbv zeta.
  destruct (lt _ 30000); [now left|].
  unfold placeOrder.
  destruct (broker env _ (entryOrder env strategy signal));
    right; exists strategy; repeat split.
Qed.

Lemma checkExitConditions_placed (view : View) (env : Environment)
    (position : LivePosition) (price : number) (st : State) :
  placed (checkExitConditions view env position price st) = placed st \/
  placed (checkExitConditions view env position price st)
    = (placed st ++ [exitOrder position price])%list.
Proof.
  unfold checkExitConditions.
  destruct (Assoc.get (strategies view) (pos_symbol position)); [|now left].
  cbv zeta.
  unfold exitPosition, placeOrder.
  destruct (le _ _).
  - right. cbv zeta. cbn [fst snd].
    match goal with |- context [broker env ?n ?o] => destruct (broker env n o) end;
      reflexivity.
  - destruct (ge _ _); [|now left].
    right. cbv zeta. cbn [fst snd].
    match goal with |- context [broker env ?n ?o] => destruct (broker env n o) end;
      reflexivity.
Qed.

(** An order of the live engine that closes a position. *)
Definition isExit (o : OrderData) : Prop :=
  exists position price, o = exitOrder position price.

Lemma exits_placed (view : View) (env : Environment) (price : number)
    (open : list LivePosition) (st : State) :
  exists orders,
    placed (fold_left (fun st position =>
                         checkExitConditions view env position price st)
                      open st)
      = (placed st ++ orders)%list /\
    Forall isExit orders.
Proof.
  revert st. induction open as [|position open IH]; intros st; simpl.
  - exists []. split; [now rewrite app_nil_r|constructor].
  - destruct (IH (checkExitConditions view env position price st))
      as (orders & -> & Hall).
    destruct (checkExitConditions_placed view env position price st) as [->| ->].
    + now exists orders.
    + exists (exitOrder position price :: orders).
      split; [now rewrite <- app_assoc|].
      constructor; [now exists position, price|exact Hall].
Qed.

End LiveOrderProps.

(** ** Shape of the indicator series *)

Module SeriesProps.

Import Indicators Evaluators Registry.
Local Open Scope float_scope.

Lemma ema_loop_length (multiplier ema : number) (rest : list number) :
  length (ema_loop multiplier ema rest) = length rest.
Proof.
  revert ema. induction rest as [|p rest IH]; intros ema; simpl; [reflexivity|].
  now rewrite IH.
Qed.

Lemma get_nth (a : list number) (i : Z) :
  (0 <= i)%Z -> get a i = nth (Z.to_nat i) a nan.
Proof.
  intros Hi. unfold get. destruct (Z.ltb_spec i 0); [lia|reflexivity].
Qed.

(** The step of the recurrence, at any position of the loop. *)
Lemma ema_loop_step (multiplier : number) (rest : list number) (ema : number)
    (i : nat) :
  (i < length rest)%nat ->
  nth i (ema_loop multiplier ema rest) nan
  = (nth i rest nan - nth i (ema :: ema_loop multiplier ema rest) nan)
    * multiplier
    + nth i (ema :: ema_loop multiplier ema rest) nan.
Proof.
  revert ema i. induction rest as [|p rest IH]; intros ema i Hi; simpl in Hi.
  - lia.
  - destruct i as [|i]; [reflexivity|].
    simpl. apply IH. lia.
Qed.

(** X1: the EMA series has one value per price (a single NaN for no
    price at all), starts at the first price, and every later value is
    [(price - previous) * 2 / (period + 1) + previous]. *)
Theorem ema_series_aligned (prices : list number) (period : Z) :
  length (calculateEMA prices period) = Nat.max 1 (length prices) /\
  get (calculateEMA prices period) 0 = get prices 0 /\
  forall i : Z,
    (0 < i < len prices)%Z ->
    get (calculateEMA prices period) i
    = (get prices i - get (calculateEMA prices period) (i - 1))
      * (2 / (of_Z period + 1))
      + get (calculateEMA prices period) (i - 1).
Proof.
  unfold calculateEMA. cbv zeta. split; [|split].
  - simpl. rewrite ema_loop_length. destruct prices; simpl; lia.
  - reflexivity.
  - intros i Hi. unfold len in Hi.
    destruct prices as [|p rest]; [simpl in Hi; lia|].
    change (get (p :: rest) 0) with p. cbn [tail].
    simpl length in Hi.
    rewrite !get_nth by lia.
    replace (Z.to_nat i) with (S (Z.to_nat (i - 1))) by lia.
    cbn [nth]. apply ema_loop_step. lia.
Qed.

Lemma slice_window {A} (a : list A) (k : nat) (n : Z) :
  (0 <= n)%Z -> (Z.of_nat k + n <= len a)%Z ->
  slice a (Z.of_nat k) (Z.of_nat k + n) = take (Z.to_nat n) (drop k a).
Proof.
  intros Hn Hk. unfold slice, rel_index, len in *.
  destruct (Z.ltb_spec (Z.of_nat k) 0) as [|_]; [lia|].
  destruct (Z.ltb_spec (Z.of_nat k + n) 0) as [|_]; [lia|].
  rewrite !Z.min_l by lia.
  replace (Z.to_nat (Z.of_nat k + n - Z.of_nat k)) with (Z.to_nat n) by lia.
  now rewrite Nat2Z.id.
Qed.

(** X2: for a period of at least 1, the SMA series has
    [length - period + 1] values (none when the period exceeds the
    length) and its [k]-th value is the sum of the [period] prices
    starting at index [k], divided by the period.  The Bollinger bands
    have one band per SMA value, and the middle of each band is that
    SMA value. *)
Theorem sma_and_bands_aligned (prices : list number) (period : Z)
    (stdDev : number) :
  (1 <= period)%Z ->
  length (calculateSMA prices period) = Z.to_nat (len prices - period + 1) /\
  (forall k : nat,
      (k < length (calculateSMA prices period))%nat ->
      calculateSMA prices period !! k
      = Some (JS.sum (take (Z.to_nat period) (drop k prices)) / of_Z period)) /\
  length (calculateBollingerBands prices period stdDev)
    = length (calculateSMA prices period) /\
  map middle (calculateBollingerBands prices period stdDev)
    = calculateSMA prices period.
Proof.
  intros Hp.
  assert (Hlen : length (calculateSMA prices period)
                 = Z.to_nat (len prices - period + 1)).
  { unfold calculateSMA. rewrite length_map, length_seqZ. f_equal. lia. }
  split; [exact Hlen|]. split; [|split].
  - intros k Hk. rewrite Hlen in Hk.
    unfold calculateSMA. rewrite list_lookup_fmap.
    rewrite lookup_seqZ_lt by lia. simpl. f_equal. f_equal. f_equal.
    replace (period - 1 + Z.of_nat k - period + 1)%Z with (Z.of_nat k) by lia.
    replace (period - 1 + Z.of_nat k + 1)%Z with (Z.of_nat k + period)%Z by lia.
    apply slice_window; lia.
  - unfold calculateBollingerBands. cbv zeta. apply length_imap.
  - unfold calculateBollingerBands. cbv zeta.
    change (map middle ?l) with (middle <$> l).
    rewrite fmap_imap. simpl.
    rewrite (imap_ext _ (fun _ mean => mean)) by reflexivity.
    generalize (calculateSMA prices period). intros l.
    change (imap (fun _ mean => mean) l) with (imap (const (@Datatypes.id number)) l).
    rewrite imap_const. apply list_fmap_id.
Qed.

Lemma sma_and_bands_aligned_witness :
  calculateSMA [1; 2; 3; 4; 5] 3 !! 1%nat = Some (JS.sum [2; 3; 4] / 3) /\
  map middle (calculateBollingerBands [1; 2; 3; 4; 5] 3 2)
    = calculateSMA [1; 2; 3; 4; 5] 3.
Proof.
  destruct (sma_and_bands_aligned [1; 2; 3; 4; 5] 3 2 ltac:(lia))
    as (_ & Hk & _ & Hmid).
  split; [apply (Hk 1%nat); vm_compute; lia|exact Hmid].
Defined.

End SeriesProps.


(** ** What the evaluators can return *)

Module EvaluationProps.

Import Indicators Evaluators Registry.
Local Open Scope float_scope.

Lemma bands_nonempty (prices : list number) (period : Z) (stdDev : number) :
  (len prices <? period)%Z = false ->
  exists band,
    at_index (calculateBollingerBands prices period stdDev)
             (len (calculateBollingerBands prices period stdDev) - 1)
    = Some band.
Proof.
  intros Hguard. apply Z.ltb_ge in Hguard.
  assert (Hpos : (0 < length (calculateBollingerBands prices period stdDev))%nat).
  { unfold calculateBollingerBands, calculateSMA. cbv zeta.
    rewrite length_imap, length_map, length_seqZ. unfold len in *. lia. }
  unfold at_index, len.
  destruct (Z.ltb_spec
              (Z.of_nat (length (calculateBollingerBands prices period stdDev)) - 1)
              0) as [|_]; [lia|].
  apply lookup_lt_is_Some_2. lia.
Qed.

(** X3: no evaluation throws.  Once the length guard of
    [evaluateBollingerBands] has passed there is at least one band, so
    [currentBand] is never undefined; hence [evaluateStrategy] always
    returns, with a signal or with null. *)
Theorem evaluation_never_throws :
  (forall prices parameters,
      exists s, evaluateBollingerBands prices parameters = Normal s) /\
  (forall (priceHistory : PriceHistory) now strategy,
      exists r, evaluateStrategy priceHistory now strategy = Normal r).
Proof.
  assert (Hbb : forall prices parameters,
             exists s, evaluateBollingerBands prices parameters = Normal s).
  { intros prices parameters. unfold evaluateBollingerBands.
    destruct (len prices <? period parameters)%Z eqn:Hguard; [eauto|].
    destruct (bands_nonempty prices (period parameters) (stdDev parameters) Hguard)
      as (band & ->).
    cbv zeta.
    repeat match goal with
           | |- context [if ?b then _ else _] => destruct b
           end; eauto. }
  split; [exact Hbb|].
  intros priceHistory now strategy. unfold evaluateStrategy.
  destruct (priceHistory !! symbol strategy) as [history|]; [|eauto].
  destruct (len history <? 20)%Z; [eauto|].
  destruct (type strategy);
    try destruct (Hbb history (parameters strategy)) as (s & ->);
    cbv zeta;
    repeat match goal with
           | |- context [decide ?P] => destruct (decide P)
           end; eauto.
Qed.

(** The confidence of whatever [evaluateEMACrossover] returns. *)
Lemma ema_confidence (prices : list number) (parameters : Parameters) :
  action (evaluateEMACrossover prices parameters) <> HOLD ->
  confidence (evaluateEMACrossover prices parameters) = 85.
Proof.
  unfold evaluateEMACrossover.
  repeat match goal with
         | |- context [if ?b then _ else _] => destruct b
         end; simpl; congruence.
Qed.

Lemma bollinger_confidence (prices : list number) (parameters : Parameters)
    (s : Signal) :
  evaluateBollingerBands prices parameters = Normal s ->
  action s <> HOLD ->
  confidence s = 80 \/ confidence s = 75.
Proof.
  unfold evaluateBollingerBands.
  destruct (len prices <? period parameters)%Z; [intros [= <-]; simpl; congruence|].
  destruct (at_index _ _); [|discriminate].
  cbv zeta.
  repeat match goal with
         | |- context [if ?b then _ else _] => destruct b
         end; intros [= <-]; simpl; auto; congruence.
Qed.

(** X4: a signal of an EMA-crossover strategy has confidence 85 and one
    of a Bollinger strategy 80 or 75, so every signal [evaluateStrategy]
    returns for these two types passes the test [confidence >= 70] of
    the trading cycle. *)
Theorem crossover_and_band_signals_are_actionable
    (priceHistory : PriceHistory) (now : number) (strategy : Strategy)
    (signal : StrategySignal) :
  type strategy = ema_crossover \/ type strategy = bollinger_bands ->
  evaluateStrategy priceHistory now strategy = Normal (Some signal) ->
  (confidence (Registry.signal signal) = 85
   \/ confidence (Registry.signal signal) = 80
   \/ confidence (Registry.signal signal) = 75) /\
  Server.actionable (Some signal) = Some signal.
Proof.
  intros Htype Hev.
  assert (Hconf : confidence (Registry.signal signal) = 85
                  \/ confidence (Registry.signal signal) = 80
                  \/ confidence (Registry.signal signal) = 75).
  { unfold evaluateStrategy in Hev.
    destruct (priceHistory !! symbol strategy) as [history|]; [|discriminate].
    destruct (len history <? 20)%Z; [discriminate|].
    destruct Htype as [Ht|Ht]; rewrite Ht in Hev.
    - destruct (decide (action (evaluateEMACrossover history (parameters strategy))
                        = HOLD)) as [|Hact]; [discriminate|].
      injection Hev as <-. simpl. left. now apply ema_confidence.
    - destruct (evaluateBollingerBands history (parameters strategy))
        as [s|] eqn:Ebb; [|discriminate].
      destruct (decide (action s = HOLD)) as [|Hact]; [discriminate|].
      injection Hev as <-. simpl. right.
      exact (bollinger_confidence _ _ _ Ebb Hact). }
  split; [exact Hconf|].
  unfold Server.actionable.
  destruct Hconf as [-> | [-> | ->]]; reflexivity.
Qed.

Lemma crossover_and_band_signals_are_actionable_witness :
  Server.actionable
    (Some {| signal := {| action := BUY; confidence := 85 |};
             timestamp := 0; price := 12 |})
  = Some {| signal := {| action := BUY; confidence := 85 |};
            timestamp := 0; price := 12 |}.
Proof.
  refine (proj2 (crossover_and_band_signals_are_actionable
                   {[ "NIFTY.NS" := replicate 20 10 ++ [12] ]}%list 0
                   (mkStrategy "ema_crossover_1" "EMA Crossover NIFTY"
                      ema_crossover "NIFTY.NS" true
                      (ema_parameters 9 21 25 2 4 true) noPerformance None)
                   _ _ _)).
  - left. reflexivity.
  - vm_compute. reflexivity.
Defined.

End EvaluationProps.


(** ** Routes and scheduled jobs *)

Module RouteProps.

Import Registry Server.

(** X6: for a time of day, the market-hours test of the 30-second job
    holds exactly from 09:15 to 15:30, both included; outside of it the
    job leaves the state untouched. *)
Theorem market_hours_window (hour minute : Z) :
  0 <= hour < 24 -> 0 <= minute < 60 ->
  (inMarketHours hour minute = true
   <-> 9 * 60 + 15 <= 60 * hour + minute <= 15 * 60 + 30) /\
  (forall env w,
      inMarketHours hour minute = false ->
      everyThirtySeconds env hour minute w = (Normal tt, w)).
Proof.
  intros Hh Hm. split.
  - unfold inMarketHours.
    rewrite !orb_true_iff, !andb_true_iff, !Z.eqb_eq, !Z.leb_le, Z.ltb_lt.
    lia.
  - intros env w Hout. unfold everyThirtySeconds, bind, gets, ret.
    cbn [fst snd]. rewrite Hout.
    now destruct (autoTradingEnabled (systemStatus w)).
Qed.

Lemma market_hours_window_witness :
  inMarketHours 9 15 = true /\ inMarketHours 15 31 = false.
Proof.
  split.
  - apply (proj1 (market_hours_window 9 15 ltac:(lia) ltac:(lia))). lia.
  - destruct (inMarketHours 15 31) eqn:E; [|reflexivity].
    apply (proj1 (market_hours_window 15 31 ltac:(lia) ltac:(lia))) in E. lia.
Defined.

(** X7: the update route never adds, removes or reorders registry
    entries, and for an id the registry does not hold it answers
    "Strategy not found" and changes nothing at all. *)
Theorem update_keeps_the_registry_keys (env : Environment)
    (strategyId : string) (updates : StrategyUpdate) (w : World) :
  Assoc.keys (strategies (exec (putStrategy env strategyId updates) w))
    = Assoc.keys (strategies w) /\
  (Assoc.get (strategies w) strategyId = None ->
   putStrategy env strategyId updates w
     = (Normal (NotFound "Strategy not found"), w)).
Proof.
  unfold exec, putStrategy, bind, gets, modify, logs_push, ret.
  cbn [fst snd].
  destruct (Assoc.get (strategies w) strategyId) as [strategy|] eqn:Hget.
  - split; [|discriminate]. cbn.
    now apply RegistryProps.keys_set with strategy.
  - split; reflexivity.
Qed.

(** X8: switching auto-trading off marks the system stopped, and from
    then on a cycle and both scheduled jobs leave the state untouched. *)
Theorem switched_off_cycles_do_nothing (env env' : Environment) (w : World) :
  let off := exec (postAutoTrading env false) w in
  status (systemStatus off) = "stopped" /\
  autoTradingEnabled (systemStatus off) = false /\
  executeAutoTrading env' off = (Normal tt, off) /\
  everyMinute env' off = (Normal tt, off) /\
  (forall hour minute, everyThirtySeconds env' hour minute off = (Normal tt, off)).
Proof.
  intros off. subst off.
  unfold exec, postAutoTrading, executeAutoTrading, everyMinute,
    everyThirtySeconds, bind, gets, modify, logs_push, console_log, ret.
  cbn. repeat split.
Qed.

(** Enabled entries among those of the registry. *)
Definition activeCount (m : list (string * Strategy)) : Z :=
  len (filter (fun s => enabled s = true) (Assoc.values m)).

Lemma activeCount_cons (k : string) (s : Strategy) (m : list (string * Strategy)) :
  activeCount ((k, s) :: m) = (if enabled s then 1 else 0) + activeCount m.
Proof.
  unfold activeCount, Assoc.values, len. simpl map.
  rewrite filter_cons.
  destruct (decide (enabled s = true)) as [->|Hne].
  - simpl length. lia.
  - destruct (enabled s); [congruence|]. lia.
Qed.

Lemma activeCount_set (m : list (string * Strategy)) (key : string)
    (old new : Strategy) :
  Assoc.get m key = Some old ->
  activeCount (Assoc.set m key new)
  = activeCount m - (if enabled old then 1 else 0)
    + (if enabled new then 1 else 0).
Proof.
  induction m as [|[k s] m IH]; simpl; [discriminate|].
  destruct (decide (k = key)) as [->|Hne].
  - intros [= ->]. rewrite !activeCount_cons. lia.
  - intros H. rewrite !activeCount_cons, IH by exact H. lia.
Qed.

Lemma length_set {A} (m : list (string * A)) (key : string) (old new : A) :
  Assoc.get m key = Some old -> length (Assoc.set m key new) = length m.
Proof.
  induction m as [|[k v] m IH]; simpl; [discriminate|].
  destruct (decide (k = key)); simpl; [reflexivity|].
  intros H. now rewrite IH.
Qed.

(** X9: the status report counts the enabled entries, never more than
    the registry holds; an update that enables a disabled strategy
    raises the count by one, one that disables an enabled strategy
    lowers it by one, and the total never changes. *)
Theorem status_counts_follow_updates (env : Environment) (w : World)
    (strategyId : string) (updates : StrategyUpdate) (strategy : Strategy) :
  Assoc.get (strategies w) strategyId = Some strategy ->
  let before := outcome getSystemStatus w in
  let after :=
    outcome getSystemStatus (exec (putStrategy env strategyId updates) w) in
  exists b a,
    before = Normal b /\ after = Normal a /\
    0 <= report_activeStrategies b <= report_totalStrategies b /\
    report_totalStrategies a = report_totalStrategies b /\
    report_activeStrategies a
    = report_activeStrategies b
      - (if enabled strategy then 1 else 0)
      + (if default (enabled strategy) (new_enabled updates) then 1 else 0).
Proof.
  intros Hget before after. subst before after.
  assert (Hput : strategies (exec (putStrategy env strategyId updates) w)
                 = Assoc.set (strategies w) strategyId (assign strategy updates)).
  { unfold exec, putStrategy, bind, gets, logs_push, modify, ret.
    cbn [fst snd]. now rewrite Hget. }
  unfold outcome, getSystemStatus, gets. cbn [fst snd].
  eexists. eexists. split; [reflexivity|]. split; [reflexivity|].
  cbn [report_activeStrategies report_totalStrategies].
  rewrite Hput.
  fold (activeCount (strategies w)).
  fold (activeCount (Assoc.set (strategies w) strategyId (assign strategy updates))).
  split; [|split].
  - unfold activeCount, Assoc.values, len.
    pose proof (length_filter (fun s => enabled s = true)
                  (map snd (strategies w))) as Hle.
    rewrite length_map in Hle. lia.
  - unfold len. now rewrite (length_set _ _ _ _ Hget).
  - rewrite (activeCount_set _ _ _ _ Hget). reflexivity.
Qed.

Lemma status_counts_follow_updates_witness :
  exists a,
    outcome getSystemStatus
      (exec (putStrategy Scenario.quiet "ema_crossover_1" Scenario.enable)
            initialWorld) = Normal a /\
    report_activeStrategies a = 1 /\ report_totalStrategies a = 4.
Proof.
  destruct (status_counts_follow_updates Scenario.quiet initialWorld
              "ema_crossover_1" Scenario.enable _ eq_refl)
    as (b & a & Hb & Ha & _ & Htotal & Hactive).
  exists a. split; [exact Ha|].
  vm_compute in Hb. injection Hb as <-.
  split; [rewrite Hactive|rewrite Htotal]; reflexivity.
Defined.

End RouteProps.


(** ** The market-data route and its cache *)

Module CacheProps.

Import Registry Server.
Local Open Scope float_scope.

Lemma get_set_same {A} (m : list (string * A)) (key : string) (value : A) :
  Assoc.get (Assoc.set m key value) key = Some value.
Proof.
  induction m as [|[k v] m IH]; simpl.
  - now rewrite decide_True.
  - destruct (decide (k = key)) as [->|Hne]; simpl.
    + now rewrite decide_True.
    + now rewrite decide_False.
Qed.

(** The answer holds only what the cache holds. *)
Definition served_from (response : list (string * MarketData))
    (cache : gmap string MarketData) : Prop :=
  forall symbol d,
    Assoc.get response symbol = Some d -> cache !! symbol = Some d.

Lemma served_from_set (response : list (string * MarketData))
    (cache : gmap string MarketData) (symbol : string) (d : MarketData) :
  served_from response cache ->
  served_from (Assoc.set response symbol d) (<[symbol := d]> cache).
Proof.
  intros Hinv s x. destruct (decide (s = symbol)) as [->|Hne].
  - rewrite get_set_same, lookup_insert_eq. now intros [= <-].
  - rewrite RegistryProps.get_set_ne, lookup_insert_ne by congruence.
    apply Hinv.
Qed.

Lemma served_from_cached (response : list (string * MarketData))
    (cache : gmap string MarketData) (symbol : string) (d : MarketData) :
  served_from response cache ->
  cache !! symbol = Some d ->
  served_from (Assoc.set response symbol d) cache.
Proof.
  intros Hinv Hd.
  rewrite <- (insert_id cache symbol d Hd) at 1.
  now apply served_from_set.
Qed.

(** The loop from any accumulated answer that agrees with the cache. *)
Lemma marketDataLoop_spec (env : Environment) (symbols : list string) :
  forall (acc : list (string * MarketData)) (w : World),
    served_from acc (marketDataCache w) ->
    exists response w',
      marketDataLoop env symbols acc w = (Normal response, w') /\
      served_from response (marketDataCache w') /\
      (length (requested w') <= length (requested w) + length symbols)%nat /\
      strategies w' = strategies w /\
      systemStatus w' = systemStatus w /\
      placed w' = placed w.
Proof.
  induction symbols as [|symbol rest IH]; intros acc w Hinv.
  - exists acc, w. simpl. repeat split; auto. lia.
  - assert (Hfetch :
      exists response w',
        bind (fetchMarketData env symbol)
             (fun fresh =>
                match fresh with
                | Some f =>
                    bind (modify (with_marketDataCache
                                    (fun c => <[symbol := f]> c)))
                         (fun _ => marketDataLoop env rest
                                     (Assoc.set acc symbol f))
                | None => marketDataLoop env rest acc
                end) w = (Normal response, w') /\
        served_from response (marketDataCache w') /\
        (length (requested w') <= length (requested w) + S (length rest))%nat /\
        strategies w' = strategies w /\
        systemStatus w' = systemStatus w /\
        placed w' = placed w).
    { unfold bind, fetchMarketData, modify. cbn [fst snd].
      destruct (quote env (length (requested w)) symbol) as [q|]; cbn [fst snd].
      - match goal with
        | |- context [marketDataLoop env rest ?acc1 ?w1] =>
            destruct (IH acc1 w1) as (response & w' & -> & Hserved & Hreq & Hrest)
        end.
        { cbn. now apply served_from_set. }
        exists response, w'. cbn in Hreq, Hrest.
        rewrite length_app in Hreq. simpl in Hreq.
        repeat split; try tauto. lia.
      - match goal with
        | |- context [marketDataLoop env rest ?acc1 ?w1] =>
            destruct (IH acc1 w1) as (response & w' & -> & Hserved & Hreq & Hrest)
        end.
        { exact Hinv. }
        exists response, w'. cbn in Hreq, Hrest.
        rewrite length_app in Hreq. simpl in Hreq.
        repeat split; try tauto. lia. }
    simpl. unfold bind at 1. unfold gets. cbn [fst snd].
    destruct (marketDataCache w !! symbol) as [c|] eqn:Ecache; [|exact Hfetch].
    destruct (lt (now env - md_timestamp c) 60000); [|exact Hfetch].
    destruct (IH (Assoc.set acc symbol c) w
                 (served_from_cached _ _ _ _ Hinv Ecache))
      as (response & w' & -> & Hserved & Hreq & Hrest).
    exists response, w'. repeat split; try tauto. lia.
Qed.

(** A cache entry younger than 60000 ms. *)
Definition isFresh (env : Environment) (w : World) (symbol : string) : Prop :=
  exists c, marketDataCache w !! symbol = Some c /\
            lt (now env - md_timestamp c) 60000 = true.

Lemma marketDataLoop_fresh (env : Environment) (w : World)
    (symbols : list string) :
  (forall symbol, symbol ∈ symbols -> isFresh env w symbol) ->
  forall acc,
    exists response,
      marketDataLoop env symbols acc w = (Normal response, w) /\
      (forall symbol, symbol ∈ symbols ->
         Assoc.get response symbol = marketDataCache w !! symbol) /\
      (forall symbol, symbol ∉ symbols ->
         Assoc.get response symbol = Assoc.get acc symbol).
Proof.
  induction symbols as [|symbol rest IH]; intros Hfresh acc.
  - exists acc. simpl. repeat split; auto. intros s Hs. now apply elem_of_nil in Hs.
  - destruct (Hfresh symbol ltac:(apply elem_of_cons; now left)) as (c & Ec & Hc).
    simpl. unfold bind at 1. unfold gets. cbn [fst snd]. rewrite Ec, Hc.
    destruct (IH (fun s Hs => Hfresh s ltac:(apply elem_of_cons; now right))
                 (Assoc.set acc symbol c)) as (response & -> & Hin & Hout).
    exists response. split; [reflexivity|]. split.
    + intros s Hs. apply elem_of_cons in Hs as [->|Hs]; [|now apply Hin].
      destruct (decide (symbol ∈ rest)) as [Hr|Hr]; [now apply Hin|].
      now rewrite (Hout _ Hr), get_set_same.
    + intros s Hs. apply not_elem_of_cons in Hs as [Hne Hs].
      rewrite (Hout _ Hs). now apply RegistryProps.get_set_ne.
Qed.

(** X10: the market-data route always answers.  Whatever its answer
    holds for a symbol is what the cache holds for it afterwards; it
    asks at most one quote per listed symbol and touches neither the
    registry, nor the status, nor the orders.  When every listed symbol
    has a cache entry younger than 60000 ms it asks no quote, changes
    nothing, and answers each symbol with its cache entry. *)
Theorem market_data_served_from_cache (env : Environment)
    (symbols : list string) (w : World) :
  (exists response w',
      postMarketData env symbols w = (Normal response, w') /\
      served_from response (marketDataCache w') /\
      (length (requested w') <= length (requested w) + length symbols)%nat /\
      strategies w' = strategies w /\
      systemStatus w' = systemStatus w /\
      placed w' = placed w) /\
  ((forall symbol, symbol ∈ symbols -> isFresh env w symbol) ->
   exists response,
     postMarketData env symbols w = (Normal response, w) /\
     forall symbol, symbol ∈ symbols ->
       Assoc.get response symbol = marketDataCache w !! symbol).
Proof.
  split.
  - apply marketDataLoop_spec. intros s d. discriminate.
  - intros Hfresh.
    destruct (marketDataLoop_fresh env w symbols Hfresh []) as (r & Hr & Hin & _).
    now exists r.
Qed.

(** One turn of the loop, spelled out. *)
Definition stamped (env : Environment) (q : MarketData) : MarketData :=
  {| md_price := md_price q; md_open := md_open q; md_high := md_high q;
     md_low := md_low q; md_volume := md_volume q; md_change := md_change q;
     md_changePercent := md_changePercent q; md_timestamp := now env |}.

Lemma marketDataLoop_cons (env : Environment) (symbol : string)
    (rest : list string) (acc : list (string * MarketData)) (w : World) :
  marketDataLoop env (symbol :: rest) acc w
  = let fetched :=
      match quote env (length (requested w)) symbol with
      | Some q =>
          marketDataLoop env rest (Assoc.set acc symbol (stamped env q))
            (with_marketDataCache (fun c => <[symbol := stamped env q]> c)
               (with_requested (fun l => l ++ [symbol]) w))
      | None =>
          marketDataLoop env rest acc
            (with_console
               (fun c => c ++ ["Failed to fetch data for " +:+ symbol +:+ ":"])
               (with_requested (fun l => l ++ [symbol]) w))
      end in
    match marketDataCache w !! symbol with
    | Some c =>
        if lt (now env - md_timestamp c) 60000
        then marketDataLoop env rest (Assoc.set acc symbol c) w
        else fetched
    | None => fetched
    end.
Proof.
  simpl. unfold bind, gets, fetchMarketData, modify, stamped. cbn [fst snd].
  destruct (marketDataCache w !! symbol) as [c|];
    [destruct (lt (now env - md_timestamp c) 60000); [reflexivity|]|];
    destruct (quote env (length (requested w)) symbol); reflexivity.
Qed.

(** Every cache entry the loop writes carries the current time, so
    entries that are fresh stay fresh and the listed symbols become so. *)
Lemma marketDataLoop_refreshes (env : Environment) :
  (forall n symbol, quote env n symbol <> None) ->
  lt (now env - now env) 60000 = true ->
  forall symbols acc w,
    (forall s, isFresh env w s ->
               isFresh env (exec (marketDataLoop env symbols acc) w) s) /\
    (forall s, s ∈ symbols ->
               isFresh env (exec (marketDataLoop env symbols acc) w) s).
Proof.
  intros Hquote Hnow.
  induction symbols as [|symbol rest IH]; intros acc w.
  - split; [auto|]. intros s Hs. now apply elem_of_nil in Hs.
  - assert (Hstep : forall w1 acc1,
               (forall s, isFresh env w s -> isFresh env w1 s) ->
               isFresh env w1 symbol ->
               (forall s, isFresh env w s ->
                  isFresh env (exec (marketDataLoop env rest acc1) w1) s) /\
               (forall s, s ∈ symbol :: rest ->
                  isFresh env (exec (marketDataLoop env rest acc1) w1) s)).
    { intros w1 acc1 Hkeep Hsym.
      destruct (IH acc1 w1) as [Hk Hin]. split.
      - intros s Hs. apply Hk, Hkeep, Hs.
      - intros s Hs. apply elem_of_cons in Hs as [->|Hs]; [now apply Hk|now apply Hin]. }
    unfold exec in *. rewrite marketDataLoop_cons. cbv zeta.
    assert (Hfetched :
      (forall s, isFresh env w s ->
         isFresh env
           (match quote env (length (requested w)) symbol with
            | Some q =>
                marketDataLoop env rest (Assoc.set acc symbol (stamped env q))
                  (with_marketDataCache (fun c => <[symbol := stamped env q]> c)
                     (with_requested (fun l => l ++ [symbol]) w))
            | None =>
                marketDataLoop env rest acc
                  (with_console
                     (fun c => c ++ ["Failed to fetch data for " +:+ symbol +:+ ":"])
                     (with_requested (fun l => l ++ [symbol]) w))
            end).2 s) /\
      (forall s, s ∈ symbol :: rest ->
         isFresh env
           (match quote env (length (requested w)) symbol with
            | Some q =>
                marketDataLoop env rest (Assoc.set acc symbol (stamped env q))
                  (with_marketDataCache (fun c => <[symbol := stamped env q]> c)
                     (with_requested (fun l => l ++ [symbol]) w))
            | None =>
                marketDataLoop env rest acc
                  (with_console
                     (fun c => c ++ ["Failed to fetch data for " +:+ symbol +:+ ":"])
                     (with_requested (fun l => l ++ [symbol]) w))
            end).2 s)).
    { destruct (quote env (length (requested w)) symbol) as [q|] eqn:Eq;
        [|now destruct (Hquote _ _ Eq)].
      apply Hstep.
      - intros s (c & Ec & Hc). unfold isFresh. cbn.
        destruct (decide (s = symbol)) as [->|Hne].
        + eexists. rewrite lookup_insert_eq. split; [reflexivity|exact Hnow].
        + exists c. now rewrite lookup_insert_ne by congruence.
      - unfold isFresh. cbn.
        eexists. rewrite lookup_insert_eq. split; [reflexivity|exact Hnow]. }
    destruct (marketDataCache w !! symbol) as [c|] eqn:Ecache; [|exact Hfetched].
    destruct (lt (now env - md_timestamp c) 60000) eqn:Efresh; [|exact Hfetched].
    apply Hstep; [auto|]. now exists c.
Qed.

(** X11: with a quote service that answers and a finite clock, asking
    the route twice in a row costs nothing the second time: every
    listed symbol is then fresh in the cache, so the second call asks
    no quote, changes nothing, and answers from the cache. *)
Theorem market_data_second_call_is_free (env : Environment)
    (symbols : list string) (w : World) :
  (forall n symbol, quote env n symbol <> None) ->
  lt (now env - now env) 60000 = true ->
  let w1 := exec (postMarketData env symbols) w in
  exists response,
    postMarketData env symbols w1 = (Normal response, w1) /\
    forall symbol, symbol ∈ symbols ->
      Assoc.get response symbol = marketDataCache w1 !! symbol.
Proof.
  intros Hquote Hnow w1.
  assert (Hfresh : forall symbol, symbol ∈ symbols -> isFresh env w1 symbol).
  { intros symbol Hin. subst w1. unfold postMarketData.
    now apply (marketDataLoop_refreshes env Hquote Hnow symbols [] w). }
  destruct (marketDataLoop_fresh env w1 symbols Hfresh []) as (r & Hr & Hin & _).
  now exists r.
Qed.

Lemma market_data_second_call_is_free_witness :
  exists response,
    postMarketData Scenario.quiet ["NIFTY.NS"; "TCS.NS"]
      (exec (postMarketData Scenario.quiet ["NIFTY.NS"; "TCS.NS"]) initialWorld)
    = (Normal response,
       exec (postMarketData Scenario.quiet ["NIFTY.NS"; "TCS.NS"]) initialWorld) /\
    length (requested
              (exec (postMarketData Scenario.quiet ["NIFTY.NS"; "TCS.NS"])
                    initialWorld)) = 2%nat.
Proof.
  destruct (market_data_second_call_is_free Scenario.quiet
              ["NIFTY.NS"; "TCS.NS"] initialWorld)
    as (response & Hsecond & _).
  - intros n symbol. discriminate.
  - vm_compute. reflexivity.
  - exists response. split; [exact Hsecond|]. vm_compute. reflexivity.
Defined.

End CacheProps.


(** ** Trade accounting in the cycle *)

Module AccountingProps.

Import Registry Server.

(** What [mutate_strategy] does to the registry. *)
Definition mutated (m : list (string * Strategy)) (key : string)
    (f : Strategy -> Strategy) : list (string * Strategy) :=
  match Assoc.get m key with
  | Some s => Assoc.set m key (f s)
  | None => m
  end.

Lemma get_mutated (m : list (string * Strategy)) (key : string)
    (f : Strategy -> Strategy) (s : Strategy) :
  Assoc.get m key = Some s -> Assoc.get (mutated m key f) key = Some (f s).
Proof.
  intros H. unfold mutated. rewrite H. now apply RegistryProps.get_set_eq with s.
Qed.

Lemma get_mutated_other (m : list (string * Strategy)) (key other : string)
    (f : Strategy -> Strategy) :
  other <> key -> Assoc.get (mutated m key f) other = Assoc.get m other.
Proof.
  intros H. unfold mutated. destruct (Assoc.get m key); [|reflexivity].
  now apply RegistryProps.get_set_ne.
Qed.

(** X12: a turn counts a trade exactly when the broker acknowledged its
    entry order.  The strategy's [totalTrades] grows by the number of
    timers the turn armed, which is 0 or 1, and is 1 exactly when an
    entry order was posted and acknowledged; no other registry entry
    changes. *)
Theorem acknowledged_trades_are_counted (env : Environment) (key : string)
    (strategy s0 : Strategy) (w : World) :
  Assoc.get (strategies w) key = Some s0 ->
  let w' := exec (guardedStrategy env (key, strategy)) w in
  exists s1 armed,
    Assoc.get (strategies w') key = Some s1 /\
    timers w' = timers w ++ armed /\
    (length armed <= 1)%nat /\
    totalTrades (performance s1)
      = totalTrades (performance s0) + Z.of_nat (length armed) /\
    (armed <> [] <->
     exists signal order_id,
       placed w' = placed w ++ [entryOrder env strategy signal] /\
       broker env (length (placed w)) (entryOrder env strategy signal)
         = Acknowledged order_id) /\
    (forall other, other <> key ->
       Assoc.get (strategies w') other = Assoc.get (strategies w) other).
Proof.
  intros Hget w'. subst w'.
  assert (Hquiet : forall w1,
            strategies w1 = strategies w -> timers w1 = timers w ->
            placed w1 = placed w ->
            exists s1 armed,
              Assoc.get (strategies w1) key = Some s1 /\
              timers w1 = timers w ++ armed /\
              (length armed <= 1)%nat /\
              totalTrades (performance s1)
                = totalTrades (performance s0) + Z.of_nat (length armed) /\
              (armed <> [] <->
               exists signal order_id,
                 placed w1 = placed w ++ [entryOrder env strategy signal] /\
                 broker env (length (placed w)) (entryOrder env strategy signal)
                   = Acknowledged order_id) /\
              (forall other, other <> key ->
                 Assoc.get (strategies w1) other = Assoc.get (strategies w) other)).
  { intros w1 Hs Ht Hp. exists s0, []. rewrite Hs, Ht, Hp, app_nil_r.
    repeat split; simpl; auto; try lia; try congruence.
    intros (signal & oid & Habs & _).
    apply (f_equal length) in Habs. rewrite length_app in Habs. simpl in Habs. lia. }
  unfold exec, guardedStrategy, processStrategy, try_catch, bind,
    fetchMarketData.
  cbn [fst snd].
  destruct (quote env (length (requested w)) (symbol strategy)) as [md|];
    [|cbn; now apply Hquiet].
  cbn -[addToHistory evaluateStrategy String.append executeRealTrade].
  unfold evaluate.
  cbn -[addToHistory evaluateStrategy String.append executeRealTrade].
  destruct (evaluateStrategy _ (now env) strategy) as [[signal|]|e];
    [| cbn -[String.append]; now apply Hquiet
     | cbn -[String.append]; now apply Hquiet].
  unfold actionable.
  destruct (ge (confidence (Registry.signal signal)) 70);
    [|cbn -[String.append]; now apply Hquiet].
  cbn -[String.append executeRealTrade].
  match goal with
  | |- context [executeRealTrade env key strategy signal ?w1] =>
      destruct (CycleProps.executeRealTrade_spec env key strategy signal w1)
        as (result & w2 & -> & Hplaced & _ & _ & _ & Hstrat & _ & Hreply)
  end.
  cbn in Hplaced, Hstrat, Hreply.
  fold (mutated (strategies w) key (set_lastSignal signal)) in Hstrat.
  assert (Hlast : forall signal' : StrategySignal,
             placed w ++ [entryOrder env strategy signal]
             = placed w ++ [entryOrder env strategy signal'] ->
             entryOrder env strategy signal' = entryOrder env strategy signal).
  { intros signal' Heq. apply app_inv_head in Heq. congruence. }
  pose proof (get_mutated _ _ (set_lastSignal signal) _ Hget) as Hget1.
  destruct (broker env (length (placed w)) (entryOrder env strategy signal))
    as [oid|err|err] eqn:Ereply; destruct Hreply as [-> Htimers];
    cbn -[String.append mutated]; unfold io_emit;
    cbn -[String.append mutated];
    repeat match goal with
           | |- context [emitThrows env ?n] =>
               destruct (emitThrows env n); cbn -[String.append mutated]
           end;
    fold (mutated (strategies w2) key count_trade);
    rewrite ?Hstrat, ?Htimers, ?Hplaced.
  1-4: exists (count_trade (set_lastSignal signal s0)),
         [ {| delay := 5000; strategyKey := key; entrySignal := signal;
              parentOrderId := oid |} ];
       (split; [now apply get_mutated|]);
       (split; [reflexivity|]); (split; [simpl; lia|]);
       (split; [simpl; lia|]);
       (split; [split; [intros _; now exists signal, oid|discriminate]|]);
       intros other Hne; now rewrite !get_mutated_other.
  all: exists (set_lastSignal signal s0), [];
       (split; [exact Hget1|]);
       (split; [now rewrite app_nil_r|]); (split; [simpl; lia|]);
       (split; [simpl; lia|]);
       (split; [split; [congruence|];
                intros (signal' & oid' & Heq & Hack);
                rewrite (Hlast _ Heq) in Hack; congruence|]);
       intros other Hne; now rewrite get_mutated_other.
Qed.

Lemma acknowledged_trades_are_counted_witness :
  exists s1,
    Assoc.get (strategies
                 (exec (guardedStrategy Scenario.quiet
                          ("rsi_oversold_1",
                           mkStrategy "rsi_oversold_1" "RSI Oversold BANKNIFTY"
                             rsi_oversold "BANKNIFTY.NS" true
                             (rsi_parameters 14 30 70 15 1.5 3)
                             noPerformance None))
                       Scenario.ready))
              "rsi_oversold_1" = Some s1 /\
    totalTrades (performance s1) = 1.
Proof.
  destruct (acknowledged_trades_are_counted Scenario.quiet "rsi_oversold_1"
              (mkStrategy "rsi_oversold_1" "RSI Oversold BANKNIFTY"
                 rsi_oversold "BANKNIFTY.NS" true
                 (rsi_parameters 14 30 70 15 1.5 3) noPerformance None)
              _ Scenario.ready eq_refl)
    as (s1 & armed & Hs1 & Harmed & _ & Htotal & _).
  exists s1. split; [exact Hs1|].
  rewrite Htotal.
  vm_compute in Harmed.
  destruct armed as [|t [|t' armed]]; try discriminate. reflexivity.
Defined.

End AccountingProps.

(** ** Signals of the live engine on computed indicators *)

Module LiveSignalProps.

Import LiveIndicators LiveEngine.
Local Open Scope float_scope.

Lemma SFcompare_refl (x : spec_float) :
  SFcompare x x = Some Eq \/ (x = S754_nan /\ SFcompare x x = None).
Proof.
  destruct x as [s|s| |s m e]; simpl.
  - left. now destruct s.
  - left. now destruct s.
  - now right.
  - left. rewrite Z.compare_refl, Pos.compare_cont_refl. now destruct s.
Qed.

Lemma SFcompare_nan_r (x : spec_float) : SFcompare x S754_nan = None.
Proof. now destruct x. Qed.

Lemma lt_irrefl (x : number) : lt x x = false.
Proof.
  unfold lt. rewrite FloatAxioms.ltb_spec. unfold SFltb.
  now destruct (SFcompare_refl (Prim2SF x)) as [-> | [_ ->]].
Qed.

Lemma gt_irrefl (x : number) : gt x x = false.
Proof. apply lt_irrefl. Qed.

Lemma nan_compares_false (x y : number) :
  PrimFloat.is_nan x = true -> lt x y = false /\ lt y x = false.
Proof.
  unfold PrimFloat.is_nan, lt. rewrite !FloatAxioms.ltb_spec, FloatAxioms.eqb_spec.
  unfold SFeqb, SFltb. intros H.
  destruct (SFcompare_refl (Prim2SF x)) as [E | [E _]].
  - rewrite E in H. discriminate.
  - rewrite E. simpl. now rewrite SFcompare_nan_r.
Qed.

Lemma zero_compares_false (x : number) :
  PrimFloat.is_zero x = true -> lt x 0 = false /\ lt 0 x = false.
Proof.
  unfold PrimFloat.is_zero, zero, lt.
  rewrite !FloatAxioms.ltb_spec, FloatAxioms.eqb_spec.
  unfold SFeqb, SFltb. intros H.
  destruct (SFcompare (Prim2SF x) (Prim2SF 0)) as [[]|] eqn:E;
    try discriminate.
  split; [reflexivity|]. now rewrite (SFcompare_Eq_sym _ _ E).
Qed.

(** A price against [price || 0]: neither below nor above. *)
Lemma or_else_zero_compares_false (p : number) :
  lt p (or_else p 0) = false /\ gt p (or_else p 0) = false.
Proof.
  unfold or_else, gt.
  destruct (PrimFloat.is_nan p) eqn:En; simpl.
  - apply (nan_compares_false p 0 En).
  - destruct (PrimFloat.is_zero p) eqn:Ez.
    + apply (zero_compares_false p Ez).
    + split; apply lt_irrefl.
Qed.

Lemma macd_equals_its_signal (prices volumes : list number) :
  macdSignal (calculateIndicators prices volumes)
  = macd (calculateIndicators prices volumes).
Proof.
  unfold calculateIndicators. cbv zeta.
  destruct (len prices <? 50)%Z; reflexivity.
Qed.

Lemma macdVote_computed (prices volumes : list number) (v : Votes) :
  macdVote (calculateIndicators prices volumes) v = v.
Proof.
  unfold macdVote. rewrite macd_equals_its_signal.
  now rewrite gt_irrefl, lt_irrefl.
Qed.

Lemma countVotes_computed (fmt : Formatting) (strategy : TradingStrategy)
    (currentPrice : number) (prices volumes : list number) :
  let v := countVotes fmt strategy currentPrice
             (calculateIndicators prices volumes) in
  (0 <= buySignals v)%Z /\ (0 <= sellSignals v)%Z /\
  (buySignals v + sellSignals v <= 4)%Z.
Proof.
  unfold countVotes. cbv zeta. rewrite macdVote_computed.
  set (ind := calculateIndicators prices volumes).
  set (c := conditions strategy).
  set (v0 := {| buySignals := 0; sellSignals := 0; described := [] |}).
  pose proof (VoteProps.rsiVote_one fmt c ind v0) as H1.
  set (v1 := rsiVote fmt c ind v0) in *.
  pose proof (VoteProps.emaVote_one c ind v1) as H2.
  set (v2 := emaVote c ind v1) in *.
  pose proof (VoteProps.volumeVote_one fmt c ind v2) as H3.
  set (v3 := volumeVote fmt c ind v2) in *.
  pose proof (VoteProps.priceVote_one c currentPrice ind v3) as H4.
  unfold VoteProps.oneMoreAtMost in *. simpl in H1. lia.
Qed.

(** X13: the MACD signal line [calculateIndicators] computes is the MACD
    value itself, so the MACD block of [generateSignal] never votes on
    computed indicators: at most four votes are cast, and the strength
    of the signal is 0, 0.6 or 0.8, never 1. *)
Theorem computed_signal_strength_below_one (fmt : Formatting)
    (strategies : list (string * TradingStrategy)) (now : number)
    (symbol : string) (currentPrice : number) (prices volumes : list number) :
  let ind := calculateIndicators prices volumes in
  let s := generateSignal fmt strategies now symbol currentPrice ind in
  macdSignal ind = macd ind /\
  (forall v, macdVote ind v = v) /\
  (strength s = 0 \/ strength s = 0.6 \/ strength s = 0.8).
Proof.
  cbv zeta. split; [apply macd_equals_its_signal|].
  split; [apply macdVote_computed|].
  unfold generateSignal.
  destruct (Assoc.get strategies symbol) as [strategy|]; [|now left].
  destruct (enabled strategy); [|now left].
  simpl negb. cbv iota zeta.
  pose proof (countVotes_computed fmt strategy currentPrice prices volumes)
    as (Hb & Hs & Hsum).
  set (v := countVotes fmt strategy currentPrice _) in *.
  destruct ((sellSignals v <? buySignals v)%Z && (3 <=? buySignals v)%Z) eqn:Ebuy.
  - apply andb_prop in Ebuy as [_ E3]. apply Z.leb_le in E3.
    assert (E : buySignals v = 3%Z \/ buySignals v = 4%Z) by lia.
    simpl. destruct E as [-> | ->]; vm_compute; tauto.
  - destruct ((buySignals v <? sellSignals v)%Z && (3 <=? sellSignals v)%Z)
      eqn:Esell.
    + apply andb_prop in Esell as [_ E3]. apply Z.leb_le in E3.
      assert (E : sellSignals v = 3%Z \/ sellSignals v = 4%Z) by lia.
      simpl. destruct E as [-> | ->]; vm_compute; tauto.
    + now left.
Qed.

(** The indicators of a history shorter than 50. *)
Lemma warmup_indicators (prices volumes : list number) :
  (len prices < 50)%Z ->
  let current := or_else (get prices (len prices - 1)) 0 in
  let ind := calculateIndicators prices volumes in
  ema9 ind = current /\ ema21 ind = current /\
  bollingerUpper ind = current /\ bollingerLower ind = current.
Proof.
  intros H. unfold calculateIndicators. cbv zeta.
  rewrite (ltb_of_lt _ _ H). simpl. tauto.
Qed.

Lemma warmup_votes (fmt : Formatting) (strategy : TradingStrategy)
    (prices volumes : list number) :
  (len prices < 50)%Z ->
  let v := countVotes fmt strategy (get prices (len prices - 1))
             (calculateIndicators prices volumes) in
  (0 <= buySignals v)%Z /\ (0 <= sellSignals v)%Z /\
  (buySignals v + sellSignals v <= 2)%Z.
Proof.
  intros Hshort. unfold countVotes. cbv zeta. rewrite macdVote_computed.
  destruct (warmup_indicators prices volumes Hshort) as (E9 & E21 & Eup & Elow).
  set (ind := calculateIndicators prices volumes) in *.
  set (c := conditions strategy).
  set (v0 := {| buySignals := 0; sellSignals := 0; described := [] |}).
  pose proof (VoteProps.rsiVote_one fmt c ind v0) as H1.
  set (v1 := rsiVote fmt c ind v0) in *.
  assert (H2 : emaVote c ind v1 = v1).
  { unfold emaVote. rewrite E9, E21, gt_irrefl, lt_irrefl.
    now destruct (emaSignal c). }
  rewrite H2.
  pose proof (VoteProps.volumeVote_one fmt c ind v1) as H3.
  set (v3 := volumeVote fmt c ind v1) in *.
  assert (H4 : priceVote c (get prices (len prices - 1)) ind v3 = v3).
  { unfold priceVote. rewrite Eup, Elow.
    destruct (or_else_zero_compares_false (get prices (len prices - 1)))
      as [-> ->].
    now destruct (priceAction c). }
  rewrite H4.
  unfold VoteProps.oneMoreAtMost in *. simpl in H1. lia.
Qed.

Lemma warmup_signal_is_hold (fmt : Formatting)
    (strategies : list (string * TradingStrategy)) (now : number)
    (symbol : string) (prices volumes : list number) :
  (len prices < 50)%Z ->
  action (generateSignal fmt strategies now symbol
            (get prices (len prices - 1))
            (calculateIndicators prices volumes)) = HOLD.
Proof.
  intros Hshort. unfold generateSignal.
  destruct (Assoc.get strategies symbol) as [strategy|]; [|reflexivity].
  destruct (enabled strategy); [|reflexivity].
  simpl negb. cbv iota zeta.
  pose proof (warmup_votes fmt strategy prices volumes Hshort) as (Hb & Hs & Hsum).
  set (v := countVotes fmt strategy _ _) in *.
  destruct (Z.leb_spec 3 (buySignals v)); [lia|].
  destruct (Z.leb_spec 3 (sellSignals v)); [lia|].
  rewrite !andb_false_r. reflexivity.
Qed.

End LiveSignalProps.

(** ** One pass of the live trading loop *)

Module LiveLoopProps.

Import LiveIndicators LiveEngine.
Local Open Scope float_scope.

(** The first part of the loop body: the tick of the feed is appended to
    both histories, logged, and both histories are cut to their last 100
    entries once the price history exceeds 100. *)
Definition recorded (env : Environment) (symbol : string) (st : State) : State :=
  let price := feedPrice env symbol in
  let volume := feedVolume env symbol in
  let st := with_histories
              (fun h => <[symbol := (default [] (h !! symbol) ++ [price])%list]> h)
              (fun h => <[symbol := (default [] (h !! symbol) ++ [volume])%list]> h)
              st in
  let st := addLog env (symbol +:+ ": ₹" +:+ toFixed (fmt env) price 2
                        +:+ " | Vol: "
                        +:+ toFixed (fmt env) (volume / 1000) 0 +:+ "K")
                   info st in
  if (100 <? len (default [] (priceHistory st !! symbol)))%Z
  then with_histories
         (fun h => <[symbol := slice_from (default [] (h !! symbol)) (-100)]> h)
         (fun h => <[symbol := slice_from (default [] (h !! symbol)) (-100)]> h)
         st
  else st.

(** The signal of the pass, from the recorded histories. *)
Definition signalOf (view : View) (env : Environment) (symbol : string)
    (st : State) : TradingSignal :=
  generateSignal (fmt env) (strategies view) (now env) symbol
    (feedPrice env symbol)
    (calculateIndicators
       (default [] (priceHistory (recorded env symbol st) !! symbol))
       (default [] (volumeHistory (recorded env symbol st) !! symbol))).

(** The state before the exit checks of the pass. *)
Definition decided (view : View) (env : Environment) (symbol : string)
    (st : State) : State :=
  let st2 := recorded env symbol st in
  let calculated :=
    calculateIndicators (default [] (priceHistory st2 !! symbol))
                        (default [] (volumeHistory st2 !! symbol)) in
  let st2 := with_indicatorsOf (fun prev => Assoc.set prev symbol calculated) st2 in
  let signal := signalOf view env symbol st in
  if decide (action signal = HOLD) then st2
  else
    let st3 := with_signals (fun prev => signal :: slice prev 0 19) st2 in
    let st4 := addLog env ("🎯 " +:+ Action_to_string (action signal)
                           +:+ " signal for " +:+ symbol +:+ ": "
                           +:+ String.concat ", " (signal_conditions signal))
                      warning st3 in
    if ge (strength signal) 0.6 then executeTrade view env signal st4 else st4.

Lemma tick_decided (view : View) (env : Environment) (symbol : string)
    (st : State) :
  tick view env symbol st
  = match Assoc.get (strategies view) symbol with
    | None => st
    | Some strategy =>
        if negb (enabled strategy) then st
        else fold_left (fun st position =>
                          checkExitConditions view env position
                            (feedPrice env symbol) st)
                       (filter (fun p => pos_symbol p = symbol)
                               (view_positions view))
                       (decided view env symbol st)
    end.
Proof. reflexivity. Qed.

(** What the trade and exit steps leave alone. *)
Definition sameBooks (st st' : State) : Prop :=
  signals st' = signals st /\
  priceHistory st' = priceHistory st /\
  volumeHistory st' = volumeHistory st /\
  indicatorsOf st' = indicatorsOf st.

Lemma sameBooks_refl (st : State) : sameBooks st st.
Proof. now repeat split. Qed.

Lemma sameBooks_trans (a b c : State) :
  sameBooks a b -> sameBooks b c -> sameBooks a c.
Proof. unfold sameBooks. intuition congruence. Qed.

Lemma executeTrade_sameBooks (view : View) (env : Environment)
    (signal : TradingSignal) (st : State) :
  sameBooks st (executeTrade view env signal st).
Proof.
  unfold executeTrade.
  destruct (rejectedByGate signal); [apply sameBooks_refl|].
  destruct (Assoc.get (strategies view) (signal_symbol signal)) as [strategy|];
    [|apply sameBooks_refl].
  destruct (ge _ (maxPositions strategy)); [now repeat split|].
  cbv zeta.
  destruct (lt _ 30000); [now repeat split|].
  unfold placeOrder.
  destruct (broker env _ (entryOrder env strategy signal)); now repeat split.
Qed.

Lemma checkExitConditions_sameBooks (view : View) (env : Environment)
    (position : LivePosition) (price : number) (st : State) :
  sameBooks st (checkExitConditions view env position price st) /\
  lastTradeTime (checkExitConditions view env position price st)
  = lastTradeTime st.
Proof.
  unfold checkExitConditions.
  destruct (Assoc.get (strategies view) (pos_symbol position));
    [|split; [apply sameBooks_refl|reflexivity]].
  cbv zeta. unfold exitPosition, placeOrder.
  destruct (le _ _).
  - cbv zeta. cbn [fst snd].
    match goal with |- context [broker env ?n ?o] => destruct (broker env n o) end;
      now repeat split.
  - destruct (ge _ _); [|now repeat split].
    cbv zeta. cbn [fst snd].
    match goal with |- context [broker env ?n ?o] => destruct (broker env n o) end;
      now repeat split.
Qed.

Lemma exits_sameBooks (view : View) (env : Environment) (price : number)
    (open : list LivePosition) (st : State) :
  let st' := fold_left (fun st position =>
                          checkExitConditions view env position price st)
                       open st in
  sameBooks st st' /\ lastTradeTime st' = lastTradeTime st.
Proof.
  revert st. induction open as [|position open IH]; intros st; simpl.
  - split; [apply sameBooks_refl|reflexivity].
  - destruct (IH (checkExitConditions view env position price st)) as [Hb Ht].
    destruct (checkExitConditions_sameBooks view env position price st)
      as [Hb0 Ht0].
    split; [eapply sameBooks_trans; eassumption|congruence].
Qed.

Lemma last_n_all {A} (n : nat) (a : list A) :
  (length a <= n)%nat -> last_n n a = a.
Proof.
  intros H. unfold last_n.
  replace (length a - n)%nat with 0%nat by lia. reflexivity.
Qed.

Lemma recorded_prices (env : Environment) (symbol : string) (st : State) :
  priceHistory (recorded env symbol st) !! symbol
  = Some (last_n 100 (default [] (priceHistory st !! symbol)
                      ++ [feedPrice env symbol])).
Proof.
  unfold recorded. cbv zeta.
  cbn [priceHistory with_histories addLog with_logs].
  rewrite lookup_insert_eq. cbn [default from_option id].
  destruct (Z.ltb_spec 100 (len (default [] (priceHistory st !! symbol)
                                 ++ [feedPrice env symbol]))) as [Hgt|Hle].
  - cbn [priceHistory with_histories addLog with_logs].
    rewrite !lookup_insert_eq. cbn [default from_option id].
    now rewrite (EvictionProps.slice_from_negative _ 100) by lia.
  - cbn [priceHistory with_histories addLog with_logs].
    rewrite lookup_insert_eq. unfold len in Hle.
    now rewrite last_n_all by lia.
Qed.

Lemma recorded_volumes (env : Environment) (symbol : string) (st : State) :
  length (default [] (volumeHistory st !! symbol))
  = length (default [] (priceHistory st !! symbol)) ->
  volumeHistory (recorded env symbol st) !! symbol
  = Some (last_n 100 (default [] (volumeHistory st !! symbol)
                      ++ [feedVolume env symbol])).
Proof.
  intros Hsame. unfold recorded. cbv zeta.
  cbn [priceHistory volumeHistory with_histories addLog with_logs].
  rewrite lookup_insert_eq. cbn [default from_option id].
  destruct (Z.ltb_spec 100 (len (default [] (priceHistory st !! symbol)
                                 ++ [feedPrice env symbol]))) as [Hgt|Hle].
  - cbn [volumeHistory with_histories addLog with_logs].
    rewrite !lookup_insert_eq. cbn [default from_option id].
    now rewrite (EvictionProps.slice_from_negative _ 100) by lia.
  - cbn [volumeHistory with_histories addLog with_logs].
    rewrite lookup_insert_eq. unfold len in Hle.
    rewrite length_app in Hle. cbn [length] in Hle.
    rewrite last_n_all; [reflexivity|].
    rewrite length_app. cbn [length]. lia.
Qed.

Lemma recorded_others (env : Environment) (symbol other : string) (st : State) :
  other <> symbol ->
  priceHistory (recorded env symbol st) !! other = priceHistory st !! other /\
  volumeHistory (recorded env symbol st) !! other = volumeHistory st !! other.
Proof.
  intros Hne. unfold recorded. cbv zeta.
  match goal with |- context [if ?c then _ else _] => destruct c end;
    cbn [priceHistory volumeHistory with_histories addLog with_logs];
    now rewrite !lookup_insert_ne by congruence.
Qed.

Lemma recorded_frame (env : Environment) (symbol : string) (st : State) :
  signals (recorded env symbol st) = signals st /\
  positions (recorded env symbol st) = positions st /\
  placed (recorded env symbol st) = placed st /\
  lastTradeTime (recorded env symbol st) = lastTradeTime st /\
  performance (recorded env symbol st) = performance st.
Proof.
  unfold recorded. cbv zeta.
  match goal with |- context [if ?c then _ else _] => destruct c end;
    now repeat split.
Qed.

Lemma decided_histories (view : View) (env : Environment) (symbol : string)
    (st : State) :
  priceHistory (decided view env symbol st)
  = priceHistory (recorded env symbol st) /\
  volumeHistory (decided view env symbol st)
  = volumeHistory (recorded env symbol st).
Proof.
  unfold decided. cbv zeta.
  destruct (decide _); [now split|].
  destruct (ge _ 0.6); [|now split].
  match goal with
  | |- context [executeTrade view env ?sg ?st0] =>
      destruct (executeTrade_sameBooks view env sg st0) as (_ & -> & -> & _)
  end.
  now split.
Qed.

Lemma tick_histories (view : View) (env : Environment) (symbol : string)
    (strategy : TradingStrategy) (st : State) :
  Assoc.get (strategies view) symbol = Some strategy ->
  enabled strategy = true ->
  priceHistory (tick view env symbol st)
  = priceHistory (recorded env symbol st) /\
  volumeHistory (tick view env symbol st)
  = volumeHistory (recorded env symbol st).
Proof.
  intros Hget Hon. rewrite tick_decided, Hget, Hon. simpl negb. cbv iota.
  match goal with
  | |- context [fold_left _ ?open ?st1] =>
      destruct (exits_sameBooks view env (feedPrice env symbol) open st1)
        as [(_ & -> & -> & _) _]
  end.
  apply decided_histories.
Qed.

(** X14: each pass of an enabled strategy appends the tick's price to the
    symbol's history and keeps the last 100 prices; the histories of the
    other symbols are untouched; the volume history, when as long as the
    price history, is kept the same way. *)
Theorem tick_keeps_last_100_prices (view : View) (env : Environment)
    (symbol : string) (strategy : TradingStrategy) (st : State) :
  Assoc.get (strategies view) symbol = Some strategy ->
  enabled strategy = true ->
  let st' := tick view env symbol st in
  priceHistory st' !! symbol
  = Some (last_n 100 (default [] (priceHistory st !! symbol)
                      ++ [feedPrice env symbol])) /\
  (forall other, other <> symbol ->
     priceHistory st' !! other = priceHistory st !! other /\
     volumeHistory st' !! other = volumeHistory st !! other) /\
  (length (default [] (volumeHistory st !! symbol))
   = length (default [] (priceHistory st !! symbol)) ->
   volumeHistory st' !! symbol
   = Some (last_n 100 (default [] (volumeHistory st !! symbol)
                       ++ [feedVolume env symbol]))).
Proof.
  intros Hget Hon st'. subst st'.
  destruct (tick_histories view env symbol strategy st Hget Hon) as [-> ->].
  split; [apply recorded_prices|].
  split; [intros other Hne; now apply recorded_others|].
  apply recorded_volumes.
Qed.

Lemma tick_keeps_last_100_prices_witness :
  length <$> (priceHistory (tick LiveScenario.view LiveScenario.env "BANKNIFTY"
                              LiveScenario.state) !! "BANKNIFTY")
  = Some 50%nat.
Proof.
  destruct (tick_keeps_last_100_prices LiveScenario.view LiveScenario.env
              "BANKNIFTY" _ LiveScenario.state eq_refl eq_refl) as (-> & _).
  vm_compute. reflexivity.
Defined.

Lemma get_last (a : list number) (x : number) :
  get (a ++ [x]) (len (a ++ [x]) - 1) = x.
Proof.
  unfold get, len. rewrite length_app. cbn [length].
  destruct (Z.ltb_spec (Z.of_nat (length a + 1) - 1) 0) as [|_]; [lia|].
  replace (Z.to_nat (Z.of_nat (length a + 1) - 1)) with (length a) by lia.
  now rewrite nth_middle.
Qed.

Lemma warmup_signalOf (view : View) (env : Environment) (symbol : string)
    (st : State) :
  (length (default [] (priceHistory st !! symbol)) < 49)%nat ->
  action (signalOf view env symbol st) = HOLD.
Proof.
  intros Hshort. unfold signalOf. rewrite recorded_prices.
  cbn [default from_option id].
  rewrite last_n_all by (rewrite length_app; cbn [length]; lia).
  set (l := (default [] (priceHistory st !! symbol) ++ [feedPrice env symbol])%list).
  assert (E : feedPrice env symbol = get l (len l - 1))
    by (subst l; now rewrite get_last).
  assert (Hl : (len l < 50)%Z)
    by (subst l; unfold len; rewrite length_app; cbn [length]; lia).
  pose proof (LiveSignalProps.warmup_signal_is_hold (fmt env) (strategies view)
                (now env) symbol l
                (default [] (volumeHistory (recorded env symbol st) !! symbol))
                Hl) as H.
  now rewrite <- E in H.
Qed.

(** X15: while a symbol has fewer than 50 prices after the tick is
    recorded, the pass generates HOLD whatever the strategy's thresholds
    are: no signal is stored, the cooldown is not started and the only
    orders the pass can send are exits of open positions. *)
Theorem warmup_pass_sends_no_entry (view : View) (env : Environment)
    (symbol : string) (st : State) :
  (length (default [] (priceHistory st !! symbol)) < 49)%nat ->
  let st' := tick view env symbol st in
  action (signalOf view env symbol st) = HOLD /\
  signals st' = signals st /\
  lastTradeTime st' = lastTradeTime st /\
  exists exits,
    placed st' = (placed st ++ exits)%list /\
    Forall LiveOrderProps.isExit exits.
Proof.
  intros Hshort st'. subst st'.
  pose proof (warmup_signalOf view env symbol st Hshort) as Hhold.
  split; [exact Hhold|].
  rewrite tick_decided.
  destruct (Assoc.get (strategies view) symbol) as [strategy|];
    [|repeat split; exists []; split; [now rewrite app_nil_r|constructor]].
  destruct (negb (enabled strategy));
    [repeat split; exists []; split; [now rewrite app_nil_r|constructor]|].
  assert (Hdecided : decided view env symbol st
                     = with_indicatorsOf
                         (fun prev =>
                            Assoc.set prev symbol
                              (calculateIndicators
                                 (default [] (priceHistory (recorded env symbol st)
                                              !! symbol))
                                 (default [] (volumeHistory (recorded env symbol st)
                                              !! symbol))))
                         (recorded env symbol st)).
  { unfold decided. cbv zeta.
    destruct (decide (action (signalOf view env symbol st) = HOLD));
      [reflexivity|contradiction]. }
  destruct (recorded_frame env symbol st) as (Hsig & _ & Hplaced & Hlast & _).
  match goal with
  | |- context [fold_left _ ?open ?st1] =>
      destruct (exits_sameBooks view env (feedPrice env symbol) open st1)
        as [(-> & _) ->];
      destruct (LiveOrderProps.exits_placed view env (feedPrice env symbol)
                  open st1) as (exits & -> & Hexits)
  end.
  rewrite Hdecided.
  cbn [signals lastTradeTime placed with_indicatorsOf].
  split; [exact Hsig|]. split; [exact Hlast|].
  exists exits. now rewrite Hplaced.
Qed.

Lemma warmup_pass_sends_no_entry_witness :
  signals (tick LiveScenario.view LiveScenario.env "NIFTY" LiveScenario.state)
  = [] /\
  lastTradeTime (tick LiveScenario.view LiveScenario.env "NIFTY"
                   LiveScenario.state) = ∅.
Proof.
  assert (Hshort : (length (default []
                              (priceHistory LiveScenario.state !! "NIFTY"))
                    < 49)%nat) by (vm_compute; lia).
  destruct (warmup_pass_sends_no_entry LiveScenario.view LiveScenario.env
              "NIFTY" LiveScenario.state Hshort) as (_ & Hsignals & Hlast & _).
  split; [exact Hsignals|exact Hlast].
Defined.

Lemma slice_first (A : Type) (a : list A) (n : nat) :
  slice a 0 (Z.of_nat n) = take n a.
Proof.
  unfold slice, rel_index, len.
  destruct (Z.ltb_spec 0 0) as [|_]; [lia|].
  destruct (Z.ltb_spec (Z.of_nat n) 0) as [|_]; [lia|].
  rewrite (Z.min_l 0) by lia. rewrite Z.sub_0_r.
  change (Z.to_nat 0) with 0%nat. cbn [drop].
  destruct (Nat.le_gt_cases n (length a)) as [Hle|Hgt].
  - now rewrite Z.min_l, Nat2Z.id by lia.
  - rewrite Z.min_r, Nat2Z.id by lia.
    rewrite (take_ge a n) by lia. apply take_ge. lia.
Qed.

Lemma decided_signals (view : View) (env : Environment) (symbol : string)
    (st : State) :
  signals (decided view env symbol st)
  = if decide (action (signalOf view env symbol st) = HOLD) then signals st
    else signalOf view env symbol st :: take 19 (signals st).
Proof.
  destruct (recorded_frame env symbol st) as (Hsig & _).
  unfold decided. cbv zeta.
  destruct (decide _); [exact Hsig|].
  destruct (ge _ 0.6).
  - match goal with
    | |- context [executeTrade view env ?sg ?st0] =>
        destruct (executeTrade_sameBooks view env sg st0) as (-> & _)
    end.
    cbn [signals addLog with_logs with_signals with_indicatorsOf].
    now rewrite Hsig, (slice_first _ _ 19).
  - cbn [signals addLog with_logs with_signals with_indicatorsOf].
    now rewrite Hsig, (slice_first _ _ 19).
Qed.

Lemma tick_signals (view : View) (env : Environment) (symbol : string)
    (st : State) :
  signals (tick view env symbol st) = signals st \/
  (action (signalOf view env symbol st) <> HOLD /\
   signals (tick view env symbol st)
   = signalOf view env symbol st :: take 19 (signals st)).
Proof.
  rewrite tick_decided.
  destruct (Assoc.get (strategies view) symbol) as [strategy|]; [|now left].
  destruct (negb (enabled strategy)); [now left|].
  match goal with
  | |- context [fold_left _ ?open ?st1] =>
      destruct (exits_sameBooks view env (feedPrice env symbol) open st1)
        as [(-> & _) _]
  end.
  rewrite decided_signals.
  destruct (decide _); [now left|now right].
Qed.

(** X16: a pass either leaves the stored signals alone or puts its
    BUY or SELL signal in front of the first 19 of them; so a list of at
    most 20 signals stays at most 20 long over a whole run of the loop. *)
Theorem signals_newest_first_at_most_20 (view : View) (env : Environment)
    (st : State) :
  (length (signals st) <= 20)%nat ->
  (length (signals (runTradingLoop view env st)) <= 20)%nat /\
  (forall symbol,
     signals (tick view env symbol st) = signals st \/
     (action (signalOf view env symbol st) <> HOLD /\
      signals (tick view env symbol st)
      = signalOf view env symbol st :: take 19 (signals st))).
Proof.
  intros Hcap. split; [|intros symbol; apply tick_signals].
  unfold runTradingLoop.
  destruct (negb (isRunning view)); [exact Hcap|].
  cbv zeta.
  set (st0 := addLog env _ info st).
  assert (H0 : (length (signals st0) <= 20)%nat) by exact Hcap.
  revert H0. generalize st0. clear st0 Hcap st.
  induction (Assoc.keys (strategies view)) as [|symbol symbols IH];
    intros st Hcap; [exact Hcap|].
  simpl. apply IH.
  destruct (tick_signals view env symbol st) as [-> | [_ ->]]; [exact Hcap|].
  cbn [length]. rewrite length_take. lia.
Qed.

Lemma signals_newest_first_at_most_20_witness :
  (length (signals (runTradingLoop LiveScenario.view LiveScenario.env
                      LiveScenario.state)) <= 20)%nat.
Proof.
  apply (signals_newest_first_at_most_20 LiveScenario.view LiveScenario.env
           LiveScenario.state).
  simpl. lia.
Defined.

Lemma capped_push (A : Type) (prev : list A) (entry : A) :
  (slice_from prev (-199) ++ [entry])%list = last_n 200 (prev ++ [entry]).
Proof.
  change (-199)%Z with (- Z.of_nat 199)%Z.
  rewrite (EvictionProps.slice_from_negative prev 199) by lia.
  unfold last_n. rewrite length_app. cbn [length].
  destruct (Nat.le_gt_cases (length prev) 199) as [Hle|Hgt].
  - replace (length prev - 199)%nat with 0%nat by lia.
    replace (length prev + 1 - 200)%nat with 0%nat by lia. reflexivity.
  - replace (length prev + 1 - 200)%nat with (length prev - 199)%nat by lia.
    now rewrite drop_app_le by lia.
Qed.

Lemma capped_push_length (A : Type) (prev : list A) (entry : A) :
  (length (slice_from prev (-199) ++ [entry]) <= 200)%nat.
Proof.
  rewrite capped_push, EvictionProps.last_n_length. lia.
Qed.

Ltac logs_capped H :=
  cbn [logs addLog with_logs with_positions with_lastTradeTime
       with_performance with_placed with_histories with_indicatorsOf
       with_signals];
  first [exact H | apply capped_push_length].

Lemma executeTrade_logs (view : View) (env : Environment)
    (signal : TradingSignal) (st : State) :
  (length (logs st) <= 200)%nat ->
  (length (logs (executeTrade view env signal st)) <= 200)%nat.
Proof.
  intros H. unfold executeTrade.
  destruct (rejectedByGate signal); [exact H|].
  destruct (Assoc.get (strategies view) (signal_symbol signal)) as [strategy|];
    [|exact H].
  destruct (ge _ (maxPositions strategy)); [logs_capped H|].
  cbv zeta.
  destruct (lt _ 30000); [logs_capped H|].
  unfold placeOrder.
  destruct (broker env _ (entryOrder env strategy signal)); logs_capped H.
Qed.

Lemma checkExitConditions_logs (view : View) (env : Environment)
    (position : LivePosition) (price : number) (st : State) :
  (length (logs st) <= 200)%nat ->
  (length (logs (checkExitConditions view env position price st)) <= 200)%nat.
Proof.
  intros H. unfold checkExitConditions.
  destruct (Assoc.get (strategies view) (pos_symbol position)); [|exact H].
  cbv zeta. unfold exitPosition, placeOrder.
  destruct (le _ _).
  - cbv zeta. cbn [fst snd].
    match goal with |- context [broker env ?n ?o] => destruct (broker env n o) end;
      logs_capped H.
  - destruct (ge _ _); [|logs_capped H].
    cbv zeta. cbn [fst snd].
    match goal with |- context [broker env ?n ?o] => destruct (broker env n o) end;
      logs_capped H.
Qed.

Lemma tick_logs (view : View) (env : Environment) (symbol : string)
    (st : State) :
  (length (logs st) <= 200)%nat ->
  (length (logs (tick view env symbol st)) <= 200)%nat.
Proof.
  intros H. rewrite tick_decided.
  destruct (Assoc.get (strategies view) symbol) as [strategy|]; [|exact H].
  destruct (negb (enabled strategy)); [exact H|].
  assert (Hdecided : (length (logs (decided view env symbol st)) <= 200)%nat).
  { unfold decided, recorded. cbv zeta.
    destruct (decide _).
    - match goal with |- context [if ?c then _ else _] => destruct c end;
        logs_capped H.
    - destruct (ge _ 0.6).
      + apply executeTrade_logs. logs_capped H.
      + logs_capped H. }
  revert Hdecided. generalize (decided view env symbol st).
  induction (filter _ (view_positions view)) as [|position open IH];
    intros st1 H1; [exact H1|].
  simpl. apply IH. now apply checkExitConditions_logs.
Qed.

(** X17: [addLog] appends its line and keeps the last 200 lines, and
    every step of the loop logs through it: a log of at most 200 lines
    stays at most 200 long over a whole run of the loop. *)
Theorem live_log_keeps_200_lines (view : View) (env : Environment)
    (st : State) :
  (length (logs st) <= 200)%nat ->
  (length (logs (runTradingLoop view env st)) <= 200)%nat /\
  (forall message t,
     logs (addLog env message t st)
     = last_n 200 (logs st ++ ["[" +:+ stamp env +:+ "] " +:+ emoji t
                               +:+ " " +:+ message])).
Proof.
  intros Hcap. split; [|intros message t; apply capped_push].
  unfold runTradingLoop.
  destruct (negb (isRunning view)); [exact Hcap|].
  cbv zeta.
  set (st0 := addLog env _ info st).
  assert (H0 : (length (logs st0) <= 200)%nat) by (subst st0; logs_capped Hcap).
  revert H0. generalize st0. clear st0 Hcap st.
  induction (Assoc.keys (strategies view)) as [|symbol symbols IH];
    intros st Hcap; [exact Hcap|].
  simpl. apply IH. now apply tick_logs.
Qed.

Lemma live_log_keeps_200_lines_witness :
  (length (logs (runTradingLoop LiveScenario.view LiveScenario.env
                   LiveScenario.state)) <= 200)%nat.
Proof.
  apply (live_log_keeps_200_lines LiveScenario.view LiveScenario.env
           LiveScenario.state).
  simpl. lia.
Defined.

End LiveLoopProps.

(** ** Positions of the live engine *)

Module LivePositionProps.

Import LiveIndicators LiveEngine.
Local Open Scope float_scope.

(** The two quantities [executeTrade] tests before it sends an order. *)
Definition heldInView (view : View) (symbol : string) : number :=
  of_Z (len (filter (fun p => pos_symbol p = symbol) (view_positions view))).

Definition sinceLastTrade (env : Environment) (st : State) (symbol : string)
  : number :=
  now env - or_else (default nan (lastTradeTime st !! symbol)) 0.

(** Nothing but the log has changed. *)
Definition onlyLogged (st st' : State) : Prop :=
  placed st' = placed st /\ positions st' = positions st /\
  performance st' = performance st /\ lastTradeTime st' = lastTradeTime st.

Lemma executeTrade_full (view : View) (env : Environment)
    (signal : TradingSignal) (strategy : TradingStrategy) (st : State) :
  Assoc.get (strategies view) (signal_symbol signal) = Some strategy ->
  ge (heldInView view (signal_symbol signal)) (maxPositions strategy) = true ->
  onlyLogged st (executeTrade view env signal st).
Proof.
  intros Hget Hfull. unfold executeTrade, heldInView in *.
  destruct (rejectedByGate signal); [now repeat split|].
  rewrite Hget. cbv zeta. rewrite Hfull. now repeat split.
Qed.

Lemma executeTrade_cooling (view : View) (env : Environment)
    (signal : TradingSignal) (st : State) :
  lt (sinceLastTrade env st (signal_symbol signal)) 30000 = true ->
  onlyLogged st (executeTrade view env signal st).
Proof.
  intros Hsoon. unfold executeTrade, sinceLastTrade in *.
  destruct (rejectedByGate signal); [now repeat split|].
  destruct (Assoc.get (strategies view) (signal_symbol signal)) as [strategy|];
    [|now repeat split].
  destruct (ge _ (maxPositions strategy)); [now repeat split|].
  cbv zeta. rewrite Hsoon. now repeat split.
Qed.

(** The position [executeTrade] opens. *)
Definition opened (env : Environment) (strategy : TradingStrategy)
    (signal : TradingSignal) (order_id : option string) : LivePosition :=
  {| pos_id := "pos_" +:+ toString (fmt env) (now env) +:+ "_" +:+ fresh env;
     pos_symbol := signal_symbol signal;
     side := action signal;
     pos_quantity := quantity strategy;
     entryPrice := price signal;
     currentPrice := price signal;
     pnl := 0;
     pos_timestamp := now env;
     orderId := order_id |}.

Lemma executeTrade_booked (view : View) (env : Environment)
    (signal : TradingSignal) (st : State) :
  let st' := executeTrade view env signal st in
  (positions st' = positions st /\ performance st' = performance st /\
   lastTradeTime st' = lastTradeTime st) \/
  (exists strategy order_id,
      Assoc.get (strategies view) (signal_symbol signal) = Some strategy /\
      rejectedByGate signal = false /\
      placed st' = (placed st ++ [entryOrder env strategy signal])%list /\
      broker env (length (placed st)) (entryOrder env strategy signal)
      = Acknowledged order_id /\
      positions st' = (positions st ++ [opened env strategy signal order_id])%list /\
      lastTradeTime st'
      = <[signal_symbol signal := now env]> (lastTradeTime st) /\
      totalTrades (performance st') = totalTrades (performance st) + 1 /\
      totalPnL (performance st') = totalPnL (performance st)).
Proof.
  cbv zeta. unfold executeTrade.
  destruct (rejectedByGate signal) eqn:Egate; [now left|].
  destruct (Assoc.get (strategies view) (signal_symbol signal))
    as [strategy|] eqn:Eget; [|now left].
  destruct (ge _ (maxPositions strategy)); [now left|].
  cbv zeta.
  destruct (lt _ 30000); [now left|].
  unfold placeOrder.
  cbn [placed addLog with_logs].
  destruct (broker env (length (placed st)) (entryOrder env strategy signal))
    as [order_id|err|e] eqn:Ereply; [|now left|now left].
  right. exists strategy, order_id. now repeat split.
Qed.

(** X18: with the position count of the view at the strategy's maximum,
    or less than 30 s on the clock since the symbol's last trade,
    [executeTrade] sends no order and opens no position; it only logs. *)
Theorem entry_guards_block_orders (view : View) (env : Environment)
    (signal : TradingSignal) (strategy : TradingStrategy) (st : State) :
  Assoc.get (strategies view) (signal_symbol signal) = Some strategy ->
  ge (heldInView view (signal_symbol signal)) (maxPositions strategy) = true
  \/ lt (sinceLastTrade env st (signal_symbol signal)) 30000 = true ->
  let st' := executeTrade view env signal st in
  placed st' = placed st /\ positions st' = positions st /\
  performance st' = performance st /\ lastTradeTime st' = lastTradeTime st.
Proof.
  intros Hget [Hfull|Hsoon] st'; subst st'.
  - exact (executeTrade_full view env signal strategy st Hget Hfull).
  - exact (executeTrade_cooling view env signal st Hsoon).
Qed.

(** A BUY signal of strength 0.8 for the bank index. *)
Definition strongBuy : TradingSignal :=
  {| signal_symbol := "BANKNIFTY"; action := BUY; strength := 0.8;
     price := 85; timestamp := 60000;
     indicators := LiveScenario.snapshot; signal_conditions := [] |}.

(** The scenario, 10 s after a trade of the bank index. *)
Definition tradedRecently : State :=
  with_lastTradeTime (fun m => <[ "BANKNIFTY" := 50000 ]> m) LiveScenario.state.

Lemma entry_guards_block_orders_witness :
  placed (executeTrade LiveScenario.view LiveScenario.env strongBuy
            tradedRecently) = [] /\
  positions (executeTrade LiveScenario.view LiveScenario.env strongBuy
               tradedRecently) = [].
Proof.
  assert (Hsoon : lt (sinceLastTrade LiveScenario.env tradedRecently
                        (signal_symbol strongBuy)) 30000 = true)
    by (vm_compute; reflexivity).
  destruct (entry_guards_block_orders LiveScenario.view LiveScenario.env
              strongBuy _ tradedRecently eq_refl (or_intror Hsoon))
    as (Hplaced & Hpositions & _).
  split; [exact Hplaced|exact Hpositions].
Defined.

(** The strategy under which [executeTrade] sends the entry order of a
    signal, if it sends one: the signal passes the strength gate, its
    symbol has a strategy, the position count of the view is below the
    strategy's maximum and the cooldown of the symbol has run out. *)
Definition cleared (view : View) (env : Environment) (signal : TradingSignal)
    (st : State) : option TradingStrategy :=
  if rejectedByGate signal then None
  else
    match Assoc.get (strategies view) (signal_symbol signal) with
    | None => None
    | Some strategy =>
        if ge (heldInView view (signal_symbol signal)) (maxPositions strategy)
        then None
        else if lt (sinceLastTrade env st (signal_symbol signal)) 30000
             then None
             else Some strategy
    end.

(** X19: [executeTrade] sends the entry order exactly when the signal
    is cleared, and opens the position, counts the trade and starts the
    symbol's cooldown exactly when, in addition, the broker acknowledges
    that order; in every other case positions, performance and cooldowns
    are as before.  So the positions have changed if and only if the
    signal was cleared and its order acknowledged. *)
Theorem entry_is_booked_on_acknowledgement (view : View) (env : Environment)
    (signal : TradingSignal) (st : State) :
  let st' := executeTrade view env signal st in
  let unchanged :=
    positions st' = positions st /\ performance st' = performance st /\
    lastTradeTime st' = lastTradeTime st in
  match cleared view env signal st with
  | None => placed st' = placed st /\ unchanged
  | Some strategy =>
      placed st' = (placed st ++ [entryOrder env strategy signal])%list /\
      match broker env (length (placed st)) (entryOrder env strategy signal) with
      | Acknowledged order_id =>
          positions st'
          = (positions st ++ [opened env strategy signal order_id])%list /\
          lastTradeTime st'
          = <[signal_symbol signal := now env]> (lastTradeTime st) /\
          totalTrades (performance st') = totalTrades (performance st) + 1 /\
          totalPnL (performance st') = totalPnL (performance st)
      | _ => unchanged
      end
  end /\
  (positions st' <> positions st <->
   exists strategy order_id,
     cleared view env signal st = Some strategy /\
     broker env (length (placed st)) (entryOrder env strategy signal)
     = Acknowledged order_id).
Proof.
  cbv zeta. unfold cleared, executeTrade, heldInView, sinceLastTrade.
  assert (Hgrown : forall (l : list LivePosition) p, (l ++ [p])%list <> l).
  { intros l p H. apply (f_equal length) in H.
    rewrite length_app in H. cbn [length] in H. lia. }
  assert (Hnone : forall (P : Prop), (P -> False) ->
             (positions st <> positions st <-> P)) by (intros P HP; tauto).
  destruct (rejectedByGate signal) eqn:Egate.
  { split; [now repeat split|]. apply Hnone. intros (s & o & H & _). discriminate. }
  destruct (Assoc.get (strategies view) (signal_symbol signal))
    as [strategy|] eqn:Eget.
  2:{ split; [now repeat split|]. apply Hnone. intros (s & o & H & _). discriminate. }
  destruct (ge _ (maxPositions strategy)) eqn:Efull.
  { split; [now repeat split|]. apply Hnone. intros (s & o & H & _). discriminate. }
  cbv zeta.
  destruct (lt _ 30000) eqn:Esoon.
  { split; [now repeat split|]. apply Hnone. intros (s & o & H & _). discriminate. }
  unfold placeOrder.
  cbn [placed addLog with_logs].
  destruct (broker env (length (placed st)) (entryOrder env strategy signal))
    as [order_id|err|e] eqn:Ereply.
  - split; [now repeat split|].
    cbn [positions addLog with_logs with_positions with_performance
         with_lastTradeTime with_placed].
    split; [intros _; now exists strategy, order_id|intros _; apply Hgrown].
  - split; [now repeat split|]. apply Hnone.
    intros (s & o & H & Hack). inversion H; subst s. congruence.
  - split; [now repeat split|]. apply Hnone.
    intros (s & o & H & Hack). inversion H; subst s. congruence.
Qed.

(** X20: once an entry has been booked, a further signal for the same
    symbol at a clock reading less than 30 s later sends no order and
    opens no position, although the position count of the view has not
    changed. *)
Theorem cooldown_blocks_reentry (view : View) (env later : Environment)
    (signal again : TradingSignal) (st : State) :
  signal_symbol again = signal_symbol signal ->
  lt (now later - or_else (now env) 0) 30000 = true ->
  positions (executeTrade view env signal st) <> positions st ->
  let st1 := executeTrade view env signal st in
  let st2 := executeTrade view later again st1 in
  placed st2 = placed st1 /\ positions st2 = positions st1 /\
  performance st2 = performance st1.
Proof.
  intros Hsame Hsoon Hbooked st1 st2. subst st1 st2.
  destruct (executeTrade_booked view env signal st)
    as [(Hpos & _) | (strategy & order_id & _ & _ & _ & _ & _ & Hlast & _)];
    [contradiction|].
  destruct (executeTrade_cooling view later again
              (executeTrade view env signal st)) as (Hp & Hq & Hr & _).
  - unfold sinceLastTrade. rewrite Hsame, Hlast, lookup_insert_eq. exact Hsoon.
  - now repeat split.
Qed.

Lemma cooldown_blocks_reentry_witness :
  length (placed (executeTrade LiveScenario.view LiveScenario.env strongBuy
                    (executeTrade LiveScenario.view LiveScenario.env strongBuy
                       LiveScenario.state))) = 1%nat.
Proof.
  assert (Hsoon : lt (now LiveScenario.env - or_else (now LiveScenario.env) 0)
                     30000 = true) by (vm_compute; reflexivity).
  assert (Hbooked : positions (executeTrade LiveScenario.view LiveScenario.env
                                 strongBuy LiveScenario.state)
                    <> positions LiveScenario.state)
    by (vm_compute; discriminate).
  destruct (cooldown_blocks_reentry LiveScenario.view LiveScenario.env
              LiveScenario.env strongBuy strongBuy LiveScenario.state
              eq_refl Hsoon Hbooked) as (-> & _).
  vm_compute. reflexivity.
Defined.

Lemma filter_Forall {A} (P : A -> Prop) `{!forall x, Decision (P x)}
    (l : list A) :
  Forall P (filter P l).
Proof.
  apply Forall_forall. intros x Hx.
  now apply list_elem_of_filter in Hx as [HP _].
Qed.

(** The update of the position's price and P&L in [checkExitConditions]. *)
Definition repriced (position : LivePosition) (price : number)
    (p : LivePosition) : LivePosition :=
  if decide (pos_id p = pos_id position)
  then {| pos_id := pos_id p; pos_symbol := pos_symbol p;
          side := side p; pos_quantity := pos_quantity p;
          entryPrice := entryPrice p;
          currentPrice := price; pnl := pnlAt position price;
          pos_timestamp := pos_timestamp p;
          orderId := orderId p |}
  else p.

Lemma repriced_ids (position : LivePosition) (price : number)
    (l : list LivePosition) :
  map pos_id (map (repriced position price) l) = map pos_id l.
Proof.
  rewrite map_map. apply map_ext. intros p. unfold repriced.
  now destruct (decide _).
Qed.

(** X21: [checkExitConditions] sends the exit order exactly when the
    position's P&L is at or below minus the stop loss or at or above the
    take profit; the order is for the position's quantity on the other
    side.  If the broker acknowledges, the position is removed and its
    P&L added to the total; if not, the positions are repriced only and
    the performance is as before. *)
Theorem exit_follows_stop_or_target (view : View) (env : Environment)
    (position : LivePosition) (price : number) (strategy : TradingStrategy)
    (st : State) :
  Assoc.get (strategies view) (pos_symbol position) = Some strategy ->
  let pnl := pnlAt position price in
  let due := le pnl (- stopLoss strategy) || ge pnl (takeProfit strategy) in
  let st' := checkExitConditions view env position price st in
  placed st' = (if due then placed st ++ [exitOrder position price]
                else placed st)%list /\
  transaction_type (exitOrder position price) <> side position /\
  order_quantity (exitOrder position price) = pos_quantity position /\
  (due = false ->
   positions st' = map (repriced position price) (positions st) /\
   performance st' = performance st) /\
  (due = true ->
   match broker env (length (placed st)) (exitOrder position price) with
   | Acknowledged _ =>
       positions st'
       = filter (fun p => pos_id p <> pos_id position)
                (map (repriced position price) (positions st)) /\
       Forall (fun p => pos_id p <> pos_id position) (positions st') /\
       totalPnL (performance st') = totalPnL (performance st) + pnl /\
       totalTrades (performance st') = totalTrades (performance st)
   | _ =>
       positions st' = map (repriced position price) (positions st) /\
       performance st' = performance st
   end).
Proof.
  intros Hget. cbv zeta. unfold checkExitConditions. rewrite Hget. cbv zeta.
  fold (repriced position price).
  split.
  { unfold exitPosition, placeOrder.
    destruct (le _ _); simpl orb; cbv iota.
    - cbv zeta. cbn [fst snd].
      match goal with |- context [broker env ?n ?o] => destruct (broker env n o) end;
        reflexivity.
    - destruct (ge _ _); [|reflexivity].
      cbv zeta. cbn [fst snd].
      match goal with |- context [broker env ?n ?o] => destruct (broker env n o) end;
        reflexivity. }
  split; [simpl; destruct (side position); simpl; discriminate|].
  split; [reflexivity|].
  split.
  - intros Hdue. apply orb_false_elim in Hdue as [-> ->]. now split.
  - intros Hdue.
    assert (Hexit :
               (if le (pnlAt position price) (- stopLoss strategy)
                then exitPosition env position price "Stop Loss"
                       (with_positions (map (repriced position price)) st)
                else if ge (pnlAt position price) (takeProfit strategy)
                     then exitPosition env position price "Take Profit"
                            (with_positions (map (repriced position price)) st)
                     else with_positions (map (repriced position price)) st)
               = exitPosition env position price
                   (if le (pnlAt position price) (- stopLoss strategy)
                    then "Stop Loss" else "Take Profit")
                   (with_positions (map (repriced position price)) st)).
    { destruct (le _ _); [reflexivity|].
      simpl in Hdue. now rewrite Hdue. }
    rewrite Hexit. clear Hexit.
    unfold exitPosition, placeOrder. cbv zeta.
    cbn [placed addLog with_logs with_positions].
    destruct (broker env (length (placed st)) (exitOrder position price)).
    + cbn [positions performance addLog with_logs with_positions
           with_performance totalPnL totalTrades].
      split; [reflexivity|]. split; [apply filter_Forall|]. now split.
    + now split.
    + now split.
Qed.

(** A long position of 15 units entered at 100. *)
Definition longAt100 : LivePosition :=
  {| pos_id := "pos_1"; pos_symbol := "BANKNIFTY"; side := BUY;
     pos_quantity := 15; entryPrice := 100; currentPrice := 100; pnl := 0;
     pos_timestamp := 0; orderId := Some "ORD-0" |}.

Lemma exit_follows_stop_or_target_witness :
  placed (checkExitConditions LiveScenario.view LiveScenario.env longAt100 85
            LiveScenario.state) = [exitOrder longAt100 85] /\
  transaction_type (exitOrder longAt100 85) = SELL.
Proof.
  destruct (exit_follows_stop_or_target LiveScenario.view LiveScenario.env
              longAt100 85 _ LiveScenario.state eq_refl) as (Hplaced & _).
  split; [exact Hplaced|reflexivity].
Defined.

End LivePositionProps.

(** ** The last candle *)

Module CandleProps.

Import CandleUtils.
Local Open Scope float_scope.

Lemma at_index_last {A} (a : list A) : at_index a (len a - 1) = last a.
Proof.
  unfold at_index, len.
  destruct a as [|x a] using rev_ind; [reflexivity|].
  rewrite length_app. cbn [length].
  destruct (Z.ltb_spec (Z.of_nat (length a + 1) - 1) 0) as [|_]; [lia|].
  replace (Z.to_nat (Z.of_nat (length a + 1) - 1)) with (length a) by lia.
  rewrite last_snoc. now apply list_lookup_middle.
Qed.

Lemma last_n_snoc {A} (n : nat) (a : list A) (x : A) :
  (0 < n)%nat ->
  exists kept, last_n n (a ++ [x]) = (kept ++ [x])%list /\
               length kept = Nat.min (n - 1) (length a).
Proof.
  intros Hn. unfold last_n. rewrite length_app. cbn [length].
  exists (drop (length a + 1 - n) a).
  rewrite drop_app_le by lia. split; [reflexivity|].
  rewrite length_drop. lia.
Qed.

Lemma slice_but_last {A} (a : list A) (x : A) : slice (a ++ [x]) 0 (-1) = a.
Proof.
  unfold slice, rel_index, len. rewrite length_app. cbn [length].
  destruct (Z.ltb_spec 0 0) as [|_]; [lia|].
  destruct (Z.ltb_spec (-1) 0) as [_|]; [|lia].
  rewrite (Z.min_l 0) by lia.
  replace (Z.to_nat (Z.max (Z.of_nat (length a + 1) + -1) 0 - 0))
    with (length a) by lia.
  change (Z.to_nat 0) with 0%nat. rewrite drop_0.
  now rewrite take_app_length.
Qed.

Lemma addOrUpdateCandle_cases (candles : list Candle)
    (price timestamp intervalSec : number) :
  let result := addOrUpdateCandle candles price timestamp intervalSec in
  (exists c, last result = Some c /\ close c = price) /\
  (length result <= Nat.max 60 (length candles))%nat /\
  (startsNewCandle candles timestamp intervalSec = false ->
   exists earlier old c,
     candles = (earlier ++ [old])%list /\ result = (earlier ++ [c])%list /\
     time c = time old /\ open c = open old).
Proof.
  cbv zeta. unfold addOrUpdateCandle, startsNewCandle.
  rewrite at_index_last.
  destruct (last candles) as [old|] eqn:Elast.
  - apply last_Some in Elast as [earlier ->].
    destruct (negb (JS.eq (time old) (candleTime timestamp intervalSec))).
    + change (-60)%Z with (- Z.of_nat 60)%Z.
      rewrite (EvictionProps.slice_from_negative _ 60) by lia.
      destruct (last_n_snoc 60 (earlier ++ [old])
                  (newCandle price timestamp intervalSec)) as (kept & -> & Hlen);
        [lia|].
      split; [eexists; split; [apply last_snoc|reflexivity]|].
      split; [|discriminate].
      rewrite length_app. cbn [length]. lia.
    + rewrite slice_but_last.
      split; [eexists; split; [apply last_snoc|reflexivity]|].
      split; [rewrite !length_app; cbn [length]; lia|].
      intros _. eexists earlier, old, _. now repeat split.
  - change (-60)%Z with (- Z.of_nat 60)%Z.
    rewrite (EvictionProps.slice_from_negative _ 60) by lia.
    destruct (last_n_snoc 60 candles (newCandle price timestamp intervalSec))
      as (kept & -> & Hlen); [lia|].
    split; [eexists; split; [apply last_snoc|reflexivity]|].
    split; [|discriminate].
    rewrite length_app. cbn [length]. lia.
Qed.

Lemma feed_length (intervalSec : number) (ticks : list Tick)
    (candles : list Candle) :
  (length candles <= 60)%nat ->
  (length (feed intervalSec candles ticks) <= 60)%nat.
Proof.
  revert candles. unfold feed.
  induction ticks as [|tick ticks IH]; intros candles H; [exact H|].
  simpl. apply IH.
  destruct (addOrUpdateCandle_cases candles tick.1 tick.2 intervalSec)
    as (_ & Hlen & _).
  lia.
Qed.

(** X22: the candle list returned by [addOrUpdateCandle] always ends in a
    candle that closes at the given price and is never longer than 60
    or the input, so feeding any ticks to at most 60 candles leaves at
    most 60.  When the tick falls into the last candle's interval, the
    earlier candles are kept as they are and the last one keeps its time
    and open. *)
Theorem candle_tracks_latest_price (candles : list Candle)
    (price timestamp intervalSec : number) :
  let result := addOrUpdateCandle candles price timestamp intervalSec in
  (exists c, last result = Some c /\ close c = price) /\
  (length result <= Nat.max 60 (length candles))%nat /\
  (forall ticks, (length candles <= 60)%nat ->
                 (length (feed intervalSec candles ticks) <= 60)%nat) /\
  (startsNewCandle candles timestamp intervalSec = false ->
   exists earlier old c,
     candles = (earlier ++ [old])%list /\ result = (earlier ++ [c])%list /\
     time c = time old /\ open c = open old).
Proof.
  destruct (addOrUpdateCandle_cases candles price timestamp intervalSec)
    as (Hlast & Hlen & Hupdate).
  cbv zeta. split; [exact Hlast|]. split; [exact Hlen|].
  split; [intros ticks; apply feed_length|exact Hupdate].
Qed.

End CandleProps.

(** ** The execution gate on both paths *)

Module GateProps.

Import Registry.
Local Open Scope float_scope.

(** *** The scheduled path *)

Section Scheduled.

Import Server.

(** The signal of a turn: what [evaluateStrategy] returns on the price
    history the turn has just extended with the quote it fetched. *)
Definition turnSignal (env : Environment) (strategy : Strategy) (w : World)
  : option StrategySignal :=
  match quote env (length (requested w)) (symbol strategy) with
  | None => None
  | Some md =>
      match evaluateStrategy (CycleProps.historyAfter w strategy md)
                             (now env) strategy with
      | Normal signal => signal
      | Throw _ => None
      end
  end.

(** The orders [new] a turn has posted: none, or the entry order of the
    turn's own signal, which is then not HOLD and has confidence at
    least 70. *)
Definition turnEntry (env : Environment) (strategy : Strategy) (w : World)
    (new : list OrderData) : Prop :=
  new = [] \/
  exists signal,
    turnSignal env strategy w = Some signal /\
    action (Registry.signal signal) <> HOLD /\
    ge (confidence (Registry.signal signal)) 70 = true /\
    new = [entryOrder env strategy signal] /\
    transaction_type (entryOrder env strategy signal)
    = action (Registry.signal signal) /\
    order_quantity (entryOrder env strategy signal)
    = quantity (parameters strategy).

(** The orders of the turns of a cycle, turn by turn, each turn taken
    from the world the previous one left. *)
Inductive gatedTurns (env : Environment)
  : list (string * Strategy) -> World -> list OrderData -> Prop :=
| turns_done (w : World) : gatedTurns env [] w []
| turns_next (key : string) (strategy : Strategy)
    (entries : list (string * Strategy)) (w : World)
    (new later : list OrderData) :
    placed (exec (guardedStrategy env (key, strategy)) w) = placed w ++ new ->
    turnEntry env strategy w new ->
    gatedTurns env entries (exec (guardedStrategy env (key, strategy)) w) later ->
    gatedTurns env ((key, strategy) :: entries) w (new ++ later).

Lemma turn_posts_gated (env : Environment) (key : string) (strategy : Strategy)
    (w : World) :
  exists new,
    placed (exec (guardedStrategy env (key, strategy)) w) = placed w ++ new /\
    turnEntry env strategy w new.
Proof.
  destruct (CycleProps.guardedStrategy_spec env key strategy w)
    as (_ & _ & [Hsame | (md & signal & Hquote & Hev & Hgate & Hplaced)]).
  - exists []. split; [now rewrite app_nil_r|now left].
  - exists [entryOrder env strategy signal]. split; [exact Hplaced|].
    right. exists signal.
    split; [unfold turnSignal; now rewrite Hquote, Hev|].
    split; [exact (CycleProps.evaluateStrategy_not_hold _ _ _ _ Hev)|].
    now repeat split.
Qed.

Lemma turns_post_gated (env : Environment) (entries : list (string * Strategy))
    (w : World) :
  exists orders,
    placed (turns env entries w) = placed w ++ orders /\
    gatedTurns env entries w orders.
Proof.
  revert w. induction entries as [|[key strategy] entries IH]; intros w.
  - exists []. split; [simpl; now rewrite app_nil_r|constructor].
  - destruct (turn_posts_gated env key strategy w) as (new & Hnew & Hentry).
    destruct (IH (exec (guardedStrategy env (key, strategy)) w))
      as (later & Hlater & Hrest).
    exists (new ++ later). split.
    + rewrite CycleProps.turns_cons, Hlater, Hnew. now rewrite <- app_assoc.
    + now constructor.
Qed.

End Scheduled.

(** *** The live path *)

Section Live.

Import LiveIndicators LiveEngine LiveLoopProps.

(** The entry orders [new] a pass has sent: none, or the entry order of
    the signal [generateSignal] produced in this pass, which is then not
    HOLD, has strength at least 0.6 and is not rejected by
    [executeTrade]. *)
Definition passEntry (view : View) (env : Environment) (symbol : string)
    (st : State) (new : list OrderData) : Prop :=
  new = [] \/
  exists strategy,
    Assoc.get (strategies view) symbol = Some strategy /\
    action (signalOf view env symbol st) <> HOLD /\
    ge (strength (signalOf view env symbol st)) 0.6 = true /\
    rejectedByGate (signalOf view env symbol st) = false /\
    new = [entryOrder env strategy (signalOf view env symbol st)] /\
    transaction_type (entryOrder env strategy (signalOf view env symbol st))
    = action (signalOf view env symbol st) /\
    order_quantity (entryOrder env strategy (signalOf view env symbol st))
    = quantity strategy.

(** The orders of the passes of a run of the loop, pass by pass, each
    pass taken from the state the previous one left: the entry order of
    the pass, if any, then the exits of positions. *)
Inductive gatedPasses (view : View) (env : Environment)
  : list string -> State -> list OrderData -> Prop :=
| passes_done (st : State) : gatedPasses view env [] st []
| passes_next (symbol : string) (symbols : list string) (st : State)
    (new exits later : list OrderData) :
    placed (tick view env symbol st) = placed st ++ new ++ exits ->
    passEntry view env symbol st new ->
    Forall LiveOrderProps.isExit exits ->
    gatedPasses view env symbols (tick view env symbol st) later ->
    gatedPasses view env (symbol :: symbols) st (new ++ exits ++ later).

Lemma signalOf_symbol (view : View) (env : Environment) (symbol : string)
    (st : State) :
  signal_symbol (signalOf view env symbol st) = symbol.
Proof.
  unfold signalOf, generateSignal.
  destruct (Assoc.get (strategies view) symbol) as [strategy|]; [|reflexivity].
  destruct (negb (enabled strategy)); [reflexivity|].
  cbv zeta.
  match goal with
  | |- context [if ?c then _ else _] => destruct c; [reflexivity|]
  end.
  match goal with
  | |- context [if ?c then _ else _] => destruct c; reflexivity
  end.
Qed.

Lemma decided_posts_gated (view : View) (env : Environment) (symbol : string)
    (st : State) :
  exists new,
    placed (decided view env symbol st) = placed st ++ new /\
    passEntry view env symbol st new.
Proof.
  destruct (recorded_frame env symbol st) as (_ & _ & Hplaced & _).
  unfold decided. cbv zeta.
  destruct (decide (action (signalOf view env symbol st) = HOLD)) as [|Hact].
  { exists []. split; [|now left].
    rewrite app_nil_r. exact Hplaced. }
  destruct (ge (strength (signalOf view env symbol st)) 0.6) eqn:Estrength.
  2:{ exists []. split; [|now left].
      rewrite app_nil_r. exact Hplaced. }
  match goal with
  | |- context [executeTrade view env ?sg ?st0] =>
      destruct (LiveOrderProps.executeTrade_placed view env sg st0)
        as [-> | (strategy & Hget & Hgate & ->)]
  end.
  - exists []. split; [|now left].
    rewrite app_nil_r. exact Hplaced.
  - rewrite signalOf_symbol in Hget.
    exists [entryOrder env strategy (signalOf view env symbol st)].
    split.
    + cbn [placed addLog with_logs with_signals with_indicatorsOf].
      now rewrite Hplaced.
    + right. exists strategy. now repeat split.
Qed.

Lemma tick_posts_gated (view : View) (env : Environment) (symbol : string)
    (st : State) :
  exists new exits,
    placed (tick view env symbol st) = placed st ++ new ++ exits /\
    passEntry view env symbol st new /\
    Forall LiveOrderProps.isExit exits.
Proof.
  rewrite tick_decided.
  destruct (Assoc.get (strategies view) symbol) as [strategy|].
  2:{ exists [], []. split; [now rewrite app_nil_r|].
      split; [now left|constructor]. }
  destruct (negb (enabled strategy)).
  { exists [], []. split; [now rewrite app_nil_r|].
    split; [now left|constructor]. }
  destruct (decided_posts_gated view env symbol st) as (new & Hnew & Hentry).
  match goal with
  | |- context [fold_left _ ?open ?st1] =>
      destruct (LiveOrderProps.exits_placed view env (feedPrice env symbol)
                  open st1) as (exits & -> & Hexits)
  end.
  exists new, exits. rewrite Hnew. split; [now rewrite app_assoc|].
  now split.
Qed.

Lemma passes_post_gated (view : View) (env : Environment)
    (symbols : list string) (st : State) :
  exists orders,
    placed (fold_left (fun st symbol => tick view env symbol st) symbols st)
    = placed st ++ orders /\
    gatedPasses view env symbols st orders.
Proof.
  revert st. induction symbols as [|symbol symbols IH]; intros st.
  - exists []. split; [simpl; now rewrite app_nil_r|constructor].
  - destruct (tick_posts_gated view env symbol st)
      as (new & exits & Hnew & Hentry & Hexits).
    destruct (IH (tick view env symbol st)) as (later & Hlater & Hrest).
    exists (new ++ exits ++ later). split.
    + simpl. rewrite Hlater, Hnew. now rewrite <- !app_assoc.
    + now constructor.
Qed.

(** An exit order is tagged [exit_...], an entry order [live_trading_...]. *)
Lemma exit_is_no_entry (position : LivePosition) (price : number)
    (env : Environment) (strategy : TradingStrategy) (signal : TradingSignal) :
  exitOrder position price <> entryOrder env strategy signal.
Proof.
  intros H. apply (f_equal tag) in H. simpl in H. discriminate.
Qed.

End Live.

(** C2: no entry order is placed for a signal that is HOLD or below the
    gate of its path, and a placed entry order carries the signal's
    action as its transaction type and the strategy's configured
    quantity.  On the scheduled path the orders a cycle posts are those
    of its turns, in order, and a turn posts nothing or the entry order
    of the signal [evaluateStrategy] returned in that very turn, which is
    then not HOLD and has confidence at least 70.  On the live path the
    orders a run of the loop sends are those of its passes, in order,
    and a pass sends nothing or the entry order of the signal
    [generateSignal] produced in that very pass, which is then not HOLD
    and has strength at least 0.6, followed by exits of open positions;
    an exit order is never an entry order. *)
Theorem entry_orders_pass_the_gate :
  (forall (env : Server.Environment) (w : Server.World),
      exists orders,
        Server.placed (Server.exec (Server.executeAutoTrading env) w)
          = Server.placed w ++ orders /\
        if Server.autoTradingEnabled (Server.systemStatus w)
        then gatedTurns env (Server.activeStrategies w) w orders
        else orders = []) /\
  (forall (view : LiveEngine.View) (env : LiveEngine.Environment)
          (st : LiveEngine.State),
      exists orders,
        LiveEngine.placed (LiveEngine.runTradingLoop view env st)
          = LiveEngine.placed st ++ orders /\
        if LiveEngine.isRunning view
        then gatedPasses view env (Assoc.keys (LiveEngine.strategies view))
               (LiveEngine.addLog env
                  "📊 Analyzing market data and generating signals..."
                  LiveEngine.info st)
               orders
        else orders = []) /\
  (forall (position : LiveEngine.LivePosition) (price : number)
          (env : LiveEngine.Environment) (strategy : LiveEngine.TradingStrategy)
          (signal : LiveEngine.TradingSignal),
      LiveEngine.exitOrder position price
      <> LiveEngine.entryOrder env strategy signal).
Proof.
  split; [|split].
  - intros env w. unfold Server.exec.
    rewrite CycleProps.executeAutoTrading_turns. simpl.
    destruct (Server.autoTradingEnabled (Server.systemStatus w)).
    + apply turns_post_gated.
    + exists []. split; [now rewrite app_nil_r|reflexivity].
  - intros view env st. unfold LiveEngine.runTradingLoop.
    destruct (LiveEngine.isRunning view); simpl negb; cbv iota.
    + cbv zeta.
      destruct (passes_post_gated view env
                  (Assoc.keys (LiveEngine.strategies view))
                  (LiveEngine.addLog env
                     "📊 Analyzing market data and generating signals..."
                     LiveEngine.info st)) as (orders & Hplaced & Hrun).
      exists orders. split; [exact Hplaced|exact Hrun].
    + exists []. split; [now rewrite app_nil_r|reflexivity].
  - apply exit_is_no_entry.
Qed.

(** On the live scenario the loop sends one order: the BUY of the
    configured 15 units, entry order of the pass of the bank index. *)
Lemma entry_orders_pass_the_gate_witness :
  map (fun o => (transaction_type o, order_quantity o))
      (LiveEngine.placed
         (LiveEngine.runTradingLoop LiveScenario.view LiveScenario.env
                                    LiveScenario.state))
    = [(BUY, 15%float)] /\
  exists orders,
    LiveEngine.placed
      (LiveEngine.runTradingLoop LiveScenario.view LiveScenario.env
                                 LiveScenario.state)
      = orders /\
    gatedPasses LiveScenario.view LiveScenario.env ["BANKNIFTY"; "NIFTY"]
      (LiveEngine.addLog LiveScenario.env
         "📊 Analyzing market data and generating signals..."
         LiveEngine.info LiveScenario.state)
      orders.
Proof.
  split; [vm_compute; reflexivity|].
  destruct entry_orders_pass_the_gate as (_ & Hlive & _).
  destruct (Hlive LiveScenario.view LiveScenario.env LiveScenario.state)
    as (orders & Hplaced & Hrun).
  exists orders. split; [exact Hplaced|exact Hrun].
Defined.

End GateProps.
